(** * The realtime message broker of hybrid-chat-H5-demo

    A shallow embedding of the server side of the chat application
    (SessionManager.js, StorageService.js, SupabaseStorageService.js,
    MessageHandler.js and WebSocketServer.js) and the properties of its
    dispatcher, registry, stores and per-connection queue. *)

From Stdlib Require Import List String Ascii ZArith Bool Lia Arith.
From Stdlib Require Import DecimalString.
Import ListNotations.

Local Open Scope string_scope.
Local Open Scope list_scope.
Local Open Scope Z_scope.

(** ** JavaScript values that travel in frames *)

(** The result of [JSON.parse]. Numbers are the integers: every number the
    protocol carries (limit, timestamp) is integer valued. An object is the
    list of its own properties, each name occurring once. *)
#[local] Unset Elimination Schemes.
Inductive json : Type :=
| JNull
| JBool (b : bool)
| JNum (n : Z)
| JStr (s : string)
| JArr (items : list json)
| JObj (props : list (string * json)).
#[local] Set Elimination Schemes.

(** A JavaScript value is a [json] or [undefined] (written [None]). *)
Definition value := option json.

Fixpoint assoc {A : Type} (k : string) (l : list (string * A)) : option A :=
  match l with
  | [] => None
  | (k', v) :: rest => if String.eqb k k' then Some v else assoc k rest
  end.

(** [data.name] for the property names the server reads (type, userId,
    content, id, timestamp, lastMessageId, limit): none of them is defined
    on a primitive or on an array, so only an object can answer. Reading a
    property of [null] is a TypeError and is handled where it can occur. *)
Definition prop (name : string) (data : json) : value :=
  match data with
  | JObj props => assoc name props
  | _ => None
  end.

Definition typeof (v : value) : string :=
  match v with
  | None => "undefined"
  | Some JNull => "object"
  | Some (JBool _) => "boolean"
  | Some (JNum _) => "number"
  | Some (JStr _) => "string"
  | Some (JArr _) => "object"
  | Some (JObj _) => "object"
  end.

(** ToBoolean. *)
Definition truthy (v : value) : bool :=
  match v with
  | None => false
  | Some JNull => false
  | Some (JBool b) => b
  | Some (JNum n) => negb (n =? 0)
  | Some (JStr s) => negb (String.eqb s "")
  | Some (JArr _) => true
  | Some (JObj _) => true
  end.

(** [a === b]. Objects and arrays compare by reference; the two sides of
    every comparison made here come from separately parsed frames, so such a
    comparison is false. *)
Definition strict_equals (a b : value) : bool :=
  match a, b with
  | None, None => true
  | Some JNull, Some JNull => true
  | Some (JBool x), Some (JBool y) => Bool.eqb x y
  | Some (JNum x), Some (JNum y) => x =? y
  | Some (JStr x), Some (JStr y) => String.eqb x y
  | _, _ => false
  end.

(** ** Strings *)

(** A string is a sequence of code units below 256. White space as
    [String.prototype.trim] sees it in that range: TAB, LF, VT, FF, CR,
    SPACE and NO-BREAK SPACE. *)
Definition isWhiteSpace (c : ascii) : bool :=
  let n := nat_of_ascii c in
  ((9 <=? n) && (n <=? 13) || (n =? 32) || (n =? 160))%nat.

Fixpoint trimStart (s : string) : string :=
  match s with
  | EmptyString => EmptyString
  | String c rest => if isWhiteSpace c then trimStart rest else s
  end.

Fixpoint reverse (s acc : string) : string :=
  match s with
  | EmptyString => acc
  | String c rest => reverse rest (String c acc)
  end.

Definition trim (s : string) : string :=
  reverse (trimStart (reverse (trimStart s) "")) "".

(** [s.trim().length === 0] *)
Definition blank (s : string) : bool :=
  (String.length (trim s) =? 0)%nat.

(** Decimal rendering of a number inside a template string. *)
Definition string_of_Z (n : Z) : string :=
  NilZero.string_of_int (Z.to_int n).

(** ** Messages and frames *)

(** A chat message as the handlers build it. [id] and [timestamp] are taken
    from the client's frame when truthy there, whatever their JSON shape. *)
Record Message : Type := mkMessage {
  type : string;
  id : json;
  senderId : option string;
  content : string;
  timestamp : json
}.

(** A connection handle. *)
Definition WebSocket := nat.

(** What the server hands to [ws.send] (the argument of [JSON.stringify]). *)
Inductive Frame : Type :=
| ERROR (message : string) (timestamp : option Z)
| LOGIN_SUCCESS (userId : string)
| HISTORY_RESPONSE (messages : list Message) (hasMore : bool)
| Chat (m : Message).

(** [msg => msg.id === messageId] *)
Definition has_id (messageId : value) (msg : Message) : bool :=
  strict_equals (Some (id msg)) messageId.

(** ** The environment of one dispatch *)

(** Everything a handler reads from outside the server object while it
    processes one payload: the clock, the uuid generator, the behaviour of
    the sockets' [send], the file system and the remote table. Within one
    dispatch the clock is read as one value and a failing resource keeps
    failing. *)
Record Env : Type := mkEnv {
  now : Z;                               (* Date.now() *)
  uuid : string;                         (* uuidv4() *)
  send_throws : WebSocket -> bool;       (* ws.send raises *)
  mkdir_fails : bool;                    (* fs.mkdir rejects *)
  readFile_fails : bool;                 (* fs.readFile rejects *)
  writeFile_fails : bool;                (* fs.writeFile rejects *)
  probe_error : option string;           (* error code of the Supabase probe *)
  insert_error : bool;                   (* Supabase insert answers an error *)
  target_reply : value -> option json;   (* timestamp of the row with this id *)
  select_reply : option json -> Z -> option (list Message)
                                         (* rows below a timestamp, newest first *)
}.

(** A call either returns or throws. *)
Inductive outcome (A : Type) : Type :=
| Returned (a : A)
| Thrown (error : string).
Arguments Returned {A} a.
Arguments Thrown {A} error.

(** ** Array helpers *)

(** [Array.prototype.findIndex]: the first index whose element satisfies
    [p], or -1. *)
Fixpoint findIndex {A : Type} (p : A -> bool) (l : list A) : Z :=
  match l with
  | [] => -1
  | x :: rest =>
      if p x then 0
      else let i := findIndex p rest in if i <? 0 then -1 else i + 1
  end.

(** A relative index of [slice]: negative counts from the end, and the
    result is clamped to [0, len]. *)
Definition relative_index (len i : Z) : Z :=
  if i <? 0 then Z.max (len + i) 0 else Z.min i len.

(** [Array.prototype.slice(start, end)]; [end] is [None] when omitted. *)
Definition slice {A : Type} (l : list A) (start : Z) (end_ : option Z) : list A :=
  let len := Z.of_nat (List.length l) in
  let k := relative_index len start in
  let final := match end_ with
               | None => len
               | Some e => relative_index len e
               end in
  firstn (Z.to_nat (final - k)) (skipn (Z.to_nat k) l).

(** ** StorageService.js: the file-backed store *)

Module StorageService.

(** The object's fields, and [file]: what the file at [storagePath] holds
    ([None] while it does not exist). *)
Record t : Type := mk {
  storagePath : string;
  messages : list Message;
  initialized : bool;
  file : option (list Message)
}.

(** [new StorageService(path)]; [onDisk] is what the file holds then. *)
Definition create (path : string) (onDisk : option (list Message)) : t :=
  {| storagePath := path; messages := []; initialized := false; file := onDisk |}.

Definition readFile (env : Env) (s : t) : option (list Message) :=
  if readFile_fails env then None else file s.

(** [initialize()] catches every error itself. *)
Definition initialize (env : Env) (s : t) : t :=
  if mkdir_fails env then
    {| storagePath := storagePath s; messages := [];
       initialized := true; file := file s |}
  else
    match readFile env s with
    | Some saved =>
        {| storagePath := storagePath s; messages := saved;
           initialized := true; file := file s |}
    | None =>
        {| storagePath := storagePath s; messages := [];
           initialized := true; file := file s |}
    end.

Definition ensure_initialized (env : Env) (s : t) : t :=
  if initialized s then s else initialize env s.

(** [saveMessage(message)]: push, then rewrite the file; a failed write is
    rethrown after the push. *)
Definition saveMessage (env : Env) (message : Message) (s : t) : t * outcome unit :=
  let s := ensure_initialized env s in
  let pushed := messages s ++ [message] in
  if writeFile_fails env then
    ({| storagePath := storagePath s; messages := pushed;
        initialized := initialized s; file := file s |},
     Thrown "writeFile")
  else
    ({| storagePath := storagePath s; messages := pushed;
        initialized := initialized s; file := Some pushed |},
     Returned tt).

(** [getMessagesBefore(messageId, limit = 20)]. On an array of messages
    nothing inside its [try] throws, so the [catch] that answers the empty
    array is not reached here. *)
Definition getMessagesBefore (env : Env) (messageId : value) (limit : option Z)
    (s : t) : t * outcome (list Message) :=
  let limit := match limit with Some n => n | None => 20 end in
  let s := ensure_initialized env s in
  let messageIndex :=
    findIndex (has_id messageId) (messages s) in
  if messageIndex =? -1 then
    (s, Returned (slice (messages s) (- limit) None))
  else
    let startIndex := Z.max 0 (messageIndex - limit) in
    (s, Returned (slice (messages s) startIndex (Some messageIndex))).

(** [getAllMessages()] *)
Definition getAllMessages (env : Env) (s : t) : t * outcome (list Message) :=
  let s := ensure_initialized env s in
  (s, Returned (messages s)).

(** [deleteMessage(messageId)] *)
Definition deleteMessage (env : Env) (messageId : value) (s : t) : t * outcome unit :=
  let s := ensure_initialized env s in
  let kept :=
    filter (fun msg => negb (has_id messageId msg)) (messages s) in
  if writeFile_fails env then
    ({| storagePath := storagePath s; messages := kept;
        initialized := initialized s; file := file s |},
     Thrown "writeFile")
  else
    ({| storagePath := storagePath s; messages := kept;
        initialized := initialized s; file := Some kept |},
     Returned tt).

(** [clear()] *)
Definition clear (env : Env) (s : t) : t * outcome unit :=
  ({| storagePath := storagePath s; messages := [];
      initialized := initialized s;
      file := if writeFile_fails env then file s else Some [] |},
   Returned tt).

End StorageService.

(** ** SupabaseStorageService.js: the store on a remote table

    The table lives in a remote service; its replies are read from the
    environment. *)

Module SupabaseStorageService.

Record t : Type := mk { initialized : bool }.

Definition create : t := {| initialized := false |}.

(** [new SupabaseStorageService(supabaseUrl, supabaseKey)]: both
    credentials are required, and are handed to the library's
    [createClient], which throws on credentials it cannot use (a URL that
    is not an http or https address, for one). [createClient] says what the
    library throws for a pair of credentials, if anything. *)
Definition construct (createClient : value -> value -> option string)
    (supabaseUrl supabaseKey : value) : outcome t :=
  if negb (truthy supabaseUrl) || negb (truthy supabaseKey)
  then Thrown "Supabase URL and Key are required"
  else
    match createClient supabaseUrl supabaseKey with
    | Some error => Thrown error
    | None => Returned create
    end.

(** [initialize()] rethrows what the probe reports. *)
Definition initialize (env : Env) (s : t) : t * outcome unit :=
  match probe_error env with
  | Some code =>
      (s, Thrown (if String.eqb code "42P01"
                  then "Database table not found" else code))
  | None => ({| initialized := true |}, Returned tt)
  end.

(** [saveMessage(message)] *)
Definition saveMessage (env : Env) (message : Message) (s : t) : t * outcome unit :=
  let '(s, ready) :=
    if initialized s then (s, Returned tt) else initialize env s in
  match ready with
  | Thrown e => (s, Thrown e)
  | Returned _ =>
      if insert_error env then (s, Thrown "insert") else (s, Returned tt)
  end.

(** The page query: an error is thrown inside the [try] and ends in the
    [catch], which answers the empty array. *)
Definition page (env : Env) (bound : option json) (limit : Z) : list Message :=
  match select_reply env bound limit with
  | Some rows => rev rows
  | None => []
  end.

(** [getMessagesBefore(messageId, limit = 20)]; the lazy [initialize]
    runs before the [try]. *)
Definition getMessagesBefore (env : Env) (messageId : value) (limit : option Z)
    (s : t) : t * outcome (list Message) :=
  let limit := match limit with Some n => n | None => 20 end in
  let '(s, ready) :=
    if initialized s then (s, Returned tt) else initialize env s in
  match ready with
  | Thrown e => (s, Thrown e)
  | Returned _ =>
      if truthy messageId then
        match target_reply env messageId with
        | None => (s, Returned (page env None limit))
        | Some stamp => (s, Returned (page env (Some stamp) limit))
        end
      else (s, Returned (page env None limit))
  end.

(** The match of [/^data:([^;]+);base64,(.+)$/] that [uploadMedia] makes on
    its first argument. [[^;]+] takes the characters up to the first
    semicolon, line breaks included, and must take one at least; [(.+)$]
    takes the rest of the text, which must not be empty and must not hold a
    line terminator, since the dot matches none and [$] only the end. *)
Fixpoint startsWith (prefix s : string) : option string :=
  match prefix, s with
  | EmptyString, _ => Some s
  | String a prefix', String b s' =>
      if Ascii.eqb a b then startsWith prefix' s' else None
  | String _ _, EmptyString => None
  end.

Definition isSemicolon (c : ascii) : bool := (nat_of_ascii c =? 59)%nat.

Definition isLineTerminator (c : ascii) : bool :=
  ((nat_of_ascii c =? 10) || (nat_of_ascii c =? 13))%nat.

Fixpoint some_char (p : ascii -> bool) (s : string) : bool :=
  match s with
  | EmptyString => false
  | String c rest => p c || some_char p rest
  end.

(** The longest prefix without a semicolon, and what follows it. *)
Fixpoint upToSemicolon (s : string) : string * string :=
  match s with
  | EmptyString => (EmptyString, EmptyString)
  | String c rest =>
      if isSemicolon c then (EmptyString, s)
      else let (taken, left) := upToSemicolon rest in (String c taken, left)
  end.

(** The two groups of the match, or [None] when the text does not match. *)
Definition match_data_url (base64Data : string) : option (string * string) :=
  match startsWith "data:" base64Data with
  | None => None
  | Some rest =>
      let (contentType, tail) := upToSemicolon rest in
      if String.eqb contentType "" then None
      else
        match startsWith ";base64," tail with
        | None => None
        | Some base64Content =>
            if String.eqb base64Content "" || some_char isLineTerminator base64Content
            then None
            else Some (contentType, base64Content)
        end
  end.

(** What is handed to the bucket's [upload]: the object's name, the text
    whose base64 decoding is the buffer, and the content type. *)
Record Upload : Type := mkUpload {
  bucket : string;
  uniqueFileName : string;
  base64Content : string;
  contentType : string
}.

(** [uploadMedia(base64Data, fileName, bucket = 'chat-media')] on a text.
    The storage service is remote: [upload_error] says whether it answers
    an upload with an error, [publicUrl] what address it gives an object.
    The result pairs the uploads that were requested with what the call
    returns or throws. *)
Definition uploadMedia (env : Env) (upload_error : Upload -> bool)
    (publicUrl : string -> string -> string)
    (base64Data fileName : string) (bucket : option string)
    : list Upload * outcome string :=
  let bucket := match bucket with
                | Some b => b
                | None => "chat-media"
                end in
  match match_data_url base64Data with
  | None => ([], Thrown "Invalid base64 data format")
  | Some (contentType, base64Content) =>
      let uniqueFileName := (string_of_Z (now env) ++ "-" ++ fileName)%string in
      let request := {| bucket := bucket; uniqueFileName := uniqueFileName;
                        base64Content := base64Content;
                        contentType := contentType |} in
      if upload_error request then ([request], Thrown "upload")
      else ([request], Returned (publicUrl bucket uniqueFileName))
  end.

End SupabaseStorageService.

(** The store a server runs on is one of the two services. *)
Inductive Storage : Type :=
| FileBacked (s : StorageService.t)
| Supabase (s : SupabaseStorageService.t).

Definition storage_saveMessage (env : Env) (message : Message) (st : Storage)
    : Storage * outcome unit :=
  match st with
  | FileBacked s =>
      let '(s', r) := StorageService.saveMessage env message s in (FileBacked s', r)
  | Supabase s =>
      let '(s', r) := SupabaseStorageService.saveMessage env message s in (Supabase s', r)
  end.

Definition storage_getMessagesBefore (env : Env) (messageId : value)
    (limit : option Z) (st : Storage) : Storage * outcome (list Message) :=
  match st with
  | FileBacked s =>
      let '(s', r) := StorageService.getMessagesBefore env messageId limit s in
      (FileBacked s', r)
  | Supabase s =>
      let '(s', r) := SupabaseStorageService.getMessagesBefore env messageId limit s in
      (Supabase s', r)
  end.

(** ** SessionManager.js *)

Module SessionManager.

Record Session : Type := mkSession {
  userId : string;
  ws : WebSocket;
  connectedAt : Z;
  lastActivity : Z
}.

(** The [sessions] Map, as its entries in insertion order. *)
Definition t := list (string * Session).

(** [Map.prototype.set]: an existing key keeps its place. *)
Fixpoint set (key : string) (session : Session) (m : t) : t :=
  match m with
  | [] => [(key, session)]
  | (k, s) :: rest =>
      if String.eqb key k then (key, session) :: rest
      else (k, s) :: set key session rest
  end.

Definition createSession (env : Env) (userId : string) (ws : WebSocket) (m : t) : t :=
  set userId {| userId := userId; ws := ws;
                connectedAt := now env; lastActivity := now env |} m.

Definition getSession (userId : string) (m : t) : option Session :=
  assoc userId m.

(** [Map.prototype.delete] *)
Definition removeSession (userId : string) (m : t) : t :=
  filter (fun entry => negb (String.eqb userId (fst entry))) m.

(** The first entry, in insertion order, whose session holds [ws]. *)
Fixpoint findUserIdByWs (socket : WebSocket) (m : t) : option string :=
  match m with
  | [] => None
  | (userId, session) :: rest =>
      if Nat.eqb (ws session) socket then Some userId
      else findUserIdByWs socket rest
  end.

Definition getAllSessions (m : t) : list Session := map snd m.

(** [updateActivity] writes into the session object the Map holds. *)
Fixpoint updateActivity (env : Env) (key : string) (m : t) : t :=
  match m with
  | [] => []
  | (k, s) :: rest =>
      if String.eqb key k
      then (k, {| userId := userId s; ws := ws s;
                  connectedAt := connectedAt s; lastActivity := now env |}) :: rest
      else (k, s) :: updateActivity env key rest
  end.

End SessionManager.

(** ** The server object and its effects *)

(** What a dispatch does to the outside, in the order it does it. *)
Inductive Effect : Type :=
| Send (ws : WebSocket) (frame : Frame)        (* ws.send was called with the frame *)
| Register (userId : string) (ws : WebSocket)  (* createSession *)
| Query (messageId : value) (limit : Z)        (* getMessagesBefore was called *)
| Persist (message : Message) (stored : bool). (* saveMessage was called; did it return *)

(** The server: registry, store and the sockets' [readyState].
    [storageService] is [None] for a handler built without one. *)
Record Server : Type := mkServer {
  sessions : SessionManager.t;
  storageService : option Storage;
  readyState : WebSocket -> Z
}.

(** What one run of server code leaves: the server after it, the effects
    it had, and whether it returned or threw. *)
Record Run (A : Type) : Type := mkRun {
  after : Server;
  effects : list Effect;
  result : outcome A
}.
Arguments mkRun {A} after effects result.
Arguments after {A} r.
Arguments effects {A} r.
Arguments result {A} r.

(** Code that runs on the server and may throw. *)
Definition M (A : Type) : Type := Server -> Run A.

Definition ret {A : Type} (a : A) : M A :=
  fun s => {| after := s; effects := []; result := Returned a |}.

Definition throw {A : Type} (error : string) : M A :=
  fun s => {| after := s; effects := []; result := Thrown error |}.

Definition bind {A B : Type} (m : M A) (k : A -> M B) : M B :=
  fun s =>
    let r := m s in
    match result r with
    | Returned a =>
        let r' := k a (after r) in
        {| after := after r'; effects := effects r ++ effects r';
           result := result r' |}
    | Thrown e => {| after := after r; effects := effects r; result := Thrown e |}
    end.

(** [try { m } catch (error) { handler }] *)
Definition try_catch {A : Type} (m : M A) (handler : string -> M A) : M A :=
  fun s =>
    let r := m s in
    match result r with
    | Returned a => r
    | Thrown e =>
        let r' := handler e (after r) in
        {| after := after r'; effects := effects r ++ effects r';
           result := result r' |}
    end.

Notation "x <- m ;; k" := (bind m (fun x => k))
  (at level 61, m at next level, right associativity).
Notation "m ;; k" := (bind m (fun _ => k))
  (at level 61, right associativity).

Definition emit (e : Effect) : M unit :=
  fun s => {| after := s; effects := [e]; result := Returned tt |}.

(** [ws.send(JSON.stringify(frame))] *)
Definition send (env : Env) (ws : WebSocket) (frame : Frame) : M unit :=
  emit (Send ws frame) ;;
  if send_throws env ws then throw "send" else ret tt.

Definition getReadyState (ws : WebSocket) : M Z :=
  fun s => {| after := s; effects := []; result := Returned (readyState s ws) |}.

Definition getSessions : M SessionManager.t :=
  fun s => {| after := s; effects := []; result := Returned (sessions s) |}.

Definition setSessions (m : SessionManager.t) : M unit :=
  fun s => {| after := {| sessions := m; storageService := storageService s;
                          readyState := readyState s |};
              effects := []; result := Returned tt |}.

Definition createSession (env : Env) (userId : string) (ws : WebSocket) : M unit :=
  m <- getSessions ;;
  setSessions (SessionManager.createSession env userId ws m) ;;
  emit (Register userId ws).

Definition findUserIdByWs (ws : WebSocket) : M (option string) :=
  m <- getSessions ;; ret (SessionManager.findUserIdByWs ws m).

Definition updateActivity (env : Env) (userId : string) : M unit :=
  m <- getSessions ;; setSessions (SessionManager.updateActivity env userId m).

Definition removeSession (userId : string) : M unit :=
  m <- getSessions ;; setSessions (SessionManager.removeSession userId m).

Definition hasStorage : M bool :=
  fun s => {| after := s; effects := [];
              result := Returned (match storageService s with
                                  | Some _ => true
                                  | None => false
                                  end) |}.

Definition returned {A : Type} (o : outcome A) : bool :=
  match o with
  | Returned _ => true
  | Thrown _ => false
  end.

(** [await this.storageService.saveMessage(message)] *)
Definition saveMessage (env : Env) (message : Message) : M unit :=
  fun s =>
    match storageService s with
    | None => {| after := s; effects := [];
                 result := Thrown "TypeError: storageService is null" |}
    | Some st =>
        let r := storage_saveMessage env message st in
        {| after := {| sessions := sessions s; storageService := Some (fst r);
                       readyState := readyState s |};
           effects := [Persist message (returned (snd r))];
           result := snd r |}
    end.

(** [await this.storageService.getMessagesBefore(messageId, limit)] *)
Definition getMessagesBefore (env : Env) (messageId : value) (limit : Z)
    : M (list Message) :=
  fun s =>
    match storageService s with
    | None => {| after := s; effects := [];
                 result := Thrown "TypeError: storageService is null" |}
    | Some st =>
        let r := storage_getMessagesBefore env messageId (Some limit) st in
        {| after := {| sessions := sessions s; storageService := Some (fst r);
                       readyState := readyState s |};
           effects := [Query messageId limit];
           result := snd r |}
    end.

(** [!x || x.trim().length === 0]; calling [trim] on a truthy value that is
    not a string is a TypeError. *)
Definition missing_or_blank (x : value) : M bool :=
  if negb (truthy x) then ret true
  else match x with
       | Some (JStr s) => ret (blank s)
       | _ => throw "TypeError: trim is not a function"
       end.

(** Reading a property of [data], which throws when [data] is [null]. *)
Definition member (name : string) (data : json) : M value :=
  match data with
  | JNull => throw "TypeError: cannot read properties of null"
  | _ => ret (prop name data)
  end.

(** [x || fallback] *)
Definition or_else (x : value) (fallback : json) : json :=
  match x with
  | Some v => if truthy x then v else fallback
  | None => fallback
  end.

(** [array.forEach(f)] *)
Fixpoint forEach {A : Type} (f : A -> M unit) (l : list A) : M unit :=
  match l with
  | [] => ret tt
  | x :: rest => f x ;; forEach f rest
  end.

(** ** MessageHandler.js *)

Module MessageHandler.

Section Handler.

(** The [broadcastFn] the handler is constructed with. *)
Variable broadcast : Env -> Message -> option WebSocket -> M unit.

Definition fresh_id (env : Env) : json :=
  JStr (uuid env ++ "-" ++ string_of_Z (now env))%string.

Definition joined (env : Env) (userId : string) : Message :=
  {| type := "SYSTEM"; id := fresh_id env; senderId := None;
     content := (userId ++ " joined the chat")%string;
     timestamp := JNum (now env) |}.

(** [if (this.storageService) { try { await saveMessage(message) } catch {} }]:
    the save every handler makes before it broadcasts. *)
Definition persist (env : Env) (message : Message) : M unit :=
  stored <- hasStorage ;;
  if stored then try_catch (saveMessage env message) (fun _ => ret tt)
  else ret tt.

(** The history sent after a login: the 50 most recent messages, when there
    is at least one; a failure here is only logged. *)
Definition recent_history (env : Env) (ws : WebSocket) : M unit :=
  stored <- hasStorage ;;
  if stored then
    try_catch
      (recentMessages <- getMessagesBefore env (Some JNull) 50 ;;
       if (0 <? Z.of_nat (List.length recentMessages)) then
         send env ws (HISTORY_RESPONSE recentMessages
                        (Z.of_nat (List.length recentMessages) =? 50))
       else ret tt)
      (fun _ => ret tt)
  else ret tt.

(** The part of [handleLogin] inside its [try]. *)
Definition login (env : Env) (ws : WebSocket) (userId : string) : M unit :=
  createSession env userId ws ;;
  send env ws (LOGIN_SUCCESS userId) ;;
  recent_history env ws ;;
  persist env (joined env userId) ;;
  broadcast env (joined env userId) (Some ws).

Definition handleLogin (env : Env) (ws : WebSocket) (data : json) : M unit :=
  userId <- member "userId" data ;;
  invalid <- missing_or_blank userId ;;
  if invalid then send env ws (ERROR "Invalid user ID" None)
  else
    match userId with
    | Some (JStr u) =>
        try_catch (login env ws u)
                  (fun _ => send env ws (ERROR "Login failed" None))
    | _ => ret tt  (* a value with a [trim] method is a string *)
    end.

(** [!userId] for what [findUserIdByWs] returns. *)
Definition bound (userId : option string) : option string :=
  match userId with
  | Some u => if String.eqb u "" then None else Some u
  | None => None
  end.

(** [data.type], which the dispatcher has checked to be a string. *)
Definition type_name (data : json) : string :=
  match prop "type" data with
  | Some (JStr t) => t
  | _ => ""
  end.

(** The message a TEXT or media frame from [userId] becomes. *)
Definition compose (env : Env) (kind : string) (userId : string) (data : json)
    (text : string) : Message :=
  {| type := kind;
     id := or_else (prop "id" data) (fresh_id env);
     senderId := Some userId;
     content := text;
     timestamp := or_else (prop "timestamp" data) (JNum (now env)) |}.

(** The common body of [handleTextMessage] and [handleMediaMessage], which
    differ in the texts of their errors, in the message's type and in whom
    the broadcast leaves out. *)
Definition deliver (env : Env) (ws : WebSocket) (data : json)
    (kind emptyError failure : string) (excludeWs : option WebSocket) : M unit :=
  try_catch
    (found <- findUserIdByWs ws ;;
     match bound found with
     | None => send env ws (ERROR "Not authenticated" None)
     | Some userId =>
         text <- member "content" data ;;
         empty <- missing_or_blank text ;;
         if empty then send env ws (ERROR emptyError None)
         else
           match text with
           | Some (JStr c) =>
               updateActivity env userId ;;
               persist env (compose env kind userId data c) ;;
               broadcast env (compose env kind userId data c) excludeWs
           | _ => ret tt
           end
     end)
    (fun _ => send env ws (ERROR failure None)).

(** TEXT goes to everyone but the sender. *)
Definition handleTextMessage (env : Env) (ws : WebSocket) (data : json) : M unit :=
  deliver env ws data "TEXT" "Empty message not allowed"
          "Failed to send message" (Some ws).

(** IMAGE, VIDEO and AUDIO go to everyone, the sender included. *)
Definition handleMediaMessage (env : Env) (ws : WebSocket) (data : json) : M unit :=
  deliver env ws data (type_name data) "Empty media content not allowed"
          "Failed to send media message" None.

(** [const { lastMessageId, limit = 20 } = data]: the default stands in for
    an absent limit only. A limit that is not a number never passes
    [validateMessage]; what JavaScript would compute with it is left out. *)
Definition limit_of (data : json) : option Z :=
  match prop "limit" data with
  | None => Some 20
  | Some (JNum n) => Some n
  | Some _ => None
  end.

Definition handleGetHistory (env : Env) (ws : WebSocket) (data : json) : M unit :=
  found <- findUserIdByWs ws ;;
  match bound found with
  | None => send env ws (ERROR "Not authenticated" None)
  | Some _ =>
      stored <- hasStorage ;;
      if negb stored then send env ws (HISTORY_RESPONSE [] false)
      else
        try_catch
          (lastMessageId <- member "lastMessageId" data ;;
           match limit_of data with
           | Some limit =>
               messages <- getMessagesBefore env lastMessageId limit ;;
               send env ws (HISTORY_RESPONSE messages
                              (Z.of_nat (List.length messages) =? limit))
           | None => ret tt
           end)
          (fun _ => send env ws (ERROR "Failed to retrieve message history" None))
  end.

End Handler.

Definition is_string (v : value) : bool := String.eqb (typeof v) "string".

Definition is_number (v : value) : bool := String.eqb (typeof v) "number".

(** [v !== undefined] *)
Definition defined (v : value) : bool :=
  match v with
  | None => false
  | Some _ => true
  end.

Definition is_media_type (t : string) : bool :=
  String.eqb t "IMAGE" || String.eqb t "VIDEO" || String.eqb t "AUDIO".

Definition is_chat_type (t : string) : bool :=
  String.eqb t "TEXT" || is_media_type t.

(** [validateMessage(data)]: the error text, or [None] for [null]. *)
Definition validateMessage (data : json) : option string :=
  if negb (truthy (Some data)) || negb (String.eqb (typeof (Some data)) "object")
  then Some "Message must be an object"
  else if negb (truthy (prop "type" data)) || negb (is_string (prop "type" data))
  then Some "Message must have a valid type field"
  else
    let t := type_name data in
    if String.eqb t "LOGIN" then
      if negb (truthy (prop "userId" data)) || negb (is_string (prop "userId" data))
      then Some "LOGIN message must have a valid userId field"
      else None
    else if is_chat_type t then
      if negb (truthy (prop "content" data)) || negb (is_string (prop "content" data))
      then Some (t ++ " message must have a valid content field")%string
      else None
    else if String.eqb t "GET_HISTORY" then
      if defined (prop "lastMessageId" data)
         && negb (is_string (prop "lastMessageId" data))
      then Some "GET_HISTORY message lastMessageId must be a string"
      else if defined (prop "limit" data) && negb (is_number (prop "limit" data))
      then Some "GET_HISTORY message limit must be a number"
      else None
    else if String.eqb t "SYSTEM" then
      Some "SYSTEM messages cannot be sent by clients"
    else None.

End MessageHandler.

(** ** WebSocketServer.js *)

(** What arrives on a socket, after [JSON.parse(data.toString())]: [None]
    when the text is not JSON and the parser throws. *)
Definition RawData := option json.

Module WebSocketServer.

(** The callback of [broadcast]: send to one session unless it is the
    excluded socket or not open; a failing send is caught. *)
Definition offer (env : Env) (message : Message) (excludeWs : option WebSocket)
    (session : SessionManager.Session) : M unit :=
  state <- getReadyState (SessionManager.ws session) ;;
  let other := match excludeWs with
               | Some ex => negb (Nat.eqb (SessionManager.ws session) ex)
               | None => true
               end in
  if other && (state =? 1) then
    try_catch (send env (SessionManager.ws session) (Chat message))
              (fun _ => ret tt)
  else ret tt.

(** [broadcast(message, excludeWs = null)] *)
Definition broadcast (env : Env) (message : Message) (excludeWs : option WebSocket)
    : M unit :=
  m <- getSessions ;;
  forEach (offer env message excludeWs) (SessionManager.getAllSessions m).

(** [sendErrorResponse(ws, errorMessage)] *)
Definition sendErrorResponse (env : Env) (ws : WebSocket) (errorMessage : string)
    : M unit :=
  try_catch
    (state <- getReadyState ws ;;
     if state =? 1 then send env ws (ERROR errorMessage (Some (now env)))
     else ret tt)
    (fun _ => ret tt).

(** The [switch (message.type)] of [handleMessage]. *)
Definition route (env : Env) (ws : WebSocket) (message : json) : M unit :=
  let t := MessageHandler.type_name message in
  if String.eqb t "LOGIN" then MessageHandler.handleLogin broadcast env ws message
  else if String.eqb t "TEXT" then
    MessageHandler.handleTextMessage broadcast env ws message
  else if MessageHandler.is_media_type t then
    MessageHandler.handleMediaMessage broadcast env ws message
  else if String.eqb t "GET_HISTORY" then
    MessageHandler.handleGetHistory env ws message
  else if String.eqb t "SYSTEM" then
    sendErrorResponse env ws "SYSTEM messages can only be sent by server"
  else sendErrorResponse env ws ("Unknown message type: " ++ t)%string.

(** [handleMessage(ws, data)] *)
Definition handleMessage (env : Env) (ws : WebSocket) (data : RawData) : M unit :=
  try_catch
    (match data with
     | None => sendErrorResponse env ws "Invalid JSON format"
     | Some message =>
         match MessageHandler.validateMessage message with
         | Some validationError => sendErrorResponse env ws validationError
         | None => route env ws message
         end
     end)
    (fun _ => sendErrorResponse env ws "Failed to process message").

Definition left (env : Env) (userId : string) : Message :=
  {| type := "SYSTEM"; id := MessageHandler.fresh_id env; senderId := None;
     content := (userId ++ " left the chat")%string;
     timestamp := JNum (now env) |}.

(** [handleClose(ws)], apart from dropping the socket's queue. *)
Definition handleClose (env : Env) (ws : WebSocket) : M unit :=
  found <- findUserIdByWs ws ;;
  match MessageHandler.bound found with
  | None => ret tt
  | Some userId =>
      removeSession userId ;;
      MessageHandler.persist env (left env userId) ;;
      broadcast env (left env userId) None
  end.

(** [new WebSocketServer(port, storageConfig)] with the file-backed store,
    every socket open until it closes. *)
Definition create (path : string) (onDisk : option (list Message)) : Server :=
  {| sessions := [];
     storageService := Some (FileBacked (StorageService.create path onDisk));
     readyState := fun _ => 1 |}.

(** [createStorageService(config = this.storageConfig)]. [disk] says what
    the file at a path holds when the store is constructed, [createClient]
    what the Supabase library throws for a pair of credentials. *)
Definition createStorageService (createClient : value -> value -> option string)
    (disk : string -> option (list Message))
    (storageConfig config : value) : outcome Storage :=
  let config := match config with
                | None => storageConfig
                | Some _ => config
                end in
  let source := if truthy config then config else Some (JObj []) in
  let field := fun name => match source with
                           | Some c => prop name c
                           | None => None
                           end in
  if strict_equals (field "mode") (Some (JStr "supabase")) then
    if negb (truthy (field "supabaseUrl")) || negb (truthy (field "supabaseKey"))
    then Returned (FileBacked (StorageService.create "./data/messages.json"
                                 (disk "./data/messages.json")))
    else
      match SupabaseStorageService.construct createClient (field "supabaseUrl")
              (field "supabaseKey") with
      | Returned sb => Returned (Supabase sb)
      | Thrown e => Thrown e
      end
  else
    let path := match storageConfig with
                | Some (JStr p) => p
                | _ => "./data/messages.json"
                end in
    Returned (FileBacked (StorageService.create path (disk path))).

(** [new WebSocketServer(port, storageConfig = {})]: an empty registry and
    the store the configuration asks for; what [createStorageService]
    throws leaves the constructor. *)
Definition construct (createClient : value -> value -> option string)
    (disk : string -> option (list Message))
    (storageConfig : value) : outcome Server :=
  let storageConfig := match storageConfig with
                       | None => Some (JObj [])
                       | Some _ => storageConfig
                       end in
  match createStorageService createClient disk storageConfig storageConfig with
  | Returned st =>
      Returned {| sessions := []; storageService := Some st;
                  readyState := fun _ => 1 |}
  | Thrown e => Thrown e
  end.

(** [start()], as far as the server object goes: the store is initialized
    first, and a failure there is thrown; then the listener is opened with
    [new WSServer({ port: this.port })], which throws for a port it cannot
    take (one out of range, for one). [listen] says what opening the
    listener throws, if anything. *)
Definition start (env : Env) (listen : option string) : M unit :=
  fun s =>
    let opened := match listen with
                  | Some error => Thrown error
                  | None => Returned tt
                  end in
    match storageService s with
    | None => {| after := s; effects := [];
                 result := Thrown "TypeError: storageService is null" |}
    | Some (FileBacked fs) =>
        {| after := {| sessions := sessions s;
                       storageService :=
                         Some (FileBacked (StorageService.initialize env fs));
                       readyState := readyState s |};
           effects := []; result := opened |}
    | Some (Supabase sb) =>
        let r := SupabaseStorageService.initialize env sb in
        {| after := {| sessions := sessions s;
                       storageService := Some (Supabase (fst r));
                       readyState := readyState s |};
           effects := [];
           result := match snd r with
                     | Returned _ => opened
                     | Thrown error => Thrown error
                     end |}
    end.

(** The [pong] listener that [handleConnection] installs on a socket. *)
Definition pong (env : Env) (ws : WebSocket) : M unit :=
  found <- findUserIdByWs ws ;;
  match MessageHandler.bound found with
  | Some userId => updateActivity env userId
  | None => ret tt
  end.

(** The socket [ws] closes: its [readyState] becomes CLOSED. *)
Definition closed (ws : WebSocket) (s : Server) : Server :=
  {| sessions := sessions s; storageService := storageService s;
     readyState := fun socket => if Nat.eqb socket ws then 3 else readyState s socket |}.

(** What the server reacts to. *)
Inductive Event : Type :=
| Incoming (env : Env) (ws : WebSocket) (data : RawData)
| Close (env : Env) (ws : WebSocket).

(** One event handled to completion, before the next one is looked at. *)
Definition react (e : Event) : M unit :=
  match e with
  | Incoming env ws data => handleMessage env ws data
  | Close env ws => fun s => handleClose env ws (closed ws s)
  end.

Definition step (s : Server) (e : Event) : Server := after (react e s).

Definition run (events : list Event) (s : Server) : Server :=
  fold_left step events s.

(** *** The inbound queue of one socket *)

(** A socket's queue together with the server, for following single
    traces. A handling is taken here in one piece, when the promise of
    [handleMessage] settles; what the queue does for every interleaving
    of arrivals, settlements and close is the subject of [MessageQueues]
    below, which leaves the server out. *)

(** The entry [{ queue, processing }] that [handleConnection] puts into
    [messageQueues]. *)
Record QueueInfo : Type := mkQueueInfo {
  queue : list RawData;
  processing : bool
}.

(** What has happened on the socket so far. *)
Inductive Mark : Type :=
| Began (data : RawData)               (* handleMessage was called *)
| Ended (env : Env) (data : RawData)   (* the awaited call settled *)
| Gone (env : Env).                    (* handleClose ran *)

(** One socket on the event loop: its queue entry, whether [messageQueues]
    still lists it, the calls of [processMessageQueue] that are suspended at
    their [await] (each with the payload it waits for), the marks so far and
    the server. *)
Record Connection : Type := mkConnection {
  socket : WebSocket;
  queueInfo : QueueInfo;
  listed : bool;
  drains : list RawData;
  marks : list Mark;
  server : Server
}.

(** [handleConnection(ws)] *)
Definition handleConnection (ws : WebSocket) (s : Server) : Connection :=
  {| socket := ws; queueInfo := {| queue := []; processing := false |};
     listed := true; drains := []; marks := []; server := s |}.

(** The head of the [while] loop, run by a call of [processMessageQueue]
    that has just set the flag or has just been resumed: shift the next
    payload and suspend on its handling, or reset the flag and leave. *)
Definition continue (c : Connection) : Connection :=
  match queue (queueInfo c) with
  | data :: rest =>
      {| socket := socket c;
         queueInfo := {| queue := rest; processing := processing (queueInfo c) |};
         listed := listed c; drains := drains c ++ [data];
         marks := marks c ++ [Began data]; server := server c |}
  | [] =>
      {| socket := socket c;
         queueInfo := {| queue := []; processing := false |};
         listed := listed c; drains := drains c;
         marks := marks c; server := server c |}
  end.

(** [processMessageQueue(ws)] up to its first suspension. *)
Definition processMessageQueue (c : Connection) : Connection :=
  if negb (listed c) then c
  else if processing (queueInfo c) then c
  else
    continue {| socket := socket c;
                queueInfo := {| queue := queue (queueInfo c); processing := true |};
                listed := listed c; drains := drains c;
                marks := marks c; server := server c |}.

(** [enqueueMessage(ws, data)] *)
Definition enqueueMessage (data : RawData) (c : Connection) : Connection :=
  if negb (listed c) then c
  else
    processMessageQueue
      {| socket := socket c;
         queueInfo := {| queue := queue (queueInfo c) ++ [data];
                         processing := processing (queueInfo c) |};
         listed := listed c; drains := drains c;
         marks := marks c; server := server c |}.

Fixpoint remove_nth {A : Type} (n : nat) (l : list A) : list A :=
  match n, l with
  | _, [] => []
  | O, _ :: rest => rest
  | S n', x :: rest => x :: remove_nth n' rest
  end.

(** The handling awaited by the [n]th suspended call settles: its effects
    are on the server, and the call goes round its loop; were the handling
    to throw, the call would leave through its [finally]. *)
Definition settle (n : nat) (env : Env) (c : Connection) : Connection :=
  match nth_error (drains c) n with
  | None => c
  | Some data =>
      let r := handleMessage env (socket c) data (server c) in
      match result r with
      | Returned _ =>
          continue
            {| socket := socket c; queueInfo := queueInfo c; listed := listed c;
               drains := remove_nth n (drains c);
               marks := marks c ++ [Ended env data];
               server := after r |}
      | Thrown _ =>
          {| socket := socket c;
             queueInfo := {| queue := queue (queueInfo c); processing := false |};
             listed := listed c;
             drains := remove_nth n (drains c);
             marks := marks c ++ [Ended env data];
             server := after r |}
      end
  end.

(** The socket's close event: [cleanupConnection] and [handleClose]. *)
Definition close (env : Env) (c : Connection) : Connection :=
  {| socket := socket c; queueInfo := queueInfo c; listed := false;
     drains := drains c; marks := marks c ++ [Gone env];
     server := after (handleClose env (socket c) (closed (socket c) (server c))) |}.

(** What the event loop can deliver to the socket. *)
Inductive Turn : Type :=
| Arrive (data : RawData)
| Settle (n : nat) (env : Env)
| Hangup (env : Env).

Definition turn (c : Connection) (t : Turn) : Connection :=
  match t with
  | Arrive data => enqueueMessage data c
  | Settle n env => settle n env c
  | Hangup env => close env c
  end.

Definition play (turns : list Turn) (c : Connection) : Connection :=
  fold_left turn turns c.

End WebSocketServer.

(** ** The message queues on the event loop *)

Module MessageQueues.

(** The entry [{ queue, processing }] that [handleConnection] puts into
    [messageQueues] for a socket. *)
Record QueueInfo : Type := mkQueueInfo {
  queue : list RawData;
  processing : bool
}.

(** What has happened on the socket: a call of [processMessageQueue], the
    [drain]th to get past the flag, called [handleMessage] on a payload;
    the promise of such a call settled, fulfilled or rejected. *)
Inductive Mark : Type :=
| Began (drain : nat) (data : RawData)
| Ended (data : RawData) (settlement : outcome unit).

(** One socket on the event loop. [handleMessage] is asynchronous: a call
    returns its promise and the loop of [processMessageQueue] is suspended
    on it until it settles, in a later turn of the event loop. What the
    handling does to the server before and after that is not part of this
    state; only the calls and the settlements are marked. *)
Record Socket : Type := mkSocket {
  queueInfo : QueueInfo;          (* the entry; a suspended call keeps it *)
  listed : bool;                  (* does [messageQueues] hold the entry *)
  started : nat;                  (* calls that have set the flag so far *)
  drains : list (nat * RawData);  (* the suspended calls, each with the
                                     payload whose handling it awaits *)
  marks : list Mark
}.

(** [handleConnection(ws)], as far as the queue goes. *)
Definition handleConnection : Socket :=
  {| queueInfo := {| queue := []; processing := false |};
     listed := true; started := 0%nat; drains := []; marks := [] |}.

(** The head of the [while] loop, run by the call [drain] when it has just
    set the flag or has just been resumed: shift the next payload, call
    [handleMessage] and suspend on its promise; or leave the loop, and
    reset the flag in [finally]. *)
Definition continue (drain : nat) (c : Socket) : Socket :=
  match queue (queueInfo c) with
  | data :: rest =>
      {| queueInfo := {| queue := rest; processing := processing (queueInfo c) |};
         listed := listed c; started := started c;
         drains := drains c ++ [(drain, data)];
         marks := marks c ++ [Began drain data] |}
  | [] =>
      {| queueInfo := {| queue := []; processing := false |};
         listed := listed c; started := started c;
         drains := drains c; marks := marks c |}
  end.

(** [processMessageQueue(ws)] up to its first suspension. *)
Definition processMessageQueue (c : Socket) : Socket :=
  if negb (listed c) then c
  else if processing (queueInfo c) then c
  else
    continue (S (started c))
      {| queueInfo := {| queue := queue (queueInfo c); processing := true |};
         listed := listed c; started := S (started c);
         drains := drains c; marks := marks c |}.

(** [enqueueMessage(ws, data)] *)
Definition enqueueMessage (data : RawData) (c : Socket) : Socket :=
  if negb (listed c) then c
  else
    processMessageQueue
      {| queueInfo := {| queue := queue (queueInfo c) ++ [data];
                         processing := processing (queueInfo c) |};
         listed := listed c; started := started c;
         drains := drains c; marks := marks c |}.

(** The promise awaited by the [n]th suspended call settles. Fulfilled,
    the call goes round its loop; rejected, it leaves through [finally],
    which resets the flag, with the rest of the queue where it is. *)
Definition settle (n : nat) (settlement : outcome unit) (c : Socket) : Socket :=
  match nth_error (drains c) n with
  | None => c
  | Some (drain, data) =>
      match settlement with
      | Returned _ =>
          continue drain
            {| queueInfo := queueInfo c; listed := listed c; started := started c;
               drains := WebSocketServer.remove_nth n (drains c);
               marks := marks c ++ [Ended data settlement] |}
      | Thrown _ =>
          {| queueInfo := {| queue := queue (queueInfo c); processing := false |};
             listed := listed c; started := started c;
             drains := WebSocketServer.remove_nth n (drains c);
             marks := marks c ++ [Ended data settlement] |}
      end
  end.

(** [cleanupConnection(ws)]: [messageQueues] drops the entry. *)
Definition cleanupConnection (c : Socket) : Socket :=
  {| queueInfo := queueInfo c; listed := false; started := started c;
     drains := drains c; marks := marks c |}.

(** What the event loop can deliver to the socket: a message event, the
    settlement of an awaited promise, the close event (whose [handleClose]
    cleans up) and the error event (which cleans up). *)
Inductive Turn : Type :=
| Message (data : RawData)
| Settle (n : nat) (settlement : outcome unit)
| Close
| Fail.

Definition turn (c : Socket) (t : Turn) : Socket :=
  match t with
  | Message data => enqueueMessage data c
  | Settle n settlement => settle n settlement c
  | Close => cleanupConnection c
  | Fail => cleanupConnection c
  end.

Definition play (turns : list Turn) (c : Socket) : Socket :=
  fold_left turn turns c.

(** The payloads that arrive while [messageQueues] holds the entry. *)
Fixpoint accepted (turns : list Turn) : list RawData :=
  match turns with
  | [] => []
  | Message data :: rest => data :: accepted rest
  | Settle _ _ :: rest => accepted rest
  | Close :: _ => []
  | Fail :: _ => []
  end.

(** Has the entry been dropped during these turns. *)
Definition hung (turns : list Turn) : bool :=
  existsb (fun t => match t with Close | Fail => true | _ => false end) turns.

(** Is no settlement of these turns a rejection. *)
Definition fulfilled (turns : list Turn) : bool :=
  forallb (fun t => match t with Settle _ (Thrown _) => false | _ => true end) turns.

(** The payloads whose handling has begun, and those whose handling has
    ended, in the order of the marks. *)
Definition begun (l : list Mark) : list RawData :=
  flat_map (fun m => match m with Began _ d => [d] | _ => [] end) l.

Definition settled (l : list Mark) : list RawData :=
  flat_map (fun m => match m with Ended d _ => [d] | _ => [] end) l.

(** Reading the marks from a state in which [busy] is under way: the
    payload under way at the end, or [None] when some handling began while
    another was under way or ended without having begun. *)
Fixpoint pending (busy : option RawData) (l : list Mark) : option (option RawData) :=
  match l with
  | [] => Some busy
  | Began _ d :: rest =>
      match busy with
      | None => pending (Some d) rest
      | Some _ => None
      end
  | Ended _ _ :: rest =>
      match busy with
      | Some _ => pending None rest
      | None => None
      end
  end.

(** The marks a call [drain] leaves when it handles [l] to the end, each
    handling fulfilled. *)
Definition handled (drain : nat) (l : list RawData) : list Mark :=
  flat_map (fun d => [Began drain d; Ended d (Returned tt)]) l.

(** [k] turns in which the promise awaited by the first suspended call is
    fulfilled. *)
Definition settlements (k : nat) : list Turn := repeat (Settle 0 (Returned tt)) k.

End MessageQueues.

(** ** Sample data *)

Definition text (i sender body : string) (stamp : Z) : Message :=
  {| type := "TEXT"; id := JStr i; senderId := Some sender;
     content := body; timestamp := JNum stamp |}.

Definition m1 : Message := text "m1" "alice" "hello" 1700000000001.
Definition m2 : Message := text "m2" "bob" "hi there" 1700000000002.
Definition m3 : Message := text "m3" "alice" "how are you" 1700000000003.

(** An environment in which nothing fails. *)
Definition calm : Env :=
  {| now := 1700000000999; uuid := "u-1"; send_throws := fun _ => false;
     mkdir_fails := false; readFile_fails := false; writeFile_fails := false;
     probe_error := None; insert_error := false;
     target_reply := fun _ => None; select_reply := fun _ _ => Some [] |}.

(** The same, with a disk that refuses to be written. *)
Definition readonly : Env :=
  {| now := 1700000000999; uuid := "u-1"; send_throws := fun _ => false;
     mkdir_fails := false; readFile_fails := false; writeFile_fails := true;
     probe_error := None; insert_error := false;
     target_reply := fun _ => None; select_reply := fun _ _ => Some [] |}.

(** An environment in which every socket's send throws. *)
Definition unsendable : Env :=
  {| now := 1700000000999; uuid := "u-1"; send_throws := fun _ => true;
     mkdir_fails := false; readFile_fails := false; writeFile_fails := false;
     probe_error := None; insert_error := false;
     target_reply := fun _ => None; select_reply := fun _ _ => Some [] |}.

(** An environment whose remote table has not been created. *)
Definition tableless : Env :=
  {| now := 1700000000999; uuid := "u-1"; send_throws := fun _ => false;
     mkdir_fails := false; readFile_fails := false; writeFile_fails := false;
     probe_error := Some "42P01"; insert_error := false;
     target_reply := fun _ => None; select_reply := fun _ _ => Some [] |}.

(** A file-backed store holding [l], in memory and on disk. *)
Definition holding (l : list Message) : StorageService.t :=
  StorageService.mk "./data/messages.json" l true (Some l).

(** Further saves on one store, each with the environment it runs in. *)
Definition save_all (later : list (Env * Message)) (s : StorageService.t)
    : StorageService.t :=
  fold_left (fun s em => fst (StorageService.saveMessage (fst em) (snd em) s)) later s.

(** Frames a client may send. *)
Definition hello : json := JObj [("type", JStr "TEXT"); ("content", JStr "hello")].

Definition photo : json :=
  JObj [("type", JStr "IMAGE"); ("content", JStr "data:image/png;base64,AAAA")].

Definition login_as (userId : string) : json :=
  JObj [("type", JStr "LOGIN"); ("userId", JStr userId)].

(** A server on the file-backed store holding [l], with alice on socket 1
    and bob on socket 2, both open. *)
Definition lobby (l : list Message) : Server :=
  {| sessions := SessionManager.createSession calm "bob" 2%nat
                   (SessionManager.createSession calm "alice" 1%nat []);
     storageService := Some (FileBacked (holding l));
     readyState := fun _ => 1 |}.

(** The text [handleMessage] rejects a payload with before it looks at the
    registry: the parser's or the validator's. *)
Definition malformed (data : RawData) : option string :=
  match data with
  | None => Some "Invalid JSON format"
  | Some message => MessageHandler.validateMessage message
  end.

(** An object that lacks the field its declared type requires: no type at
    all, a LOGIN without userId, a chat message without content. *)
Definition missing_required (message : json) : bool :=
  match message with
  | JObj _ =>
      negb (MessageHandler.defined (prop "type" message))
      || String.eqb (MessageHandler.type_name message) "LOGIN"
         && negb (MessageHandler.defined (prop "userId" message))
      || MessageHandler.is_chat_type (MessageHandler.type_name message)
         && negb (MessageHandler.defined (prop "content" message))
  | _ => false
  end.

(** Is the payload a message whose type is LOGIN. *)
Definition is_login (data : RawData) : bool :=
  match data with
  | Some message => String.eqb (MessageHandler.type_name message) "LOGIN"
  | None => false
  end.

(** An ERROR frame handed to [ws]. *)
Definition error_to (ws : WebSocket) (e : Effect) : Prop :=
  exists text stamp, e = Send ws (ERROR text stamp).

Definition history_request (lastMessageId : string) (limit : Z) : json :=
  JObj [("type", JStr "GET_HISTORY"); ("lastMessageId", JStr lastMessageId);
        ("limit", JNum limit)].

(** An environment whose file system refuses to be read. *)
Definition unreadable : Env :=
  {| now := 1700000000999; uuid := "u-1"; send_throws := fun _ => false;
     mkdir_fails := false; readFile_fails := true; writeFile_fails := false;
     probe_error := None; insert_error := false;
     target_reply := fun _ => None; select_reply := fun _ _ => Some [] |}.

(** A server that has just been constructed over a file holding [l]: no
    session yet, the store not yet initialized. *)
Definition fresh (l : list Message) : Server :=
  WebSocketServer.create "./data/messages.json" (Some l).

(** ** Reading the effects *)

(** The sessions a broadcast reaches: not the excluded socket, and open. *)
Definition reached (excludeWs : option WebSocket) (s : Server)
    (session : SessionManager.Session) : bool :=
  match excludeWs with
  | Some ex => negb (Nat.eqb (SessionManager.ws session) ex)
  | None => true
  end && (readyState s (SessionManager.ws session) =? 1).

Definition recipients (excludeWs : option WebSocket) (s : Server) : list WebSocket :=
  map SessionManager.ws
      (filter (reached excludeWs s) (SessionManager.getAllSessions (sessions s))).

(** The effects of broadcasting [message]. *)
Definition fanout (message : Message) (excludeWs : option WebSocket) (s : Server)
    : list Effect :=
  map (fun socket => Send socket (Chat message)) (recipients excludeWs s).

(** The frames handed to one socket, in order. *)
Definition frames_to (ws : WebSocket) (l : list Effect) : list Frame :=
  flat_map (fun e => match e with
                     | Send socket frame => if Nat.eqb socket ws then [frame] else []
                     | _ => []
                     end) l.

Definition is_history (frame : Frame) : bool :=
  match frame with
  | HISTORY_RESPONSE _ _ => true
  | _ => false
  end.

(** The server once [createSession(userId, ws)] has run. *)
Definition registered (env : Env) (userId : string) (ws : WebSocket) (s : Server)
    : Server :=
  {| sessions := SessionManager.createSession env userId ws (sessions s);
     storageService := storageService s; readyState := readyState s |}.

(** The server once [updateActivity(userId)] has run. *)
Definition touched (env : Env) (userId : string) (s : Server) : Server :=
  {| sessions := SessionManager.updateActivity env userId (sessions s);
     storageService := storageService s; readyState := readyState s |}.

(** The server once a best-effort save of [message] has run, and the effect
    of that save: the store has been asked, whether or not it managed. *)
Definition persisted (env : Env) (message : Message) (s : Server) : Server :=
  match storageService s with
  | Some st =>
      {| sessions := sessions s;
         storageService := Some (fst (storage_saveMessage env message st));
         readyState := readyState s |}
  | None => s
  end.

Definition persisting (env : Env) (message : Message) (s : Server) : list Effect :=
  match storageService s with
  | Some st => [Persist message (returned (snd (storage_saveMessage env message st)))]
  | None => []
  end.

(** The server once the store [st] has been asked for a page, and its
    answer. *)
Definition asked (env : Env) (messageId : value) (limit : Z) (st : Storage)
    (s : Server) : Server :=
  {| sessions := sessions s;
     storageService := Some (fst (storage_getMessagesBefore env messageId (Some limit) st));
     readyState := readyState s |}.

Definition answer (env : Env) (messageId : value) (limit : Z) (st : Storage)
    : outcome (list Message) :=
  snd (storage_getMessagesBefore env messageId (Some limit) st).

(** The history frame a login sends for what the store answered: one
    HISTORY_RESPONSE when there is at least one message, nothing
    otherwise. *)
Definition history_frames (ws : WebSocket) (o : outcome (list Message))
    : list Effect :=
  match o with
  | Returned recent =>
      if 0 <? Z.of_nat (List.length recent)
      then [Send ws (HISTORY_RESPONSE recent (Z.of_nat (List.length recent) =? 50))]
      else []
  | Thrown _ => []
  end.

(** The server once the login-time history has been loaded, and the effects
    of loading and sending it. *)
Definition greeted (env : Env) (s : Server) : Server :=
  match storageService s with
  | Some st => asked env (Some JNull) 50 st s
  | None => s
  end.

Definition greeting (env : Env) (ws : WebSocket) (s : Server) : list Effect :=
  match storageService s with
  | Some st =>
      Query (Some JNull) 50 :: history_frames ws (answer env (Some JNull) 50 st)
  | None => []
  end.

(** The read behind a history query fails: the file-backed store has to
    load its file first and cannot, or the remote table answers the page
    query with an error. *)
Definition read_fails (env : Env) (st : Storage) : Prop :=
  match st with
  | FileBacked fs =>
      StorageService.initialized fs = false /\
      (mkdir_fails env = true \/ StorageService.readFile env fs = None)
  | Supabase sb =>
      SupabaseStorageService.initialized sb = true /\
      forall bound limit, select_reply env bound limit = None
  end.

(** The registry is a map keyed by user: no userId occurs twice, and every
    entry holds the session of its key. *)
Definition well_keyed (m : SessionManager.t) : Prop :=
  NoDup (map fst m) /\
  Forall (fun entry => SessionManager.userId (snd entry) = fst entry) m.

(** Server code that keeps the registry well keyed. *)
Definition keeps {A : Type} (m : M A) : Prop :=
  forall s, well_keyed (sessions s) -> well_keyed (sessions (after (m s))).

(** What holds of a socket's queue after [turns]: at most one call of
    [processMessageQueue] is suspended, it is the last one that set the
    flag, and the flag says whether one is; the payloads begun are those
    accepted so far minus the ones still queued, in order; each handling
    ended before the next began; and as long as no handling was rejected,
    nothing is queued while the flag is down. *)
Definition in_order (turns : list MessageQueues.Turn) (c : MessageQueues.Socket) : Prop :=
  MessageQueues.listed c = negb (MessageQueues.hung turns) /\
  (List.length (MessageQueues.drains c) <= 1)%nat /\
  MessageQueues.processing (MessageQueues.queueInfo c)
  = negb (Nat.eqb (List.length (MessageQueues.drains c)) 0) /\
  Forall (fun suspended => fst suspended = MessageQueues.started c)
         (MessageQueues.drains c) /\
  MessageQueues.begun (MessageQueues.marks c)
  ++ MessageQueues.queue (MessageQueues.queueInfo c)
  = MessageQueues.accepted turns /\
  MessageQueues.settled (MessageQueues.marks c) ++ map snd (MessageQueues.drains c)
  = MessageQueues.begun (MessageQueues.marks c) /\
  MessageQueues.pending None (MessageQueues.marks c)
  = Some (hd_error (map snd (MessageQueues.drains c))) /\
  (MessageQueues.fulfilled turns = true ->
   MessageQueues.processing (MessageQueues.queueInfo c) = false ->
   MessageQueues.queue (MessageQueues.queueInfo c) = []).

(** ** Reading stores, registries and runs *)


(** A client paging back through the history as ChatScreen.tsx does: it
    asks for the page before the oldest message it holds
    ([onLoadHistory(messages[0].id)]) for as long as the last answer had
    [hasMore], which the dispatcher sets when the page is as long as the
    limit. The result is everything the client has been sent, oldest
    first. *)
Fixpoint load_history (rounds : nat) (env : Env) (limit : Z) (lastMessageId : value)
    (s : StorageService.t) : list Message :=
  match rounds with
  | O => []
  | S rounds' =>
      match snd (StorageService.getMessagesBefore env lastMessageId (Some limit) s) with
      | Returned page =>
          if Z.of_nat (List.length page) =? limit then
            match page with
            | oldest :: _ =>
                load_history rounds' env limit (Some (id oldest)) s ++ page
            | [] => page
            end
          else page
      | Thrown _ => []
      end
  end.

(** The frames handed to sockets, each with its socket, in order. *)
Definition sends (l : list Effect) : list (WebSocket * Frame) :=
  flat_map (fun e => match e with
                     | Send socket frame => [(socket, frame)]
                     | _ => []
                     end) l.

(** The messages the store was asked to save, in order. *)
Definition saved (l : list Effect) : list Message :=
  flat_map (fun e => match e with
                     | Persist message _ => [message]
                     | _ => []
                     end) l.

(** Who is registered, on which socket, since when: the registry without
    the activity stamps. *)
Definition bindings (m : SessionManager.t)
    : list (string * (string * WebSocket * Z)) :=
  map (fun entry => (fst entry, (SessionManager.userId (snd entry),
                                 SessionManager.ws (snd entry),
                                 SessionManager.connectedAt (snd entry)))) m.

(** Server code that registers and removes nobody and closes no socket. *)
Definition steady {A : Type} (m : M A) : Prop :=
  forall s, bindings (sessions (after (m s))) = bindings (sessions s) /\
            readyState (after (m s)) = readyState s.

(** Server code that returns, from every state. *)
Definition safe {A : Type} (m : M A) : Prop :=
  forall s, returned (result (m s)) = true.

(** Server code under which an initialized file-backed store only grows,
    and by exactly the messages it was asked to save. *)
Definition records {A : Type} (m : M A) : Prop :=
  forall s fs,
    storageService s = Some (FileBacked fs) ->
    StorageService.initialized fs = true ->
    exists fs',
      storageService (after (m s)) = Some (FileBacked fs') /\
      StorageService.initialized fs' = true /\
      StorageService.messages fs' = StorageService.messages fs ++ saved (effects (m s)).

(** The server once [removeSession(userId)] has run. *)
Definition departed (userId : string) (s : Server) : Server :=
  {| sessions := SessionManager.removeSession userId (sessions s);
     storageService := storageService s; readyState := readyState s |}.

(** The effects of a sequence of events, in order. *)
Fixpoint transcript (events : list WebSocketServer.Event) (s : Server) : list Effect :=
  match events with
  | [] => []
  | e :: rest =>
      effects (WebSocketServer.react e s) ++ transcript rest (WebSocketServer.step s e)
  end.

(** The configuration server.js reads from the process environment; a
    variable that is not set is [None]. *)
Definition storageConfig (STORAGE_MODE SUPABASE_URL SUPABASE_ANON_KEY : option string)
    : json :=
  let variable := fun name (v : option string) =>
                    match v with
                    | Some x => [(name, JStr x)]
                    | None => []
                    end in
  JObj (("mode", or_else (option_map JStr STORAGE_MODE) (JStr "file"))
        :: variable "supabaseUrl" SUPABASE_URL
        ++ variable "supabaseKey" SUPABASE_ANON_KEY).

(** * Properties *)

(** ** The model on small inputs *)

Example trim_inner_space : trim "  a b  " = "a b".
Proof. reflexivity. Qed.

Example blank_whitespace : blank (String (ascii_of_nat 9) "  ") = true.
Proof. reflexivity. Qed.

Example fresh_id_calm : MessageHandler.fresh_id calm = JStr "u-1-1700000000999".
Proof. reflexivity. Qed.

Example slice_last_two : slice [1; 2; 3; 4] (- 2) None = [3; 4].
Proof. reflexivity. Qed.

Example slice_middle : slice [1; 2; 3; 4] 1 (Some 3) = [2; 3].
Proof. reflexivity. Qed.

Example findIndex_second : findIndex (Z.eqb 2) [1; 2; 3; 2] = 1.
Proof. reflexivity. Qed.

Example findIndex_absent : findIndex (Z.eqb 9) [1; 2; 3] = -1.
Proof. reflexivity. Qed.

Example validate_hello : MessageHandler.validateMessage hello = None.
Proof. reflexivity. Qed.

Example validate_array :
  MessageHandler.validateMessage (JArr []) = Some "Message must have a valid type field".
Proof. reflexivity. Qed.

Example validate_null :
  MessageHandler.validateMessage JNull = Some "Message must be an object".
Proof. reflexivity. Qed.

Example validate_limit_text :
  MessageHandler.validateMessage
    (JObj [("type", JStr "GET_HISTORY"); ("limit", JStr "20")])
  = Some "GET_HISTORY message limit must be a number".
Proof. reflexivity. Qed.

(** alice says hello: bob gets the message, alice nothing, and it is
    saved. *)
Example hello_to_lobby :
  effects (WebSocketServer.handleMessage calm 1%nat (Some hello) (lobby []))
  = [Persist (MessageHandler.compose calm "TEXT" "alice" hello "hello") true;
     Send 2%nat (Chat (MessageHandler.compose calm "TEXT" "alice" hello "hello"))].
Proof. vm_compute. reflexivity. Qed.

(** alice sends a photo: both alice and bob get it. *)
Example photo_to_lobby :
  effects (WebSocketServer.handleMessage calm 1%nat (Some photo) (lobby []))
  = [Persist (MessageHandler.compose calm "IMAGE" "alice" photo
                "data:image/png;base64,AAAA") true;
     Send 1%nat (Chat (MessageHandler.compose calm "IMAGE" "alice" photo
                         "data:image/png;base64,AAAA"));
     Send 2%nat (Chat (MessageHandler.compose calm "IMAGE" "alice" photo
                         "data:image/png;base64,AAAA"))].
Proof. vm_compute. reflexivity. Qed.

(** With a disk that cannot be written the message still goes out. *)
Example hello_despite_disk :
  effects (WebSocketServer.handleMessage readonly 1%nat (Some hello) (lobby []))
  = [Persist (MessageHandler.compose readonly "TEXT" "alice" hello "hello") false;
     Send 2%nat (Chat (MessageHandler.compose readonly "TEXT" "alice" hello "hello"))].
Proof. vm_compute. reflexivity. Qed.

(** ** Arrays *)

Lemma findIndex_bounds {A : Type} (p : A -> bool) (l : list A) :
  findIndex p l = -1 \/ 0 <= findIndex p l < Z.of_nat (List.length l).
Proof.
  induction l as [|x rest IH]; cbn [findIndex List.length].
  - now left.
  - destruct (p x); [right; lia|].
    destruct IH as [-> | IH]; [now left|].
    destruct (findIndex p rest <? 0) eqn:E; [apply Z.ltb_lt in E; lia|].
    right. lia.
Qed.

Lemma findIndex_none {A : Type} (p : A -> bool) (l : list A) :
  findIndex p l = -1 <-> (forall x, In x l -> p x = false).
Proof.
  induction l as [|x rest IH]; cbn [findIndex].
  - split; [intros _ y []|reflexivity].
  - destruct (p x) eqn:Px.
    + split; [discriminate|]. intros H. specialize (H x (or_introl eq_refl)). congruence.
    + pose proof (findIndex_bounds p rest) as B.
      destruct (findIndex p rest <? 0) eqn:E.
      * apply Z.ltb_lt in E. split; [|reflexivity].
        intros _ y [<-|Hy]; [assumption|]. apply IH; [lia|assumption].
      * apply Z.ltb_ge in E. split; [lia|].
        intros H. exfalso. assert (findIndex p rest = -1) by (apply IH; intros; apply H; now right).
        lia.
Qed.

(** [findIndex] answers the first match: the element there satisfies [p]
    and no earlier one does. *)
Lemma findIndex_first {A : Type} (p : A -> bool) (l : list A) (k : nat) :
  findIndex p l = Z.of_nat k ->
  (exists x, nth_error l k = Some x /\ p x = true) /\
  (forall j x, (j < k)%nat -> nth_error l j = Some x -> p x = false).
Proof.
  revert k. induction l as [|x rest IH]; intros k; cbn [findIndex].
  - lia.
  - destruct (p x) eqn:Px.
    + intros H. assert (k = 0%nat) by lia. subst k. split.
      * exists x. now split.
      * intros j y Hj. lia.
    + destruct (findIndex p rest <? 0) eqn:E; [lia|].
      intros H. destruct k as [|k]; [apply Z.ltb_ge in E; lia|].
      destruct (IH k) as [Hx Hbefore]; [lia|]. split.
      * exact Hx.
      * intros [|j] y Hj Hy; cbn in Hy.
        -- congruence.
        -- apply (Hbefore j); [lia|assumption].
Qed.

Lemma slice_from_end {A : Type} (l : list A) (n : Z) :
  0 < n ->
  slice l (- n) None = skipn (List.length l - Z.to_nat n) l.
Proof.
  intros Hn. unfold slice, relative_index.
  destruct (- n <? 0) eqn:E; [|apply Z.ltb_ge in E; lia].
  set (len := Z.of_nat (List.length l)).
  replace (Z.to_nat (Z.max (len + - n) 0)) with (List.length l - Z.to_nat n)%nat by lia.
  apply firstn_all2. rewrite length_skipn. lia.
Qed.

Lemma slice_minus_zero {A : Type} (l : list A) : slice l (- 0) None = l.
Proof.
  unfold slice, relative_index. cbn [Z.opp Z.ltb Z.compare].
  rewrite Z.min_l by lia. cbn [Z.to_nat skipn].
  rewrite Z.sub_0_r, Nat2Z.id. apply firstn_all.
Qed.

Lemma slice_window {A : Type} (l : list A) (k limit : Z) :
  0 <= k <= Z.of_nat (List.length l) -> 0 <= limit ->
  slice l (Z.max 0 (k - limit)) (Some k) =
  firstn (Z.to_nat (Z.min k limit)) (skipn (Z.to_nat (Z.max 0 (k - limit))) l).
Proof.
  intros Hk Hl. unfold slice, relative_index.
  destruct (Z.max 0 (k - limit) <? 0) eqn:E1; [apply Z.ltb_lt in E1; lia|].
  destruct (k <? 0) eqn:E2; [apply Z.ltb_lt in E2; lia|].
  rewrite (Z.min_l (Z.max 0 (k - limit))) by lia.
  rewrite (Z.min_l k) by lia.
  f_equal. lia.
Qed.

(** ** The file-backed store *)

Lemma ensure_initialized_done env s :
  StorageService.initialized (StorageService.ensure_initialized env s) = true.
Proof.
  unfold StorageService.ensure_initialized, StorageService.initialize.
  destruct (StorageService.initialized s) eqn:E; [exact E|].
  destruct (mkdir_fails env); [reflexivity|].
  destruct (StorageService.readFile env s); reflexivity.
Qed.

Lemma ensure_initialized_idle env s :
  StorageService.initialized s = true -> StorageService.ensure_initialized env s = s.
Proof. unfold StorageService.ensure_initialized. now intros ->. Qed.

Lemma saveMessage_messages env message s :
  StorageService.messages (fst (StorageService.saveMessage env message s)) =
  StorageService.messages (StorageService.ensure_initialized env s) ++ [message].
Proof.
  unfold StorageService.saveMessage. destruct (writeFile_fails env); reflexivity.
Qed.

Lemma saveMessage_initialized env message s :
  StorageService.initialized (fst (StorageService.saveMessage env message s)) = true.
Proof.
  unfold StorageService.saveMessage.
  destruct (writeFile_fails env); cbn [fst StorageService.initialized];
    apply ensure_initialized_done.
Qed.

Lemma save_all_cons env m rest s :
  save_all ((env, m) :: rest) s =
  save_all rest (fst (StorageService.saveMessage env m s)).
Proof. reflexivity. Qed.

Lemma save_all_messages later : forall s,
  StorageService.initialized s = true ->
  StorageService.initialized (save_all later s) = true /\
  StorageService.messages (save_all later s) =
  StorageService.messages s ++ map snd later.
Proof.
  induction later as [|[env m] rest IH]; intros s Hs.
  - cbn. split; [assumption|now rewrite app_nil_r].
  - rewrite save_all_cons.
    destruct (IH (fst (StorageService.saveMessage env m s))) as [Hi Hm];
      [apply saveMessage_initialized|].
    split; [exact Hi|]. rewrite Hm, saveMessage_messages.
    cbn [map snd]. rewrite ensure_initialized_idle by assumption.
    now rewrite <- app_assoc.
Qed.

(** With the referenced message found at index [k] (the first one carrying
    that id) and a limit that is not negative, [getMessagesBefore] answers
    the [min k limit] messages just below [k], in stored order. *)
Lemma getMessagesBefore_window env messageId limit s (k : nat) :
  StorageService.initialized s = true ->
  findIndex (has_id messageId) (StorageService.messages s) = Z.of_nat k ->
  0 <= limit ->
  exists page,
    StorageService.getMessagesBefore env messageId (Some limit) s = (s, Returned page) /\
    List.length page = Nat.min k (Z.to_nat limit) /\
    forall j, (j < List.length page)%nat ->
      nth_error page j =
      nth_error (StorageService.messages s) (k - List.length page + j).
Proof.
  intros Hs Hk Hl.
  pose proof (findIndex_bounds (has_id messageId) (StorageService.messages s)) as B.
  unfold StorageService.getMessagesBefore. cbv zeta.
  rewrite ensure_initialized_idle by assumption. rewrite Hk.
  destruct (Z.of_nat k =? -1) eqn:E; [apply Z.eqb_eq in E; lia|].
  rewrite slice_window by lia.
  eexists. split; [reflexivity|].
  assert (Hlen : List.length
            (firstn (Z.to_nat (Z.min (Z.of_nat k) limit))
               (skipn (Z.to_nat (Z.max 0 (Z.of_nat k - limit)))
                  (StorageService.messages s))) = Nat.min k (Z.to_nat limit)).
  { rewrite length_firstn, length_skipn. lia. }
  split; [exact Hlen|].
  intros j Hj. rewrite Hlen in *.
  rewrite nth_error_firstn.
  destruct (Nat.ltb_spec j (Z.to_nat (Z.min (Z.of_nat k) limit))); [|lia].
  rewrite nth_error_skipn. f_equal. lia.
Qed.

(** With no message carrying the id and a positive limit, it answers the
    last [limit] messages, in stored order. *)
Lemma getMessagesBefore_recent env messageId limit s :
  StorageService.initialized s = true ->
  findIndex (has_id messageId) (StorageService.messages s) = -1 ->
  0 < limit ->
  StorageService.getMessagesBefore env messageId (Some limit) s =
  (s, Returned (skipn (List.length (StorageService.messages s) - Z.to_nat limit)
                  (StorageService.messages s))).
Proof.
  intros Hs Hk Hl. unfold StorageService.getMessagesBefore. cbv zeta.
  rewrite ensure_initialized_idle by assumption. rewrite Hk.
  cbn [Z.eqb Z.opp Pos.eqb]. now rewrite slice_from_end.
Qed.

Lemma has_id_string a i :
  has_id (Some (JStr i)) a = true <-> id a = JStr i.
Proof.
  unfold has_id, strict_equals. destruct (id a) as [|b|n|x|items|props];
    try (split; discriminate).
  rewrite String.eqb_eq. split; [now intros ->|now intros [= ->]].
Qed.

(** With ids unique, as the data model has them, the index [findIndex]
    answers for the id of the message at [k] is [k]. *)
Lemma findIndex_unique (l : list Message) : forall k m i,
  NoDup (map id l) ->
  nth_error l k = Some m ->
  id m = JStr i ->
  findIndex (has_id (Some (JStr i))) l = Z.of_nat k.
Proof.
  induction l as [|x rest IH]; intros k m i Hnd Hk Hid.
  - destruct k; discriminate Hk.
  - cbn [map] in Hnd. inversion Hnd as [|? ? Hx Hrest]; subst.
    cbn [findIndex]. destruct k as [|k]; cbn [nth_error] in Hk.
    + injection Hk as ->. destruct (has_id (Some (JStr i)) m) eqn:E; [reflexivity|].
      apply has_id_string in Hid. congruence.
    + destruct (has_id (Some (JStr i)) x) eqn:E.
      * exfalso. apply has_id_string in E. apply Hx. rewrite E, <- Hid.
        apply in_map. now apply nth_error_In with k.
      * rewrite (IH k m i Hrest Hk Hid).
        destruct (Z.of_nat k <? 0) eqn:L; [apply Z.ltb_lt in L; lia|lia].
Qed.

(** The history range of the file-backed store for a limit that is not
    negative: asked with the id of the message at index [k], it answers
    the [min k limit] messages just below [k], oldest first. *)
Lemma history_range env s k m i limit :
  StorageService.initialized s = true ->
  NoDup (map id (StorageService.messages s)) ->
  nth_error (StorageService.messages s) k = Some m ->
  id m = JStr i ->
  0 <= limit ->
  exists page,
    StorageService.getMessagesBefore env (Some (JStr i)) (Some limit) s
    = (s, Returned page) /\
    List.length page = Nat.min k (Z.to_nat limit) /\
    forall j, (j < List.length page)%nat ->
      nth_error page j
      = nth_error (StorageService.messages s) (k - List.length page + j).
Proof.
  intros Hs Hnd Hk Hid Hl.
  apply getMessagesBefore_window; [assumption| |assumption].
  now apply findIndex_unique with m.
Qed.

(** C2. At limit 0 and an id no stored message carries, the file-backed
    store answers every stored message instead of none, while the branch
    for a matched id answers none: [slice(-0)] is [slice(0)]. *)
Theorem getMessagesBefore_zero_limit_answers_all :
  snd (StorageService.getMessagesBefore calm (Some JNull) (Some 0) (holding [m1; m2; m3]))
  = Returned [m1; m2; m3] /\
  snd (StorageService.getMessagesBefore calm None (Some 0) (holding [m1; m2; m3]))
  = Returned [m1; m2; m3] /\
  snd (StorageService.getMessagesBefore calm (Some (JStr "m3")) (Some 0) (holding [m1; m2; m3]))
  = Returned [] /\
  snd (StorageService.getMessagesBefore calm (Some JNull) (Some 1) (holding [m1; m2; m3]))
  = Returned [m3].
Proof. repeat split; vm_compute; reflexivity. Qed.

(** C10 as stated fails for [getMessagesBefore]: after the failed save of
    [m1], asking for the messages before [m1] itself answers none, and the
    newest message alone once another save has followed. *)
Lemma failed_save_not_in_every_page :
  snd (StorageService.saveMessage readonly m1 (holding [])) = Thrown "writeFile" /\
  snd (StorageService.getMessagesBefore calm (Some (JStr "m1")) (Some 20)
         (fst (StorageService.saveMessage readonly m1 (holding []))))
  = Returned [] /\
  snd (StorageService.getMessagesBefore calm None (Some 1)
         (fst (StorageService.saveMessage calm m2
                 (fst (StorageService.saveMessage readonly m1 (holding []))))))
  = Returned [m2] /\
  ~ In m1 [] /\ ~ In m1 [m2].
Proof.
  repeat split; try (vm_compute; reflexivity).
  - intros [].
  - intros [H|[]]. discriminate H.
Qed.

(** C10, amended. A save whose file write fails throws and keeps the
    message in memory. After any further saves the
    message is still in what [getAllMessages] answers, and
    [getMessagesBefore] reads the list that holds it: asked with an id no
    message carries and a limit above the number of later saves, it
    answers a page that contains the message. *)
Theorem failed_save_stays_in_memory env message s :
  writeFile_fails env = true ->
  let s1 := fst (StorageService.saveMessage env message s) in
  snd (StorageService.saveMessage env message s) = Thrown "writeFile" /\
  StorageService.messages s1 =
    StorageService.messages (StorageService.ensure_initialized env s) ++ [message] /\
  forall later env',
    let s2 := save_all later s1 in
    StorageService.messages s2 = StorageService.messages s1 ++ map snd later /\
    (exists all, StorageService.getAllMessages env' s2 = (s2, Returned all) /\
                 In message all) /\
    (forall messageId limit,
        findIndex (has_id messageId) (StorageService.messages s2) = -1 ->
        Z.of_nat (List.length later) < limit ->
        exists page,
          StorageService.getMessagesBefore env' messageId (Some limit) s2
          = (s2, Returned page) /\ In message page).
Proof.
  intros Hw s1.
  assert (Hs1 : StorageService.initialized s1 = true) by apply saveMessage_initialized.
  assert (Hm1 : StorageService.messages s1 =
                StorageService.messages (StorageService.ensure_initialized env s) ++ [message])
    by apply saveMessage_messages.
  split; [|split].
  - unfold StorageService.saveMessage. now rewrite Hw.
  - exact Hm1.
  - intros later env' s2.
    destruct (save_all_messages later s1 Hs1) as [Hi Hm]. fold s2 in Hi, Hm.
    assert (Hin : In message (StorageService.messages s2)).
    { rewrite Hm, Hm1. apply in_or_app. left. apply in_or_app. right. now left. }
    split; [exact Hm|split].
    + exists (StorageService.messages s2). split; [|exact Hin].
      unfold StorageService.getAllMessages. now rewrite ensure_initialized_idle.
    + intros messageId limit Hnone Hlimit.
      rewrite getMessagesBefore_recent by (assumption || lia).
      eexists. split; [reflexivity|].
      rewrite Hm, Hm1.
      set (before := StorageService.messages (StorageService.ensure_initialized env s)).
      rewrite <- app_assoc. cbn [app].
      rewrite skipn_app. apply in_or_app. right.
      replace (List.length (before ++ message :: map snd later)
               - Z.to_nat limit - List.length before)%nat with 0%nat.
      * cbn [skipn]. now left.
      * rewrite length_app. cbn [List.length]. rewrite length_map. lia.
Qed.

Lemma failed_save_stays_in_memory_witness :
  writeFile_fails readonly = true /\
  In m1 (StorageService.messages
           (save_all [(calm, m2)]
              (fst (StorageService.saveMessage readonly m1 (holding []))))).
Proof.
  split; [reflexivity|].
  destruct (failed_save_stays_in_memory readonly m1 (holding []) eq_refl)
    as (_ & _ & H).
  destruct (H [(calm, m2)] calm) as (Hm & _ & _).
  rewrite Hm. apply in_or_app. left. now left.
Defined.

(** ** Running server code *)

Lemma run_eta {A : Type} (r : Run A) :
  {| after := after r; effects := effects r; result := result r |} = r.
Proof. now destruct r. Qed.

Lemma bind_returned {A B : Type} (m : M A) (k : A -> M B) s s1 e1 a :
  m s = {| after := s1; effects := e1; result := Returned a |} ->
  bind m k s = {| after := after (k a s1); effects := e1 ++ effects (k a s1);
                  result := result (k a s1) |}.
Proof. unfold bind. now intros ->. Qed.

Lemma bind_thrown {A B : Type} (m : M A) (k : A -> M B) s s1 e1 e :
  m s = {| after := s1; effects := e1; result := Thrown e |} ->
  bind m k s = {| after := s1; effects := e1; result := Thrown e |}.
Proof. unfold bind. now intros ->. Qed.

(** A step that changes nothing and has no effect just passes its value. *)
Lemma bind_pure {A B : Type} (m : M A) (k : A -> M B) s a :
  m s = {| after := s; effects := []; result := Returned a |} ->
  bind m k s = k a s.
Proof. intros H. rewrite (bind_returned m k s s [] a H). cbn [app]. apply run_eta. Qed.

Lemma try_returned {A : Type} (m : M A) handler s s1 e1 a :
  m s = {| after := s1; effects := e1; result := Returned a |} ->
  try_catch m handler s = {| after := s1; effects := e1; result := Returned a |}.
Proof. unfold try_catch. now intros ->. Qed.

Lemma try_thrown {A : Type} (m : M A) handler s s1 e1 e :
  m s = {| after := s1; effects := e1; result := Thrown e |} ->
  try_catch m handler s =
  {| after := after (handler e s1); effects := e1 ++ effects (handler e s1);
     result := result (handler e s1) |}.
Proof. unfold try_catch. now intros ->. Qed.

Lemma send_run env ws frame s :
  send env ws frame s =
  {| after := s; effects := [Send ws frame];
     result := if send_throws env ws then Thrown "send" else Returned tt |}.
Proof. unfold send, bind, emit. cbn. destruct (send_throws env ws); reflexivity. Qed.

(** A guarded send never throws. *)
Lemma guarded_send_run env ws frame s :
  try_catch (send env ws frame) (fun _ => ret tt) s =
  {| after := s; effects := [Send ws frame]; result := Returned tt |}.
Proof.
  unfold try_catch. rewrite send_run. cbn. destruct (send_throws env ws); reflexivity.
Qed.

Lemma offer_run env message excludeWs session s :
  WebSocketServer.offer env message excludeWs session s =
  {| after := s;
     effects := if reached excludeWs s session
                then [Send (SessionManager.ws session) (Chat message)] else [];
     result := Returned tt |}.
Proof.
  unfold WebSocketServer.offer, bind, getReadyState, reached.
  cbn [result after effects app]. cbv zeta.
  destruct excludeWs as [ex|];
    [destruct (Nat.eqb (SessionManager.ws session) ex)|];
    destruct (readyState s (SessionManager.ws session) =? 1); cbn [negb andb];
    rewrite ?guarded_send_run; reflexivity.
Qed.

Lemma forEach_offer env message excludeWs (l : list SessionManager.Session) s :
  forEach (WebSocketServer.offer env message excludeWs) l s =
  {| after := s;
     effects := map (fun socket => Send socket (Chat message))
                    (map SessionManager.ws (filter (reached excludeWs s) l));
     result := Returned tt |}.
Proof.
  induction l as [|session rest IH].
  - reflexivity.
  - cbn [forEach filter]. unfold bind at 1.
    rewrite offer_run. cbn [result after effects]. rewrite IH.
    cbn [result after effects].
    destruct (reached excludeWs s session); reflexivity.
Qed.

Lemma broadcast_run env message excludeWs s :
  WebSocketServer.broadcast env message excludeWs s =
  {| after := s; effects := fanout message excludeWs s; result := Returned tt |}.
Proof.
  unfold WebSocketServer.broadcast. unfold bind at 1. unfold getSessions.
  cbn [result after effects]. rewrite forEach_offer. reflexivity.
Qed.

Lemma sendErrorResponse_run env ws text s :
  WebSocketServer.sendErrorResponse env ws text s =
  {| after := s;
     effects := if readyState s ws =? 1
                then [Send ws (ERROR text (Some (now env)))] else [];
     result := Returned tt |}.
Proof.
  unfold WebSocketServer.sendErrorResponse, try_catch, bind, getReadyState.
  cbn [result after effects].
  destruct (readyState s ws =? 1).
  - rewrite send_run. cbn. destruct (send_throws env ws); reflexivity.
  - reflexivity.
Qed.

(** The best-effort save of the handlers never throws. *)
Lemma persist_run env message s :
  MessageHandler.persist env message s =
  {| after := persisted env message s; effects := persisting env message s;
     result := Returned tt |}.
Proof.
  unfold MessageHandler.persist.
  unfold bind, hasStorage, try_catch, saveMessage, ret, persisted, persisting.
  cbn [after effects result].
  destruct (storageService s) as [st|] eqn:Hst; cbn beta iota; [|reflexivity].
  rewrite Hst. cbn [after effects result].
  destruct (snd (storage_saveMessage env message st)) as [[]|e]; reflexivity.
Qed.

Lemma getMessagesBefore_run env messageId limit st s :
  storageService s = Some st ->
  getMessagesBefore env messageId limit s =
  {| after := asked env messageId limit st s;
     effects := [Query messageId limit];
     result := answer env messageId limit st |}.
Proof.
  intros Hst. unfold getMessagesBefore, asked, answer. now rewrite Hst.
Qed.

(** ** The registry *)

Lemma updateActivity_sockets env key m :
  map SessionManager.ws (SessionManager.getAllSessions (SessionManager.updateActivity env key m))
  = map SessionManager.ws (SessionManager.getAllSessions m).
Proof.
  unfold SessionManager.getAllSessions.
  induction m as [|[k s] rest IH]; [reflexivity|].
  cbn [SessionManager.updateActivity]. destruct (String.eqb key k); cbn.
  - reflexivity.
  - f_equal. exact IH.
Qed.

Lemma updateActivity_find env key socket m :
  SessionManager.findUserIdByWs socket (SessionManager.updateActivity env key m)
  = SessionManager.findUserIdByWs socket m.
Proof.
  induction m as [|[k s] rest IH]; [reflexivity|].
  cbn [SessionManager.updateActivity]. destruct (String.eqb key k); cbn.
  - reflexivity.
  - now rewrite IH.
Qed.

Lemma recipients_sockets excludeWs s s' :
  readyState s' = readyState s ->
  map SessionManager.ws (SessionManager.getAllSessions (sessions s'))
  = map SessionManager.ws (SessionManager.getAllSessions (sessions s)) ->
  recipients excludeWs s' = recipients excludeWs s.
Proof.
  unfold recipients, reached. intros -> H.
  set (keep := fun socket : WebSocket =>
                 match excludeWs with
                 | Some ex => negb (Nat.eqb socket ex)
                 | None => true
                 end && (readyState s socket =? 1)).
  assert (G : forall l, map SessionManager.ws
                (filter (fun session => keep (SessionManager.ws session)) l)
              = filter keep (map SessionManager.ws l)).
  { induction l as [|x l IH]; [reflexivity|]. cbn.
    destruct (keep (SessionManager.ws x)); cbn; now rewrite IH. }
  change (map SessionManager.ws
            (filter (fun session => keep (SessionManager.ws session))
                    (SessionManager.getAllSessions (sessions s')))
          = map SessionManager.ws
              (filter (fun session => keep (SessionManager.ws session))
                      (SessionManager.getAllSessions (sessions s)))).
  now rewrite !G, H.
Qed.

Lemma persisted_sessions env message s : sessions (persisted env message s) = sessions s.
Proof. unfold persisted. now destruct (storageService s). Qed.

Lemma persisted_readyState env message s :
  readyState (persisted env message s) = readyState s.
Proof. unfold persisted. now destruct (storageService s). Qed.

Lemma fanout_after_save env message saved userId excludeWs s :
  fanout message excludeWs (persisted env saved (touched env userId s))
  = fanout message excludeWs s.
Proof.
  unfold fanout. f_equal. apply recipients_sockets.
  - now rewrite persisted_readyState.
  - rewrite persisted_sessions. apply updateActivity_sockets.
Qed.

(** ** Validation *)

Lemma blank_empty : blank "" = true.
Proof. reflexivity. Qed.

Ltac split_if H :=
  repeat match type of H with
         | (if ?c then _ else _) = _ => destruct c eqn:?; try discriminate H
         end.

Lemma validated_type data :
  MessageHandler.validateMessage data = None ->
  exists props t, data = JObj props /\ prop "type" data = Some (JStr t)
                  /\ MessageHandler.type_name data = t /\ t <> "".
Proof.
  unfold MessageHandler.validateMessage. intros H.
  destruct data as [|b|n|s|items|props];
    try (cbn in H; split_if H; discriminate H).
  destruct (negb (truthy (Some (JObj props)))
            || negb (typeof (Some (JObj props)) =? "object")%string);
    [discriminate|].
  destruct (negb (truthy (prop "type" (JObj props)))
            || negb (MessageHandler.is_string (prop "type" (JObj props)))) eqn:T;
    [discriminate|].
  clear H. unfold MessageHandler.type_name, MessageHandler.is_string in *.
  destruct (prop "type" (JObj props)) as [[|b|n|t|items|ps]|];
    try (cbn in T; rewrite ?orb_true_r in T; discriminate T).
  exists props, t. repeat split; try reflexivity.
  intros ->. discriminate T.
Qed.

Lemma string_field v :
  negb (truthy v) || negb (MessageHandler.is_string v) = false ->
  exists s, v = Some (JStr s) /\ s <> "".
Proof.
  unfold MessageHandler.is_string. intros H.
  destruct v as [[|b|n|s|items|ps]|];
    try (cbn in H; rewrite ?orb_true_r in H; discriminate H).
  exists s. split; [reflexivity|]. intros ->. discriminate H.
Qed.

Lemma validated_login data :
  MessageHandler.validateMessage data = None ->
  MessageHandler.type_name data = "LOGIN" ->
  exists u, prop "userId" data = Some (JStr u) /\ u <> "".
Proof.
  unfold MessageHandler.validateMessage. intros H Ht. cbv zeta in H.
  rewrite Ht in H. rewrite String.eqb_refl in H.
  split_if H. now apply string_field.
Qed.

Lemma validated_chat data :
  MessageHandler.validateMessage data = None ->
  MessageHandler.is_chat_type (MessageHandler.type_name data) = true ->
  exists body, prop "content" data = Some (JStr body) /\ body <> "".
Proof.
  unfold MessageHandler.validateMessage. intros H Ht. cbv zeta in H.
  rewrite Ht in H.
  destruct (String.eqb_spec (MessageHandler.type_name data) "LOGIN") as [E|_].
  - rewrite E in Ht. discriminate Ht.
  - split_if H. now apply string_field.
Qed.

Lemma validated_history data :
  MessageHandler.validateMessage data = None ->
  MessageHandler.type_name data = "GET_HISTORY" ->
  (prop "lastMessageId" data = None \/ exists s, prop "lastMessageId" data = Some (JStr s))
  /\ (prop "limit" data = None /\ MessageHandler.limit_of data = Some 20
      \/ exists n, prop "limit" data = Some (JNum n)
                   /\ MessageHandler.limit_of data = Some n).
Proof.
  unfold MessageHandler.validateMessage, MessageHandler.limit_of. intros H Ht.
  cbv zeta in H. rewrite Ht in H.
  change (String.eqb "GET_HISTORY" "LOGIN") with false in H.
  change (MessageHandler.is_chat_type "GET_HISTORY") with false in H.
  rewrite String.eqb_refl in H. split_if H. clear H. split.
  - destruct (prop "lastMessageId" data) as [[|b|n|s|items|ps]|];
      try discriminate; [right; now exists s | now left].
  - destruct (prop "limit" data) as [[|b|n|s|items|ps]|];
      try discriminate; [right; now exists n | now left].
Qed.

Lemma validated_not_system data :
  MessageHandler.validateMessage data = None ->
  MessageHandler.type_name data <> "SYSTEM".
Proof.
  unfold MessageHandler.validateMessage. intros H Ht. cbv zeta in H.
  rewrite Ht in H.
  change (String.eqb "SYSTEM" "LOGIN") with false in H.
  change (MessageHandler.is_chat_type "SYSTEM") with false in H.
  change (String.eqb "SYSTEM" "GET_HISTORY") with false in H.
  rewrite String.eqb_refl in H. split_if H.
Qed.

(** ** Delivery of chat messages *)

Lemma findUserIdByWs_run ws s :
  findUserIdByWs ws s =
  {| after := s; effects := [];
     result := Returned (SessionManager.findUserIdByWs ws (sessions s)) |}.
Proof. reflexivity. Qed.

Lemma not_blank_truthy body :
  blank body = false -> truthy (Some (JStr body)) = true.
Proof.
  intros H. cbn. destruct (String.eqb_spec body "") as [->|_]; [discriminate H|reflexivity].
Qed.

Lemma missing_or_blank_string body s :
  body <> "" ->
  missing_or_blank (Some (JStr body)) s =
  {| after := s; effects := []; result := Returned (blank body) |}.
Proof.
  intros H. unfold missing_or_blank. cbn [truthy].
  destruct (String.eqb_spec body "") as [E|_]; [contradiction|reflexivity].
Qed.

(** A chat message from a bound socket, with content that is not blank, is
    stamped, saved best-effort and broadcast; nothing is thrown. *)
Lemma deliver_run env ws props kind emptyError failure excludeWs userId body s :
  MessageHandler.bound (SessionManager.findUserIdByWs ws (sessions s)) = Some userId ->
  prop "content" (JObj props) = Some (JStr body) ->
  blank body = false ->
  let message := MessageHandler.compose env kind userId (JObj props) body in
  MessageHandler.deliver WebSocketServer.broadcast env ws (JObj props)
    kind emptyError failure excludeWs s =
  {| after := persisted env message (touched env userId s);
     effects := persisting env message (touched env userId s)
                ++ fanout message excludeWs s;
     result := Returned tt |}.
Proof.
  intros Hb Hc Hblank message.
  assert (Hne : body <> "") by (intros ->; discriminate Hblank).
  unfold MessageHandler.deliver. apply try_returned.
  rewrite (bind_pure _ _ s _ (findUserIdByWs_run ws s)). rewrite Hb.
  rewrite (bind_pure _ _ s (prop "content" (JObj props))) by reflexivity.
  rewrite Hc.
  rewrite (bind_pure _ _ s _ (missing_or_blank_string body s Hne)). rewrite Hblank.
  rewrite (bind_returned _ _ s (touched env userId s) [] tt) by reflexivity.
  rewrite (bind_returned _ _ _ _ _ tt (persist_run env message (touched env userId s))).
  rewrite broadcast_run. cbn [after effects result app].
  fold message. now rewrite fanout_after_save.
Qed.

Lemma handleMessage_routed env ws data s :
  MessageHandler.validateMessage data = None ->
  WebSocketServer.handleMessage env ws (Some data) s =
  try_catch (WebSocketServer.route env ws data)
            (fun _ => WebSocketServer.sendErrorResponse env ws "Failed to process message") s.
Proof. intros H. unfold WebSocketServer.handleMessage. now rewrite H. Qed.

Lemma route_text env ws data :
  MessageHandler.type_name data = "TEXT" ->
  WebSocketServer.route env ws data =
  MessageHandler.handleTextMessage WebSocketServer.broadcast env ws data.
Proof. intros H. unfold WebSocketServer.route. now rewrite H. Qed.

Lemma route_media env ws data :
  MessageHandler.is_media_type (MessageHandler.type_name data) = true ->
  WebSocketServer.route env ws data =
  MessageHandler.handleMediaMessage WebSocketServer.broadcast env ws data.
Proof.
  intros H. unfold WebSocketServer.route. cbv zeta. rewrite H.
  destruct (String.eqb_spec (MessageHandler.type_name data) "LOGIN") as [E|_];
    [rewrite E in H; discriminate H|].
  destruct (String.eqb_spec (MessageHandler.type_name data) "TEXT") as [E|_];
    [rewrite E in H; discriminate H|].
  reflexivity.
Qed.

Lemma frames_to_app ws l1 l2 :
  frames_to ws (l1 ++ l2) = frames_to ws l1 ++ frames_to ws l2.
Proof. unfold frames_to. apply flat_map_app. Qed.

Lemma frames_to_persisting ws env message s :
  frames_to ws (persisting env message s) = [].
Proof. unfold persisting. now destruct (storageService s). Qed.

Lemma frames_to_in ws frame l :
  In (Send ws frame) l -> In frame (frames_to ws l).
Proof.
  intros H. unfold frames_to. apply in_flat_map.
  exists (Send ws frame). split; [assumption|].
  rewrite Nat.eqb_refl. now left.
Qed.

(** The sender's socket is not among the recipients of a broadcast that
    excludes it. *)
Lemma frames_to_excluded ws message s :
  frames_to ws (fanout message (Some ws) s) = [].
Proof.
  unfold fanout, recipients.
  induction (SessionManager.getAllSessions (sessions s)) as [|x l IH]; [reflexivity|].
  cbn [filter]. unfold reached at 1.
  destruct (Nat.eqb (SessionManager.ws x) ws) eqn:E; cbn [negb andb]; [exact IH|].
  destruct (readyState s (SessionManager.ws x) =? 1); [|exact IH].
  cbn [map frames_to flat_map]. rewrite E. exact IH.
Qed.

Lemma fanout_reaches message excludeWs s session :
  In session (SessionManager.getAllSessions (sessions s)) ->
  reached excludeWs s session = true ->
  In (Send (SessionManager.ws session) (Chat message)) (fanout message excludeWs s).
Proof.
  intros Hin Hr. unfold fanout, recipients.
  apply in_map with (f := fun socket => Send socket (Chat message)).
  apply in_map. apply filter_In. now split.
Qed.

Lemma findUserIdByWs_session socket m userId :
  SessionManager.findUserIdByWs socket m = Some userId ->
  exists session, In (userId, session) m /\ SessionManager.ws session = socket.
Proof.
  induction m as [|[k x] rest IH]; cbn [SessionManager.findUserIdByWs]; [discriminate|].
  destruct (Nat.eqb_spec (SessionManager.ws x) socket) as [E|_].
  - intros [= <-]. exists x. split; [now left|exact E].
  - intros H. destruct (IH H) as (y & Hy & E). exists y. split; [now right|exact E].
Qed.

Lemma bound_found found userId :
  MessageHandler.bound found = Some userId -> found = Some userId.
Proof.
  destruct found as [u|]; cbn; [|discriminate].
  destruct (String.eqb u ""); [discriminate|]. now intros [= ->].
Qed.

(** C1. A valid TEXT from a bound socket is handed to every registered
    session on another, open socket, and no frame at all goes to the
    sender's socket; a valid IMAGE, VIDEO or AUDIO is handed to every
    registered session on an open socket, the sender's included. *)
Theorem broadcast_asymmetry env ws data userId body s :
  MessageHandler.validateMessage data = None ->
  MessageHandler.bound (SessionManager.findUserIdByWs ws (sessions s)) = Some userId ->
  prop "content" data = Some (JStr body) ->
  blank body = false ->
  let sent := effects (WebSocketServer.handleMessage env ws (Some data) s) in
  let frame := Chat (MessageHandler.compose env (MessageHandler.type_name data)
                       userId data body) in
  (MessageHandler.type_name data = "TEXT" ->
   (forall session,
       In session (SessionManager.getAllSessions (sessions s)) ->
       SessionManager.ws session <> ws ->
       readyState s (SessionManager.ws session) = 1 ->
       In (Send (SessionManager.ws session) frame) sent) /\
   frames_to ws sent = []) /\
  (MessageHandler.is_media_type (MessageHandler.type_name data) = true ->
   (forall session,
       In session (SessionManager.getAllSessions (sessions s)) ->
       readyState s (SessionManager.ws session) = 1 ->
       In (Send (SessionManager.ws session) frame) sent) /\
   (readyState s ws = 1 -> In frame (frames_to ws sent))).
Proof.
  intros Hv Hb Hc Hblank sent frame.
  destruct (validated_type data Hv) as (props & t & -> & _ & Ht & _).
  split.
  - intros Htext. subst sent frame. rewrite Htext.
    rewrite (handleMessage_routed _ _ _ _ Hv), (route_text _ _ _ Htext).
    unfold MessageHandler.handleTextMessage.
    erewrite try_returned by (apply deliver_run; eassumption).
    cbn [effects]. split.
    + intros session Hin Hws Hopen. apply in_or_app. right.
      apply fanout_reaches; [assumption|]. unfold reached.
      destruct (Nat.eqb_spec (SessionManager.ws session) ws) as [E|_]; [contradiction|].
      rewrite Hopen. reflexivity.
    + rewrite frames_to_app, frames_to_persisting, frames_to_excluded. reflexivity.
  - intros Hmedia. subst sent frame.
    rewrite (handleMessage_routed _ _ _ _ Hv), (route_media _ _ _ Hmedia).
    unfold MessageHandler.handleMediaMessage.
    erewrite try_returned by (apply deliver_run; eassumption).
    cbn [effects].
    assert (Hall : forall session,
               In session (SessionManager.getAllSessions (sessions s)) ->
               readyState s (SessionManager.ws session) = 1 ->
               In (Send (SessionManager.ws session)
                     (Chat (MessageHandler.compose env
                              (MessageHandler.type_name (JObj props)) userId
                              (JObj props) body)))
                  (persisting env
                     (MessageHandler.compose env
                        (MessageHandler.type_name (JObj props)) userId
                        (JObj props) body) (touched env userId s)
                   ++ fanout
                        (MessageHandler.compose env
                           (MessageHandler.type_name (JObj props)) userId
                           (JObj props) body) None s)).
    { intros session Hin Hopen. apply in_or_app. right.
      apply fanout_reaches; [assumption|]. unfold reached. now rewrite Hopen. }
    split; [exact Hall|].
    intros Hopen. apply frames_to_in.
    destruct (findUserIdByWs_session _ _ _ (bound_found _ _ Hb)) as (session & Hin & Hws).
    rewrite <- Hws. apply Hall.
    + unfold SessionManager.getAllSessions. apply in_map_iff.
      exists (userId, session). now split.
    + now rewrite Hws.
Qed.

Lemma broadcast_asymmetry_witness :
  (MessageHandler.validateMessage hello = None /\
   MessageHandler.bound (SessionManager.findUserIdByWs 1%nat (sessions (lobby [])))
   = Some "alice" /\
   prop "content" hello = Some (JStr "hello") /\
   blank "hello" = false) /\
  frames_to 1%nat (effects (WebSocketServer.handleMessage calm 1%nat (Some hello) (lobby [])))
  = [].
Proof.
  split; [repeat split; reflexivity|].
  destruct (broadcast_asymmetry calm 1%nat hello "alice" "hello" (lobby [])
              eq_refl eq_refl eq_refl eq_refl) as [Htext _].
  apply Htext. reflexivity.
Defined.

(** ** Rejections *)

Lemma handleMessage_malformed env ws data text s :
  malformed data = Some text ->
  WebSocketServer.handleMessage env ws data s =
  {| after := s;
     effects := if readyState s ws =? 1
                then [Send ws (ERROR text (Some (now env)))] else [];
     result := Returned tt |}.
Proof.
  intros H. unfold WebSocketServer.handleMessage. apply try_returned.
  destruct data as [message|]; cbn [malformed] in H.
  - rewrite H. apply sendErrorResponse_run.
  - injection H as <-. apply sendErrorResponse_run.
Qed.

Lemma missing_required_malformed message :
  missing_required message = true ->
  exists text, MessageHandler.validateMessage message = Some text.
Proof.
  destruct (MessageHandler.validateMessage message) as [text|] eqn:V;
    [intros _; now exists text|].
  intros H. exfalso.
  destruct (validated_type message V) as (props & t & -> & Hp & Ht & _).
  cbn [missing_required] in H. rewrite Hp, Ht in H.
  cbn [MessageHandler.defined negb orb] in H.
  apply orb_true_iff in H. destruct H as [H|H]; apply andb_true_iff in H;
    destruct H as [Hk Hu].
  - apply String.eqb_eq in Hk. subst t.
    destruct (validated_login _ V Ht) as (u & Hu' & _).
    rewrite Hu' in Hu. discriminate Hu.
  - rewrite <- Ht in Hk. destruct (validated_chat _ V Hk) as (body & Hb & _).
    rewrite Hb in Hu. discriminate Hu.
Qed.

Lemma deliver_unbound env ws data kind emptyError failure excludeWs s :
  MessageHandler.bound (SessionManager.findUserIdByWs ws (sessions s)) = None ->
  MessageHandler.deliver WebSocketServer.broadcast env ws data
    kind emptyError failure excludeWs s =
  {| after := s;
     effects := Send ws (ERROR "Not authenticated" None)
                :: (if send_throws env ws then [Send ws (ERROR failure None)] else []);
     result := if send_throws env ws then Thrown "send" else Returned tt |}.
Proof.
  intros Hb. unfold MessageHandler.deliver, try_catch.
  rewrite (bind_pure _ _ s _ (findUserIdByWs_run ws s)). rewrite Hb.
  rewrite !send_run. cbn [after effects result].
  destruct (send_throws env ws); reflexivity.
Qed.

Lemma handleGetHistory_unbound env ws data s :
  MessageHandler.bound (SessionManager.findUserIdByWs ws (sessions s)) = None ->
  MessageHandler.handleGetHistory env ws data s =
  {| after := s;
     effects := [Send ws (ERROR "Not authenticated" None)];
     result := if send_throws env ws then Thrown "send" else Returned tt |}.
Proof.
  intros Hb. unfold MessageHandler.handleGetHistory.
  rewrite (bind_pure _ _ s _ (findUserIdByWs_run ws s)). rewrite Hb.
  apply send_run.
Qed.

(** C5 as stated fails on a socket that is no longer open: the error
    response is skipped. The payload [None] below arrives while the socket
    is open, is still queued when the socket closes, and is handled after
    the close without any frame being sent. *)
Lemma malformed_after_close_unanswered :
  WebSocketServer.drains
    (WebSocketServer.play
       [WebSocketServer.Arrive (Some hello); WebSocketServer.Arrive None;
        WebSocketServer.Hangup calm; WebSocketServer.Settle 0 calm]
       (WebSocketServer.handleConnection 1%nat (lobby []))) = [None] /\
  readyState
    (WebSocketServer.server
       (WebSocketServer.play
          [WebSocketServer.Arrive (Some hello); WebSocketServer.Arrive None;
           WebSocketServer.Hangup calm; WebSocketServer.Settle 0 calm]
          (WebSocketServer.handleConnection 1%nat (lobby [])))) 1%nat = 3 /\
  effects
    (WebSocketServer.handleMessage calm 1%nat None
       (WebSocketServer.server
          (WebSocketServer.play
             [WebSocketServer.Arrive (Some hello); WebSocketServer.Arrive None;
              WebSocketServer.Hangup calm; WebSocketServer.Settle 0 calm]
             (WebSocketServer.handleConnection 1%nat (lobby []))))) = [] /\
  effects (WebSocketServer.handleMessage calm 1%nat None
             (WebSocketServer.closed 1%nat (lobby []))) = [].
Proof. repeat split; vm_compute; reflexivity. Qed.

(** C5, amended. A payload that is not JSON, or an object that lacks the
    field its declared type requires, makes [handleMessage] return normally
    with registry and store untouched; the only effect is one ERROR frame to
    the socket when it is open, and none when it is not. Whatever arrives
    next, on any socket, is handled as if the payload had never come. *)
Theorem malformed_input_rejected env ws data s :
  (data = None \/
   exists message, data = Some message /\ missing_required message = true) ->
  exists text,
    malformed data = Some text /\
    WebSocketServer.handleMessage env ws data s =
    {| after := s;
       effects := if readyState s ws =? 1
                  then [Send ws (ERROR text (Some (now env)))] else [];
       result := Returned tt |} /\
    forall env' ws' data',
      WebSocketServer.handleMessage env' ws' data'
        (after (WebSocketServer.handleMessage env ws data s))
      = WebSocketServer.handleMessage env' ws' data' s.
Proof.
  intros H.
  assert (Hm : exists text, malformed data = Some text).
  { destruct H as [->|(message & -> & Hreq)].
    - now exists "Invalid JSON format".
    - cbn [malformed]. now apply missing_required_malformed. }
  destruct Hm as (text & Hm). exists text.
  pose proof (handleMessage_malformed env ws data text s Hm) as Hrun.
  split; [exact Hm|]. split; [exact Hrun|].
  intros env' ws' data'. now rewrite Hrun.
Qed.

Lemma malformed_input_rejected_witness :
  (Some (JObj [("type", JStr "TEXT")]) = @None json \/
   exists message,
     Some (JObj [("type", JStr "TEXT")]) = Some message /\
     missing_required message = true) /\
  after (WebSocketServer.handleMessage calm 1%nat
           (Some (JObj [("type", JStr "TEXT")])) (lobby [])) = lobby [].
Proof.
  assert (H : Some (JObj [("type", JStr "TEXT")]) = @None json \/
              exists message,
                Some (JObj [("type", JStr "TEXT")]) = Some message /\
                missing_required message = true)
    by (right; eexists; split; reflexivity).
  split; [exact H|].
  destruct (malformed_input_rejected calm 1%nat (Some (JObj [("type", JStr "TEXT")]))
              (lobby []) H) as (text & _ & Hrun & _).
  rewrite Hrun. reflexivity.
Defined.

Lemma Forall_error_cons ws text stamp l :
  Forall (error_to ws) l -> Forall (error_to ws) (Send ws (ERROR text stamp) :: l).
Proof. intros H. constructor; [now exists text, stamp|exact H]. Qed.

Lemma sendErrorResponse_errors env ws text s :
  Forall (error_to ws) (effects (WebSocketServer.sendErrorResponse env ws text s)).
Proof.
  rewrite sendErrorResponse_run. cbn [effects].
  destruct (readyState s ws =? 1); [apply Forall_error_cons|]; constructor.
Qed.

(** What an unbound socket gets for a chat message that passed validation,
    whatever its [send] does. *)
Lemma unbound_chat_run env ws data kind emptyError failure excludeWs s :
  MessageHandler.bound (SessionManager.findUserIdByWs ws (sessions s)) = None ->
  try_catch
    (MessageHandler.deliver WebSocketServer.broadcast env ws data
       kind emptyError failure excludeWs)
    (fun _ => WebSocketServer.sendErrorResponse env ws "Failed to process message") s =
  {| after := s;
     effects := Send ws (ERROR "Not authenticated" None)
                :: (if send_throws env ws
                    then Send ws (ERROR failure None)
                         :: (if readyState s ws =? 1
                             then [Send ws (ERROR "Failed to process message"
                                              (Some (now env)))]
                             else [])
                    else []);
     result := Returned tt |}.
Proof.
  intros Hb. unfold try_catch at 1. rewrite (deliver_unbound _ _ _ _ _ _ _ _ Hb).
  cbn [after effects result]. destruct (send_throws env ws); [|reflexivity].
  rewrite sendErrorResponse_run. reflexivity.
Qed.

Lemma unbound_history_run env ws data s :
  MessageHandler.bound (SessionManager.findUserIdByWs ws (sessions s)) = None ->
  try_catch
    (MessageHandler.handleGetHistory env ws data)
    (fun _ => WebSocketServer.sendErrorResponse env ws "Failed to process message") s =
  {| after := s;
     effects := Send ws (ERROR "Not authenticated" None)
                :: (if send_throws env ws
                    then (if readyState s ws =? 1
                          then [Send ws (ERROR "Failed to process message"
                                           (Some (now env)))]
                          else [])
                    else []);
     result := Returned tt |}.
Proof.
  intros Hb. unfold try_catch at 1. rewrite (handleGetHistory_unbound _ _ _ _ Hb).
  cbn [after effects result]. destruct (send_throws env ws); [|reflexivity].
  rewrite sendErrorResponse_run. reflexivity.
Qed.

(** C4 as stated fails: an unbound socket that sends a type the server does
    not know, or a TEXT without content, is told about the type or the
    field, not that it is not authenticated. *)
Lemma unauthenticated_other_errors :
  SessionManager.findUserIdByWs 3%nat (sessions (lobby [])) = None /\
  effects (WebSocketServer.handleMessage calm 3%nat
             (Some (JObj [("type", JStr "PING")])) (lobby []))
  = [Send 3%nat (ERROR "Unknown message type: PING" (Some (now calm)))] /\
  effects (WebSocketServer.handleMessage calm 3%nat
             (Some (JObj [("type", JStr "TEXT")])) (lobby []))
  = [Send 3%nat (ERROR "TEXT message must have a valid content field" (Some (now calm)))] /\
  effects (WebSocketServer.handleMessage calm 3%nat
             (Some (JObj [("type", JStr "SYSTEM"); ("content", JStr "x")])) (lobby []))
  = [Send 3%nat (ERROR "SYSTEM messages cannot be sent by clients" (Some (now calm)))].
Proof. repeat split; vm_compute; reflexivity. Qed.

(** C4, amended. On a socket with no session bound, a message that is not a
    LOGIN changes neither registry nor store and causes nothing but ERROR
    frames to that socket: no save, no broadcast. When the message passed
    validation and is a TEXT, IMAGE, VIDEO, AUDIO or GET_HISTORY, the first
    of these frames carries "Not authenticated", and it is the only one
    unless the socket's send throws. A payload the parser or the validator
    rejects is answered with their text instead, while the socket is
    open. *)
Theorem unauthenticated_rejected env ws data s :
  SessionManager.findUserIdByWs ws (sessions s) = None ->
  is_login data = false ->
  let run := WebSocketServer.handleMessage env ws data s in
  after run = s /\
  result run = Returned tt /\
  Forall (error_to ws) (effects run) /\
  (forall message,
      data = Some message ->
      MessageHandler.validateMessage message = None ->
      MessageHandler.is_chat_type (MessageHandler.type_name message) = true
      \/ MessageHandler.type_name message = "GET_HISTORY" ->
      exists more,
        effects run = Send ws (ERROR "Not authenticated" None) :: more /\
        (send_throws env ws = false -> more = [])) /\
  (forall text,
      malformed data = Some text ->
      effects run = if readyState s ws =? 1
                    then [Send ws (ERROR text (Some (now env)))] else []).
Proof.
  intros Hfind Hlogin run.
  assert (Hbad : forall text,
             malformed data = Some text ->
             effects run = if readyState s ws =? 1
                           then [Send ws (ERROR text (Some (now env)))] else []).
  { intros text Hm. subst run. now rewrite (handleMessage_malformed env ws data text s Hm). }
  cut (after run = s /\
       result run = Returned tt /\
       Forall (error_to ws) (effects run) /\
       (forall message,
           data = Some message ->
           MessageHandler.validateMessage message = None ->
           MessageHandler.is_chat_type (MessageHandler.type_name message) = true
           \/ MessageHandler.type_name message = "GET_HISTORY" ->
           exists more,
             effects run = Send ws (ERROR "Not authenticated" None) :: more /\
             (send_throws env ws = false -> more = []))).
  { intros (H1 & H2 & H3 & H4). repeat (split; [assumption|]). exact Hbad. }
  clear Hbad.
  assert (Hnot : forall message, data = Some message ->
                                 MessageHandler.type_name message <> "LOGIN").
  { intros message -> E. cbn [is_login] in Hlogin. rewrite E in Hlogin.
    discriminate Hlogin. }
  assert (Hb : MessageHandler.bound (SessionManager.findUserIdByWs ws (sessions s)) = None)
    by now rewrite Hfind.
  destruct (malformed data) as [text|] eqn:Hm.
  - subst run. rewrite (handleMessage_malformed env ws data text s Hm).
    cbn [after effects result]. repeat split.
    + destruct (readyState s ws =? 1); [apply Forall_error_cons|]; constructor.
    + intros message -> Hv _. cbn [malformed] in Hm. congruence.
  - destruct data as [message|]; [|discriminate Hm]. cbn [malformed] in Hm.
    specialize (Hnot message eq_refl).
    destruct (validated_type message Hm) as (props & t & Hd & _ & Ht & _).
    subst run. rewrite (handleMessage_routed _ _ _ _ Hm).
    unfold WebSocketServer.route. cbv zeta.
    destruct (String.eqb_spec (MessageHandler.type_name message) "LOGIN") as [E|_];
      [contradiction|].
    destruct (String.eqb (MessageHandler.type_name message) "TEXT") eqn:Etext.
    { unfold MessageHandler.handleTextMessage. rewrite (unbound_chat_run _ _ _ _ _ _ _ _ Hb).
      cbn [after effects result]. repeat split.
      - apply Forall_error_cons. destruct (send_throws env ws); [|constructor].
        apply Forall_error_cons. destruct (readyState s ws =? 1);
          [apply Forall_error_cons|]; constructor.
      - intros m' _ _ _. eexists. split; [reflexivity|]. now intros ->. }
    destruct (MessageHandler.is_media_type (MessageHandler.type_name message)) eqn:Emedia.
    { unfold MessageHandler.handleMediaMessage. rewrite (unbound_chat_run _ _ _ _ _ _ _ _ Hb).
      cbn [after effects result]. repeat split.
      - apply Forall_error_cons. destruct (send_throws env ws); [|constructor].
        apply Forall_error_cons. destruct (readyState s ws =? 1);
          [apply Forall_error_cons|]; constructor.
      - intros m' _ _ _. eexists. split; [reflexivity|]. now intros ->. }
    destruct (String.eqb_spec (MessageHandler.type_name message) "GET_HISTORY") as [Eh|Eh].
    { rewrite (unbound_history_run _ _ _ _ Hb).
      cbn [after effects result]. repeat split.
      - apply Forall_error_cons. destruct (send_throws env ws); [|constructor].
        destruct (readyState s ws =? 1); [apply Forall_error_cons|]; constructor.
      - intros m' _ _ _. eexists. split; [reflexivity|]. now intros ->. }
    assert (Hrest : forall text,
               let r := try_catch (WebSocketServer.sendErrorResponse env ws text)
                          (fun _ => WebSocketServer.sendErrorResponse env ws
                                      "Failed to process message") s in
               after r = s /\ result r = Returned tt /\
               Forall (error_to ws) (effects r)).
    { intros text'. cbv zeta.
      rewrite (try_returned _ _ _ _ _ _ (sendErrorResponse_run env ws text' s)).
      cbn [after effects result]. repeat split.
      destruct (readyState s ws =? 1); [apply Forall_error_cons|]; constructor. }
    assert (Hno : forall m', Some message = Some m' ->
               MessageHandler.is_chat_type (MessageHandler.type_name m') = true
               \/ MessageHandler.type_name m' = "GET_HISTORY" -> False).
    { intros m' [= <-] [Hc|Hh]; [|contradiction].
      unfold MessageHandler.is_chat_type in Hc. rewrite Etext, Emedia in Hc.
      discriminate Hc. }
    destruct (String.eqb (MessageHandler.type_name message) "SYSTEM");
      (destruct (Hrest "SYSTEM messages can only be sent by server") as (? & ? & ?);
       destruct (Hrest ("Unknown message type: " ++ MessageHandler.type_name message)%string)
         as (? & ? & ?);
       repeat split; try assumption;
       intros m' Hm' _ Hk; exfalso; exact (Hno m' Hm' Hk)).
Qed.

Lemma unauthenticated_rejected_witness :
  (SessionManager.findUserIdByWs 3%nat (sessions (lobby [m1])) = None /\
   is_login (Some hello) = false) /\
  after (WebSocketServer.handleMessage calm 3%nat (Some hello) (lobby [m1])) = lobby [m1].
Proof.
  split; [split; reflexivity|].
  exact (proj1 (unauthenticated_rejected calm 3%nat (Some hello) (lobby [m1])
                  eq_refl eq_refl)).
Defined.

(** ** History requests *)

Lemma hasStorage_run st s :
  storageService s = Some st ->
  hasStorage s = {| after := s; effects := []; result := Returned true |}.
Proof. intros H. unfold hasStorage. now rewrite H. Qed.

(** A GET_HISTORY from a bound socket asks the store once and answers with
    what it got, or with an ERROR when the store threw. *)
Lemma handleGetHistory_run env ws props userId limit st s :
  MessageHandler.bound (SessionManager.findUserIdByWs ws (sessions s)) = Some userId ->
  storageService s = Some st ->
  MessageHandler.limit_of (JObj props) = Some limit ->
  send_throws env ws = false ->
  MessageHandler.handleGetHistory env ws (JObj props) s =
  {| after := asked env (prop "lastMessageId" (JObj props)) limit st s;
     effects :=
       [Query (prop "lastMessageId" (JObj props)) limit;
        Send ws (match answer env (prop "lastMessageId" (JObj props)) limit st with
                 | Returned messages =>
                     HISTORY_RESPONSE messages (Z.of_nat (List.length messages) =? limit)
                 | Thrown _ => ERROR "Failed to retrieve message history" None
                 end)];
     result := Returned tt |}.
Proof.
  intros Hb Hst Hl Hsend. unfold MessageHandler.handleGetHistory.
  rewrite (bind_pure _ _ s _ (findUserIdByWs_run ws s)). rewrite Hb.
  rewrite (bind_pure _ _ s _ (hasStorage_run st s Hst)). cbn [negb].
  unfold try_catch.
  rewrite (bind_pure _ _ s (prop "lastMessageId" (JObj props))) by reflexivity.
  rewrite Hl. unfold bind.
  rewrite (getMessagesBefore_run env _ limit st s Hst). cbn [after effects result].
  destruct (answer env (prop "lastMessageId" (JObj props)) limit st) as [messages|e];
    rewrite send_run, Hsend; reflexivity.
Qed.

Lemma route_history env ws data :
  MessageHandler.type_name data = "GET_HISTORY" ->
  WebSocketServer.route env ws data = MessageHandler.handleGetHistory env ws data.
Proof. intros H. unfold WebSocketServer.route. now rewrite H. Qed.

(** The dispatch of a GET_HISTORY that passed validation, from a bound
    socket whose send works. *)
Lemma history_dispatch env ws data userId st s :
  MessageHandler.validateMessage data = None ->
  MessageHandler.type_name data = "GET_HISTORY" ->
  MessageHandler.bound (SessionManager.findUserIdByWs ws (sessions s)) = Some userId ->
  storageService s = Some st ->
  send_throws env ws = false ->
  exists limit,
    (prop "limit" data = None /\ limit = 20 \/ prop "limit" data = Some (JNum limit)) /\
    WebSocketServer.handleMessage env ws (Some data) s =
    {| after := asked env (prop "lastMessageId" data) limit st s;
       effects :=
         [Query (prop "lastMessageId" data) limit;
          Send ws (match answer env (prop "lastMessageId" data) limit st with
                   | Returned messages =>
                       HISTORY_RESPONSE messages
                         (Z.of_nat (List.length messages) =? limit)
                   | Thrown _ => ERROR "Failed to retrieve message history" None
                   end)];
       result := Returned tt |}.
Proof.
  intros Hv Ht Hb Hst Hsend.
  destruct (validated_type data Hv) as (props & t & -> & _ & _ & _).
  destruct (validated_history _ Hv Ht) as [_ Hlimit].
  assert (Hl : exists limit,
             MessageHandler.limit_of (JObj props) = Some limit /\
             (prop "limit" (JObj props) = None /\ limit = 20
              \/ prop "limit" (JObj props) = Some (JNum limit))).
  { destruct Hlimit as [[Hn Hl]|(n & Hn & Hl)].
    - exists 20. split; [exact Hl|now left].
    - exists n. split; [exact Hl|now right]. }
  destruct Hl as (limit & Hl & Hshape). exists limit. split; [exact Hshape|].
  rewrite (handleMessage_routed _ _ _ _ Hv), (route_history _ _ _ Ht).
  apply try_returned.
  exact (handleGetHistory_run env ws props userId limit st s Hb Hst Hl Hsend).
Qed.

(** C3 as stated fails at limit 0: the store is asked with 0, not 20. With
    two stored messages and the second as reference, the answer is an empty
    page flagged [hasMore], where a query with 20 would have answered the
    first message, not flagged. *)
Lemma zero_limit_is_not_replaced :
  effects (WebSocketServer.handleMessage calm 1%nat
             (Some (history_request "m2" 0)) (lobby [m1; m2]))
  = [Query (Some (JStr "m2")) 0; Send 1%nat (HISTORY_RESPONSE [] true)] /\
  answer calm (Some (JStr "m2")) 20 (FileBacked (holding [m1; m2])) = Returned [m1] /\
  (Z.of_nat (List.length [m1]) =? 20) = false.
Proof. repeat split; vm_compute; reflexivity. Qed.

(** C3, amended. A GET_HISTORY that passed validation, from a bound
    socket, makes the dispatcher ask the store for
    [getMessagesBefore(lastMessageId, limit)], where an absent limit stands
    for 20 and a given one, 0 included, is used as it is; the answer goes
    back as a HISTORY_RESPONSE whose [hasMore] is true exactly when the
    number of messages equals that limit (an ERROR goes back when the store
    threw). *)
Theorem history_response_contract env ws data userId st s :
  MessageHandler.validateMessage data = None ->
  MessageHandler.type_name data = "GET_HISTORY" ->
  MessageHandler.bound (SessionManager.findUserIdByWs ws (sessions s)) = Some userId ->
  storageService s = Some st ->
  send_throws env ws = false ->
  exists limit,
    (prop "limit" data = None /\ limit = 20 \/ prop "limit" data = Some (JNum limit)) /\
    let run := WebSocketServer.handleMessage env ws (Some data) s in
    let lastMessageId := prop "lastMessageId" data in
    result run = Returned tt /\
    after run = asked env lastMessageId limit st s /\
    match answer env lastMessageId limit st with
    | Returned messages =>
        exists hasMore,
          effects run = [Query lastMessageId limit;
                         Send ws (HISTORY_RESPONSE messages hasMore)] /\
          (hasMore = true <-> Z.of_nat (List.length messages) = limit)
    | Thrown _ =>
        effects run = [Query lastMessageId limit;
                       Send ws (ERROR "Failed to retrieve message history" None)]
    end.
Proof.
  intros Hv Ht Hb Hst Hsend.
  destruct (history_dispatch env ws data userId st s Hv Ht Hb Hst Hsend)
    as (limit & Hshape & Hrun).
  exists limit. split; [exact Hshape|]. cbv zeta. rewrite Hrun.
  cbn [after effects result]. split; [reflexivity|]. split; [reflexivity|].
  destruct (answer env (prop "lastMessageId" data) limit st) as [messages|e].
  - exists (Z.of_nat (List.length messages) =? limit). split; [reflexivity|].
    apply Z.eqb_eq.
  - reflexivity.
Qed.

Lemma history_response_contract_witness :
  (MessageHandler.validateMessage (history_request "m2" 1) = None /\
   MessageHandler.type_name (history_request "m2" 1) = "GET_HISTORY" /\
   MessageHandler.bound (SessionManager.findUserIdByWs 1%nat (sessions (lobby [m1; m2])))
   = Some "alice" /\
   storageService (lobby [m1; m2]) = Some (FileBacked (holding [m1; m2])) /\
   send_throws calm 1%nat = false) /\
  result (WebSocketServer.handleMessage calm 1%nat
            (Some (history_request "m2" 1)) (lobby [m1; m2])) = Returned tt.
Proof.
  split; [repeat split; reflexivity|].
  destruct (history_response_contract calm 1%nat (history_request "m2" 1) "alice"
              (FileBacked (holding [m1; m2])) (lobby [m1; m2])
              eq_refl eq_refl eq_refl eq_refl eq_refl) as (limit & _ & Hres & _).
  exact Hres.
Defined.

(** ** Login *)

Lemma recent_history_run env ws s :
  MessageHandler.recent_history env ws s =
  {| after := greeted env s; effects := greeting env ws s; result := Returned tt |}.
Proof.
  unfold MessageHandler.recent_history, greeted, greeting.
  destruct (storageService s) as [st|] eqn:Hst.
  - rewrite (bind_pure _ _ s _ (hasStorage_run st s Hst)).
    unfold try_catch, bind. rewrite (getMessagesBefore_run env _ 50 st s Hst).
    cbn [after effects result]. unfold history_frames.
    destruct (answer env (Some JNull) 50 st) as [recent|e]; [|reflexivity].
    destruct (0 <? Z.of_nat (List.length recent)); [|reflexivity].
    rewrite send_run. cbn [after effects result].
    destruct (send_throws env ws); reflexivity.
  - unfold bind, hasStorage. rewrite Hst. reflexivity.
Qed.

Lemma greeted_sessions env s : sessions (greeted env s) = sessions s.
Proof. unfold greeted. now destruct (storageService s). Qed.

Lemma greeted_readyState env s : readyState (greeted env s) = readyState s.
Proof. unfold greeted. now destruct (storageService s). Qed.

(** The body of a login on a socket whose send works: register,
    acknowledge, send the history, save the notice, tell the others. *)
Lemma login_run env ws userId s :
  send_throws env ws = false ->
  MessageHandler.login WebSocketServer.broadcast env ws userId s =
  {| after := persisted env (MessageHandler.joined env userId)
                (greeted env (registered env userId ws s));
     effects := [Register userId ws; Send ws (LOGIN_SUCCESS userId)]
                ++ greeting env ws (registered env userId ws s)
                ++ persisting env (MessageHandler.joined env userId)
                     (greeted env (registered env userId ws s))
                ++ fanout (MessageHandler.joined env userId) (Some ws)
                     (registered env userId ws s);
     result := Returned tt |}.
Proof.
  intros Hsend. unfold MessageHandler.login.
  rewrite (bind_returned _ _ s (registered env userId ws s) [Register userId ws] tt)
    by reflexivity.
  rewrite (bind_returned _ _ _ (registered env userId ws s)
             [Send ws (LOGIN_SUCCESS userId)] tt)
    by (rewrite send_run, Hsend; reflexivity).
  rewrite (bind_returned _ _ _ _ _ tt (recent_history_run env ws _)).
  rewrite (bind_returned _ _ _ _ _ tt (persist_run env _ _)).
  rewrite broadcast_run. cbn [after effects result app].
  assert (F : fanout (MessageHandler.joined env userId) (Some ws)
                (persisted env (MessageHandler.joined env userId)
                   (greeted env (registered env userId ws s)))
              = fanout (MessageHandler.joined env userId) (Some ws)
                  (registered env userId ws s)).
  { unfold fanout. f_equal. apply recipients_sockets.
    - now rewrite persisted_readyState, greeted_readyState.
    - now rewrite persisted_sessions, greeted_sessions. }
  rewrite F. reflexivity.
Qed.

Lemma validate_login props u :
  prop "type" (JObj props) = Some (JStr "LOGIN") ->
  prop "userId" (JObj props) = Some (JStr u) ->
  MessageHandler.validateMessage (JObj props) =
  if String.eqb u "" then Some "LOGIN message must have a valid userId field"
  else None.
Proof.
  intros Ht Hu. unfold MessageHandler.validateMessage, MessageHandler.type_name.
  rewrite Ht, Hu. cbn. now destruct (String.eqb u "").
Qed.

Lemma type_name_login props :
  prop "type" (JObj props) = Some (JStr "LOGIN") ->
  MessageHandler.type_name (JObj props) = "LOGIN".
Proof. intros H. unfold MessageHandler.type_name. now rewrite H. Qed.

Lemma route_login env ws data :
  MessageHandler.type_name data = "LOGIN" ->
  WebSocketServer.route env ws data =
  MessageHandler.handleLogin WebSocketServer.broadcast env ws data.
Proof. intros H. unfold WebSocketServer.route. now rewrite H. Qed.

Lemma handleLogin_run env ws props u s :
  prop "userId" (JObj props) = Some (JStr u) ->
  u <> "" ->
  send_throws env ws = false ->
  MessageHandler.handleLogin WebSocketServer.broadcast env ws (JObj props) s =
  if blank u
  then {| after := s; effects := [Send ws (ERROR "Invalid user ID" None)];
          result := Returned tt |}
  else MessageHandler.login WebSocketServer.broadcast env ws u s.
Proof.
  intros Hu Hne Hsend. unfold MessageHandler.handleLogin.
  rewrite (bind_pure _ _ s (prop "userId" (JObj props))) by reflexivity.
  rewrite Hu. rewrite (bind_pure _ _ s _ (missing_or_blank_string u s Hne)).
  destruct (blank u).
  - rewrite send_run, Hsend. reflexivity.
  - rewrite (login_run env ws u s Hsend). apply try_returned.
    now apply login_run.
Qed.

(** A login whose userId is not blank, on a socket whose send works. *)
Lemma handleMessage_login env ws props u s :
  prop "type" (JObj props) = Some (JStr "LOGIN") ->
  prop "userId" (JObj props) = Some (JStr u) ->
  blank u = false ->
  send_throws env ws = false ->
  WebSocketServer.handleMessage env ws (Some (JObj props)) s =
  MessageHandler.login WebSocketServer.broadcast env ws u s.
Proof.
  intros Ht Hu Hblank Hsend.
  assert (Hne : u <> "") by (intros ->; discriminate Hblank).
  assert (Hv : MessageHandler.validateMessage (JObj props) = None).
  { rewrite (validate_login props u Ht Hu).
    destruct (String.eqb_spec u ""); [contradiction|reflexivity]. }
  rewrite (handleMessage_routed _ _ _ _ Hv).
  rewrite (route_login _ _ _ (type_name_login props Ht)).
  rewrite (login_run env ws u s Hsend). apply try_returned.
  rewrite (handleLogin_run env ws props u s Hu Hne Hsend), Hblank.
  now apply login_run.
Qed.

Lemma slice_length_window {A : Type} (l : list A) (k limit : Z) :
  0 <= k <= Z.of_nat (List.length l) -> 0 <= limit ->
  Z.of_nat (List.length (slice l (Z.max 0 (k - limit)) (Some k))) <= limit.
Proof.
  intros Hk Hl. rewrite slice_window by assumption.
  rewrite length_firstn. lia.
Qed.

(** What the file-backed store answers to the login-time query: at most 50
    messages, and the last ones when no stored message has the id [null]. *)
Lemma recent_page env fs :
  exists recent,
    answer env (Some JNull) 50 (FileBacked fs) = Returned recent /\
    (List.length recent <= 50)%nat /\
    (findIndex (has_id (Some JNull))
       (StorageService.messages (StorageService.ensure_initialized env fs)) = -1 ->
     recent = skipn (List.length (StorageService.messages
                                    (StorageService.ensure_initialized env fs)) - 50)
                (StorageService.messages (StorageService.ensure_initialized env fs))).
Proof.
  unfold answer, storage_getMessagesBefore, StorageService.getMessagesBefore.
  cbv zeta.
  set (all := StorageService.messages (StorageService.ensure_initialized env fs)).
  pose proof (findIndex_bounds (has_id (Some JNull)) all) as B.
  destruct (findIndex (has_id (Some JNull)) all =? -1) eqn:E; cbn [snd].
  - eexists. split; [reflexivity|].
    rewrite slice_from_end by lia. split.
    + rewrite length_skipn. lia.
    + intros _. reflexivity.
  - apply Z.eqb_neq in E. eexists. split; [reflexivity|]. split.
    + pose proof (slice_length_window all (findIndex (has_id (Some JNull)) all) 50) as L.
      lia.
    + intros H. contradiction.
Qed.

(** C6 as stated fails when the store has nothing to show: the first login
    on a server with an empty history is acknowledged and announced, but no
    HISTORY_RESPONSE is sent. *)
Lemma first_login_gets_no_history :
  effects (WebSocketServer.handleMessage calm 1%nat (Some (login_as "alice")) (fresh []))
  = [Register "alice" 1%nat; Send 1%nat (LOGIN_SUCCESS "alice");
     Query (Some JNull) 50; Persist (MessageHandler.joined calm "alice") true] /\
  frames_to 1%nat
    (effects (WebSocketServer.handleMessage calm 1%nat (Some (login_as "alice")) (fresh [])))
  = [LOGIN_SUCCESS "alice"].
Proof. split; vm_compute; reflexivity. Qed.

(** C6, amended. On a socket whose send works, a LOGIN whose userId is
    empty or blank is answered with an ERROR (for the empty one through the
    validator, so only while the socket is open) and registers nothing. A
    LOGIN whose userId is not blank registers the session, then sends
    LOGIN_SUCCESS, then asks the store for the 50 most recent messages and
    sends them as a HISTORY_RESPONSE when there is at least one (nothing is
    sent for an empty or failed load, and the login goes on), then saves the
    joined notice best-effort, then hands it to every registered session on
    another, open socket, the sender's socket left out; in that order. *)
Theorem login_flow env ws props u s :
  prop "type" (JObj props) = Some (JStr "LOGIN") ->
  prop "userId" (JObj props) = Some (JStr u) ->
  send_throws env ws = false ->
  let run := WebSocketServer.handleMessage env ws (Some (JObj props)) s in
  let notice := MessageHandler.joined env u in
  let entered := registered env u ws s in
  (blank u = true ->
   after run = s /\ result run = Returned tt /\
   effects run =
     if String.eqb u "" then
       if readyState s ws =? 1
       then [Send ws (ERROR "LOGIN message must have a valid userId field"
                        (Some (now env)))]
       else []
     else [Send ws (ERROR "Invalid user ID" None)]) /\
  (blank u = false ->
   result run = Returned tt /\
   sessions (after run) = SessionManager.createSession env u ws (sessions s) /\
   effects run =
     [Register u ws; Send ws (LOGIN_SUCCESS u)]
     ++ greeting env ws entered
     ++ persisting env notice (greeted env entered)
     ++ fanout notice (Some ws) entered /\
   (forall st, storageService s = Some st ->
      greeting env ws entered
      = Query (Some JNull) 50 :: history_frames ws (answer env (Some JNull) 50 st) /\
      exists stored, persisting env notice (greeted env entered) = [Persist notice stored]) /\
   (forall fs, storageService s = Some (FileBacked fs) ->
      exists recent, answer env (Some JNull) 50 (FileBacked fs) = Returned recent /\
                     (List.length recent <= 50)%nat) /\
   (forall session,
       In session (SessionManager.getAllSessions (sessions entered)) ->
       SessionManager.ws session <> ws ->
       readyState s (SessionManager.ws session) = 1 ->
       In (Send (SessionManager.ws session) (Chat notice)) (fanout notice (Some ws) entered)) /\
   frames_to ws (fanout notice (Some ws) entered) = []).
Proof.
  intros Ht Hu Hsend run notice entered. split.
  - intros Hblank. subst run.
    destruct (String.eqb_spec u "") as [E|E].
    + assert (Hm : malformed (Some (JObj props))
                   = Some "LOGIN message must have a valid userId field").
      { cbn [malformed]. rewrite (validate_login props u Ht Hu). now rewrite E. }
      rewrite (handleMessage_malformed env ws _ _ s Hm). now cbn.
    + assert (Hv : MessageHandler.validateMessage (JObj props) = None).
      { rewrite (validate_login props u Ht Hu).
        destruct (String.eqb_spec u ""); [contradiction|reflexivity]. }
      rewrite (handleMessage_routed _ _ _ _ Hv).
      rewrite (route_login _ _ _ (type_name_login props Ht)).
      rewrite (try_returned _ _ s s [Send ws (ERROR "Invalid user ID" None)] tt).
      * now cbn.
      * now rewrite (handleLogin_run env ws props u s Hu E Hsend), Hblank.
  - intros Hblank. subst run.
    rewrite (handleMessage_login env ws props u s Ht Hu Hblank Hsend).
    rewrite (login_run env ws u s Hsend). cbn [after effects result].
    split; [reflexivity|]. split; [|split; [reflexivity|]].
    { now rewrite persisted_sessions, greeted_sessions. }
    split; [|split; [|split]].
    + intros st Hst. split.
      * unfold greeting. subst entered. cbn [registered storageService].
        now rewrite Hst.
      * unfold persisting, greeted. subst entered. cbn [registered storageService].
        rewrite Hst. cbn [asked storageService]. eexists. reflexivity.
    + intros fs _. destruct (recent_page env fs) as (recent & Hr & Hlen & _).
      exists recent. now split.
    + intros session Hin Hws Hopen. apply fanout_reaches; [assumption|].
      unfold reached.
      destruct (Nat.eqb_spec (SessionManager.ws session) ws) as [E|_]; [contradiction|].
      subst entered. cbn [registered readyState]. now rewrite Hopen.
    + apply frames_to_excluded.
Qed.

Lemma login_flow_witness :
  (prop "type" (login_as "carol") = Some (JStr "LOGIN") /\
   prop "userId" (login_as "carol") = Some (JStr "carol") /\
   send_throws calm 3%nat = false /\
   blank "carol" = false) /\
  effects (WebSocketServer.handleMessage calm 3%nat (Some (login_as "carol")) (lobby [m1]))
  = [Register "carol" 3%nat; Send 3%nat (LOGIN_SUCCESS "carol")]
    ++ greeting calm 3%nat (registered calm "carol" 3%nat (lobby [m1]))
    ++ persisting calm (MessageHandler.joined calm "carol")
         (greeted calm (registered calm "carol" 3%nat (lobby [m1])))
    ++ fanout (MessageHandler.joined calm "carol") (Some 3%nat)
         (registered calm "carol" 3%nat (lobby [m1])).
Proof.
  split; [repeat split; reflexivity|].
  destruct (login_flow calm 3%nat
              [("type", JStr "LOGIN"); ("userId", JStr "carol")] "carol" (lobby [m1])
              eq_refl eq_refl eq_refl) as [_ H].
  destruct (H eq_refl) as (_ & _ & Heff & _). exact Heff.
Defined.

(** ** Failing reads *)

Lemma slice_nil {A : Type} (start : Z) (end_ : option Z) : slice (@nil A) start end_ = [].
Proof. unfold slice. now rewrite skipn_nil, firstn_nil. Qed.

Lemma failed_read_answer env messageId limit st :
  read_fails env st -> answer env messageId limit st = Returned [].
Proof.
  unfold answer, storage_getMessagesBefore. destruct st as [fs|sb]; cbn [read_fails].
  - intros [Hinit Hwhy].
    assert (Hempty : StorageService.messages (StorageService.ensure_initialized env fs) = []).
    { unfold StorageService.ensure_initialized, StorageService.initialize.
      rewrite Hinit. destruct (mkdir_fails env); [reflexivity|].
      destruct Hwhy as [Hk|Hr]; [discriminate Hk|]. now rewrite Hr. }
    unfold StorageService.getMessagesBefore. cbv zeta. rewrite Hempty.
    cbn [findIndex Z.eqb Pos.eqb snd]. now rewrite slice_nil.
  - intros [Hinit Hsel].
    unfold SupabaseStorageService.getMessagesBefore, SupabaseStorageService.page.
    rewrite Hinit.
    destruct (truthy messageId); [destruct (target_reply env messageId)|];
      cbn [snd]; now rewrite Hsel.
Qed.

(** C7 as stated fails at login: with a store whose file cannot be read,
    the login-time load answers no message and the handler then sends no
    HISTORY_RESPONSE at all, not one with zero messages. *)
Lemma failed_read_at_login_sends_no_history :
  read_fails unreadable (FileBacked (StorageService.create "./data/messages.json"
                                       (Some [m1; m2]))) /\
  frames_to 1%nat
    (effects (WebSocketServer.handleMessage unreadable 1%nat (Some (login_as "alice"))
                (fresh [m1; m2])))
  = [LOGIN_SUCCESS "alice"] /\
  filter is_history
    (frames_to 1%nat
       (effects (WebSocketServer.handleMessage unreadable 1%nat (Some (login_as "alice"))
                   (fresh [m1; m2]))))
  = [].
Proof.
  split; [split; [reflexivity|right; reflexivity]|].
  split; vm_compute; reflexivity.
Qed.

(** C7, amended. When the read behind a history query fails, the store
    answers the empty list instead of throwing. A GET_HISTORY from a bound
    socket is then answered with a HISTORY_RESPONSE holding zero messages.
    The login-time load sends no HISTORY_RESPONSE at all: the socket gets
    LOGIN_SUCCESS only, and the login completes. *)
Theorem failed_read_answers_empty env ws st s :
  storageService s = Some st ->
  read_fails env st ->
  send_throws env ws = false ->
  (forall messageId limit, answer env messageId limit st = Returned []) /\
  (forall data userId,
      MessageHandler.validateMessage data = None ->
      MessageHandler.type_name data = "GET_HISTORY" ->
      MessageHandler.bound (SessionManager.findUserIdByWs ws (sessions s)) = Some userId ->
      exists limit hasMore,
        effects (WebSocketServer.handleMessage env ws (Some data) s)
        = [Query (prop "lastMessageId" data) limit;
           Send ws (HISTORY_RESPONSE [] hasMore)] /\
        result (WebSocketServer.handleMessage env ws (Some data) s) = Returned tt) /\
  (forall props u,
      prop "type" (JObj props) = Some (JStr "LOGIN") ->
      prop "userId" (JObj props) = Some (JStr u) ->
      blank u = false ->
      let run := WebSocketServer.handleMessage env ws (Some (JObj props)) s in
      result run = Returned tt /\
      sessions (after run) = SessionManager.createSession env u ws (sessions s) /\
      frames_to ws (effects run) = [LOGIN_SUCCESS u]).
Proof.
  intros Hst Hfail Hsend. split; [|split].
  - intros messageId limit. now apply failed_read_answer.
  - intros data userId Hv Ht Hb.
    destruct (history_dispatch env ws data userId st s Hv Ht Hb Hst Hsend)
      as (limit & _ & Hrun).
    rewrite (failed_read_answer env (prop "lastMessageId" data) limit st Hfail) in Hrun.
    exists limit, (Z.of_nat (List.length (@nil Message)) =? limit).
    rewrite Hrun. now split.
  - intros props u Ht Hu Hblank run. subst run.
    rewrite (handleMessage_login env ws props u s Ht Hu Hblank Hsend).
    rewrite (login_run env ws u s Hsend). cbn [after effects result].
    split; [reflexivity|]. split.
    + now rewrite persisted_sessions, greeted_sessions.
    + rewrite !frames_to_app, frames_to_persisting, frames_to_excluded.
      unfold greeting. cbn [registered storageService]. rewrite Hst.
      rewrite (failed_read_answer env (Some JNull) 50 st Hfail).
      cbn. now rewrite Nat.eqb_refl.
Qed.

Lemma failed_read_answers_empty_witness :
  (storageService (fresh [m1; m2])
   = Some (FileBacked (StorageService.create "./data/messages.json" (Some [m1; m2]))) /\
   read_fails unreadable
     (FileBacked (StorageService.create "./data/messages.json" (Some [m1; m2]))) /\
   send_throws unreadable 1%nat = false) /\
  answer unreadable None 20
    (FileBacked (StorageService.create "./data/messages.json" (Some [m1; m2])))
  = Returned [].
Proof.
  assert (H : read_fails unreadable
                (FileBacked (StorageService.create "./data/messages.json" (Some [m1; m2]))))
    by (split; [reflexivity|right; reflexivity]).
  split; [split; [reflexivity|split; [exact H|reflexivity]]|].
  exact (proj1 (failed_read_answers_empty unreadable 1%nat _ (fresh [m1; m2])
                  eq_refl H eq_refl) None 20).
Defined.

(** ** The registry invariant *)

Lemma set_keys key session m :
  map fst (SessionManager.set key session m) =
  if existsb (String.eqb key) (map fst m) then map fst m else map fst m ++ [key].
Proof.
  induction m as [|[k x] rest IH]; [reflexivity|].
  cbn [SessionManager.set map fst existsb].
  destruct (String.eqb_spec key k) as [->|Hne]; cbn [orb map fst].
  - reflexivity.
  - rewrite IH. now destruct (existsb (String.eqb key) (map fst rest)).
Qed.

Lemma existsb_eqb_In key l : existsb (String.eqb key) l = true <-> In key l.
Proof.
  rewrite existsb_exists. split.
  - intros (x & Hx & E). apply String.eqb_eq in E. now subst.
  - intros H. exists key. split; [assumption|apply String.eqb_refl].
Qed.

Lemma set_entries key session m entry :
  In entry (SessionManager.set key session m) ->
  entry = (key, session) \/ In entry m.
Proof.
  induction m as [|[k x] rest IH]; cbn [SessionManager.set].
  - intros [<-|[]]. now left.
  - destruct (String.eqb key k).
    + intros [<-|H]; [now left|right; now right].
    + intros [<-|H]; [right; now left|].
      destruct (IH H) as [->|H']; [now left|right; now right].
Qed.

Lemma well_keyed_createSession env userId ws m :
  well_keyed m -> well_keyed (SessionManager.createSession env userId ws m).
Proof.
  intros [Hnd Hall]. unfold SessionManager.createSession. split.
  - rewrite set_keys.
    destruct (existsb (String.eqb userId) (map fst m)) eqn:E; [assumption|].
    apply NoDup_app; [assumption|repeat constructor; intros []|].
    intros x Hx [<-|[]]. apply existsb_eqb_In in Hx. congruence.
  - apply Forall_forall. intros entry Hin.
    destruct (set_entries _ _ _ _ Hin) as [->|Hold]; [reflexivity|].
    rewrite Forall_forall in Hall. now apply Hall.
Qed.

Lemma updateActivity_keys env key m :
  map fst (SessionManager.updateActivity env key m) = map fst m.
Proof.
  induction m as [|[k x] rest IH]; [reflexivity|].
  cbn [SessionManager.updateActivity]. destruct (String.eqb key k); cbn [map fst].
  - reflexivity.
  - now rewrite IH.
Qed.

Lemma well_keyed_updateActivity env key m :
  well_keyed m -> well_keyed (SessionManager.updateActivity env key m).
Proof.
  intros [Hnd Hall]. split; [now rewrite updateActivity_keys|].
  clear Hnd. induction Hall as [|[k x] rest Hx Hrest IH]; [constructor|].
  cbn [SessionManager.updateActivity]. destruct (String.eqb key k).
  - constructor; [exact Hx|exact Hrest].
  - constructor; [exact Hx|exact IH].
Qed.

Lemma well_keyed_removeSession key m :
  well_keyed m -> well_keyed (SessionManager.removeSession key m).
Proof.
  intros [Hnd Hall]. unfold SessionManager.removeSession. split.
  - clear Hall. induction m as [|[k x] rest IH]; [constructor|].
    cbn [filter fst]. inversion Hnd as [|? ? Hk Hrest]; subst.
    destruct (negb (String.eqb key k)); [|now apply IH].
    cbn [map fst]. constructor; [|now apply IH].
    intros Hin. apply Hk. apply in_map_iff in Hin.
    destruct Hin as (entry & <- & Hentry). apply filter_In in Hentry.
    apply in_map. exact (proj1 Hentry).
  - apply Forall_forall. intros entry Hin. apply filter_In in Hin.
    rewrite Forall_forall in Hall. now apply Hall.
Qed.

Lemma keeps_ret {A : Type} (a : A) : keeps (ret a).
Proof. intros s H. exact H. Qed.

Lemma keeps_throw {A : Type} e : keeps (@throw A e).
Proof. intros s H. exact H. Qed.

Lemma keeps_bind {A B : Type} (m : M A) (k : A -> M B) :
  keeps m -> (forall a, keeps (k a)) -> keeps (bind m k).
Proof.
  intros Hm Hk s H. unfold bind. specialize (Hm s H).
  destruct (result (m s)) as [a|e]; cbn [after]; [now apply Hk|assumption].
Qed.

Lemma keeps_try {A : Type} (m : M A) handler :
  keeps m -> (forall e, keeps (handler e)) -> keeps (try_catch m handler).
Proof.
  intros Hm Hh s H. unfold try_catch. specialize (Hm s H).
  destruct (result (m s)) as [a|e]; cbn [after]; [assumption|now apply Hh].
Qed.

Lemma keeps_emit e : keeps (emit e).
Proof. intros s H. exact H. Qed.

Lemma keeps_send env ws frame : keeps (send env ws frame).
Proof. intros s H. rewrite send_run. exact H. Qed.

Lemma keeps_getReadyState ws : keeps (getReadyState ws).
Proof. intros s H. exact H. Qed.

Lemma keeps_findUserIdByWs ws : keeps (findUserIdByWs ws).
Proof. intros s H. exact H. Qed.

Lemma keeps_hasStorage : keeps hasStorage.
Proof. intros s H. exact H. Qed.

Lemma keeps_createSession env userId ws : keeps (createSession env userId ws).
Proof. intros s H. cbn. now apply well_keyed_createSession. Qed.

Lemma keeps_updateActivity env userId : keeps (updateActivity env userId).
Proof. intros s H. cbn. now apply well_keyed_updateActivity. Qed.

Lemma keeps_removeSession userId : keeps (removeSession userId).
Proof. intros s H. cbn. now apply well_keyed_removeSession. Qed.

Lemma keeps_saveMessage env message : keeps (saveMessage env message).
Proof. intros s H. unfold saveMessage. now destruct (storageService s). Qed.

Lemma keeps_getMessagesBefore env messageId limit :
  keeps (getMessagesBefore env messageId limit).
Proof. intros s H. unfold getMessagesBefore. now destruct (storageService s). Qed.

Lemma keeps_missing_or_blank x : keeps (missing_or_blank x).
Proof.
  unfold missing_or_blank. destruct (negb (truthy x)); [apply keeps_ret|].
  destruct x as [[| | |str| |]|]; (apply keeps_ret || apply keeps_throw).
Qed.

Lemma keeps_member name data : keeps (member name data).
Proof. destruct data; (apply keeps_ret || apply keeps_throw). Qed.

Lemma keeps_forEach {A : Type} (f : A -> M unit) l :
  (forall x, keeps (f x)) -> keeps (forEach f l).
Proof.
  intros Hf. induction l as [|x rest IH]; [apply keeps_ret|].
  cbn [forEach]. apply keeps_bind; [apply Hf|intros _; exact IH].
Qed.

Ltac keep :=
  repeat first
    [ apply keeps_ret | apply keeps_throw | apply keeps_emit | apply keeps_send
    | apply keeps_getReadyState | apply keeps_findUserIdByWs | apply keeps_hasStorage
    | apply keeps_createSession | apply keeps_updateActivity
    | apply keeps_removeSession | apply keeps_saveMessage
    | apply keeps_getMessagesBefore | apply keeps_missing_or_blank
    | apply keeps_member
    | apply keeps_forEach; intros ?
    | apply keeps_bind; [|intros ?]
    | apply keeps_try; [|intros ?]
    | progress cbv zeta
    | match goal with
      | |- keeps (if ?c then _ else _) => destruct c
      | |- keeps (match ?x with _ => _ end) => destruct x
      end ].

Lemma keeps_broadcast env message excludeWs :
  keeps (WebSocketServer.broadcast env message excludeWs).
Proof. intros s H. now rewrite broadcast_run. Qed.

Lemma keeps_sendErrorResponse env ws text :
  keeps (WebSocketServer.sendErrorResponse env ws text).
Proof. intros s H. now rewrite sendErrorResponse_run. Qed.

Lemma keeps_persist env message : keeps (MessageHandler.persist env message).
Proof. unfold MessageHandler.persist. keep. Qed.

Lemma keeps_recent_history env ws : keeps (MessageHandler.recent_history env ws).
Proof. unfold MessageHandler.recent_history. keep. Qed.

Lemma keeps_handleLogin env ws data :
  keeps (MessageHandler.handleLogin WebSocketServer.broadcast env ws data).
Proof.
  unfold MessageHandler.handleLogin, MessageHandler.login. keep.
Qed.

Lemma keeps_deliver env ws data kind emptyError failure excludeWs :
  keeps (MessageHandler.deliver WebSocketServer.broadcast env ws data
           kind emptyError failure excludeWs).
Proof.
  unfold MessageHandler.deliver. keep.
Qed.

Lemma keeps_handleGetHistory env ws data :
  keeps (MessageHandler.handleGetHistory env ws data).
Proof. unfold MessageHandler.handleGetHistory. keep. Qed.

Lemma keeps_handleMessage env ws data :
  keeps (WebSocketServer.handleMessage env ws data).
Proof.
  unfold WebSocketServer.handleMessage, WebSocketServer.route,
    MessageHandler.handleTextMessage, MessageHandler.handleMediaMessage.
  apply keeps_try; [|intros _; apply keeps_sendErrorResponse].
  destruct data as [message|]; [|apply keeps_sendErrorResponse].
  destruct (MessageHandler.validateMessage message);
    [apply keeps_sendErrorResponse|].
  cbv zeta.
  repeat match goal with
         | |- keeps (if ?c then _ else _) => destruct c
         end;
    first [ apply keeps_handleLogin | apply keeps_deliver
          | apply keeps_handleGetHistory | apply keeps_sendErrorResponse ].
Qed.

Lemma keeps_handleClose env ws : keeps (WebSocketServer.handleClose env ws).
Proof.
  unfold WebSocketServer.handleClose. keep.
Qed.

Lemma step_well_keyed s e :
  well_keyed (sessions s) -> well_keyed (sessions (WebSocketServer.step s e)).
Proof.
  intros H. unfold WebSocketServer.step. destruct e as [env ws data|env ws]; cbn [WebSocketServer.react].
  - now apply keeps_handleMessage.
  - now apply (keeps_handleClose env ws (WebSocketServer.closed ws s)).
Qed.

Lemma run_well_keyed events : forall s,
  well_keyed (sessions s) -> well_keyed (sessions (WebSocketServer.run events s)).
Proof.
  induction events as [|e rest IH]; intros s H; [exact H|].
  cbn [WebSocketServer.run fold_left]. apply IH. now apply step_well_keyed.
Qed.

Lemma getSession_set_same key session m :
  SessionManager.getSession key (SessionManager.set key session m) = Some session.
Proof.
  unfold SessionManager.getSession.
  induction m as [|[k x] rest IH]; cbn [SessionManager.set assoc].
  - now rewrite String.eqb_refl.
  - destruct (String.eqb key k) eqn:E; cbn [assoc].
    + now rewrite String.eqb_refl.
    + now rewrite E.
Qed.

Lemma getSession_set_other key other session m :
  other <> key ->
  SessionManager.getSession other (SessionManager.set key session m)
  = SessionManager.getSession other m.
Proof.
  intros Hne. unfold SessionManager.getSession.
  induction m as [|[k x] rest IH]; cbn [SessionManager.set assoc].
  - destruct (String.eqb_spec other key); [contradiction|reflexivity].
  - destruct (String.eqb_spec key k) as [->|Hk]; cbn [assoc].
    + destruct (String.eqb_spec other k); [contradiction|reflexivity].
    + destruct (String.eqb other k); [reflexivity|exact IH].
Qed.

(** A login on a socket whose send throws: the session is registered, the
    acknowledgment fails, and so does the report of the failure. *)
Lemma login_throwing env ws userId s :
  send_throws env ws = true ->
  MessageHandler.login WebSocketServer.broadcast env ws userId s =
  {| after := registered env userId ws s;
     effects := [Register userId ws; Send ws (LOGIN_SUCCESS userId)];
     result := Thrown "send" |}.
Proof.
  intros Hsend. unfold MessageHandler.login.
  rewrite (bind_returned _ _ s (registered env userId ws s) [Register userId ws] tt)
    by reflexivity.
  rewrite (bind_thrown _ _ _ (registered env userId ws s)
             [Send ws (LOGIN_SUCCESS userId)] "send")
    by (rewrite send_run, Hsend; reflexivity).
  reflexivity.
Qed.

Lemma handleMessage_login_throwing env ws props u s :
  prop "type" (JObj props) = Some (JStr "LOGIN") ->
  prop "userId" (JObj props) = Some (JStr u) ->
  blank u = false ->
  send_throws env ws = true ->
  after (WebSocketServer.handleMessage env ws (Some (JObj props)) s)
  = registered env u ws s.
Proof.
  intros Ht Hu Hblank Hsend.
  assert (Hne : u <> "") by (intros ->; discriminate Hblank).
  assert (Hv : MessageHandler.validateMessage (JObj props) = None).
  { rewrite (validate_login props u Ht Hu).
    destruct (String.eqb_spec u ""); [contradiction|reflexivity]. }
  rewrite (handleMessage_routed _ _ _ _ Hv).
  rewrite (route_login _ _ _ (type_name_login props Ht)).
  assert (Hl : MessageHandler.handleLogin WebSocketServer.broadcast env ws (JObj props) s
               = {| after := registered env u ws s;
                    effects := [Register u ws; Send ws (LOGIN_SUCCESS u)]
                               ++ [Send ws (ERROR "Login failed" None)];
                    result := Thrown "send" |}).
  { unfold MessageHandler.handleLogin.
    rewrite (bind_pure _ _ s (prop "userId" (JObj props))) by reflexivity.
    rewrite Hu. rewrite (bind_pure _ _ s _ (missing_or_blank_string u s Hne)).
    rewrite Hblank.
    rewrite (try_thrown _ _ _ _ _ _ (login_throwing env ws u s Hsend)).
    rewrite send_run, Hsend. reflexivity. }
  rewrite (try_thrown _ _ _ _ _ _ Hl). now rewrite sendErrorResponse_run.
Qed.

(** C8 as stated fails: a socket that logs in under two userIds is held by
    two registered sessions at once. *)
Lemma one_socket_two_sessions :
  map (fun entry => (fst entry, SessionManager.ws (snd entry)))
      (sessions (WebSocketServer.run
                   [WebSocketServer.Incoming calm 1%nat (Some (login_as "alice"));
                    WebSocketServer.Incoming calm 1%nat (Some (login_as "bob"))]
                   (fresh [])))
  = [("alice", 1%nat); ("bob", 1%nat)].
Proof. vm_compute. reflexivity. Qed.

(** C8, amended. In every state the server reaches from its construction
    by messages and disconnects, the registry holds at most one session per
    userId and each entry is the session of its key, so userId to session
    is a bijection over the registered sessions; a socket may be held by
    several of them. A LOGIN for a userId that is already bound replaces
    that entry in place, leaves the other entries alone and changes no
    socket's readyState: the earlier connection is not closed. *)
Theorem registry_invariant events path onDisk :
  let s := WebSocketServer.run events (WebSocketServer.create path onDisk) in
  well_keyed (sessions s) /\
  forall env ws props u,
    prop "type" (JObj props) = Some (JStr "LOGIN") ->
    prop "userId" (JObj props) = Some (JStr u) ->
    blank u = false ->
    let s' := WebSocketServer.step s (WebSocketServer.Incoming env ws (Some (JObj props))) in
    SessionManager.getSession u (sessions s')
    = Some {| SessionManager.userId := u; SessionManager.ws := ws;
              SessionManager.connectedAt := now env;
              SessionManager.lastActivity := now env |} /\
    (forall other, other <> u ->
       SessionManager.getSession other (sessions s')
       = SessionManager.getSession other (sessions s)) /\
    (In u (map fst (sessions s)) -> map fst (sessions s') = map fst (sessions s)) /\
    readyState s' = readyState s.
Proof.
  intros s. split.
  - apply run_well_keyed. split; [constructor|constructor].
  - intros env ws props u Ht Hu Hblank s'. subst s'.
    unfold WebSocketServer.step. cbn [WebSocketServer.react].
    assert (Hafter :
              sessions (after (WebSocketServer.handleMessage env ws (Some (JObj props)) s))
              = SessionManager.createSession env u ws (sessions s) /\
              readyState (after (WebSocketServer.handleMessage env ws (Some (JObj props)) s))
              = readyState s).
    { destruct (send_throws env ws) eqn:Hsend.
      - rewrite (handleMessage_login_throwing env ws props u s Ht Hu Hblank Hsend).
        now split.
      - rewrite (handleMessage_login env ws props u s Ht Hu Hblank Hsend).
        rewrite (login_run env ws u s Hsend). cbn [after].
        now rewrite persisted_sessions, greeted_sessions, persisted_readyState,
          greeted_readyState. }
    destruct Hafter as [-> ->]. unfold SessionManager.createSession.
    split; [apply getSession_set_same|].
    split; [intros other Hne; now apply getSession_set_other|].
    split; [|reflexivity].
    intros Hin. rewrite set_keys.
    apply existsb_eqb_In in Hin. now rewrite Hin.
Qed.

Lemma registry_invariant_witness :
  (prop "type" (login_as "alice") = Some (JStr "LOGIN") /\
   prop "userId" (login_as "alice") = Some (JStr "alice") /\
   blank "alice" = false) /\
  SessionManager.getSession "alice"
    (sessions
       (WebSocketServer.step
          (WebSocketServer.run
             [WebSocketServer.Incoming calm 1%nat (Some (login_as "alice"))]
             (WebSocketServer.create "./data/messages.json" None))
          (WebSocketServer.Incoming calm 5%nat (Some (login_as "alice")))))
  = Some {| SessionManager.userId := "alice"; SessionManager.ws := 5%nat;
            SessionManager.connectedAt := now calm;
            SessionManager.lastActivity := now calm |}.
Proof.
  split; [repeat split; reflexivity|].
  exact (proj1 (proj2 (registry_invariant
                         [WebSocketServer.Incoming calm 1%nat (Some (login_as "alice"))]
                         "./data/messages.json" None)
                  calm 5%nat [("type", JStr "LOGIN"); ("userId", JStr "alice")] "alice"
                  eq_refl eq_refl eq_refl)).
Defined.

(** ** The inbound queue *)


Lemma queue_play_snoc turns t c :
  MessageQueues.play (turns ++ [t]) c
  = MessageQueues.turn (MessageQueues.play turns c) t.
Proof. unfold MessageQueues.play. now rewrite fold_left_app. Qed.

Lemma queue_play_app turns1 turns2 c :
  MessageQueues.play (turns1 ++ turns2) c
  = MessageQueues.play turns2 (MessageQueues.play turns1 c).
Proof. unfold MessageQueues.play. apply fold_left_app. Qed.

Lemma queue_hung_snoc turns t :
  MessageQueues.hung (turns ++ [t])
  = MessageQueues.hung turns
    || match t with
       | MessageQueues.Close | MessageQueues.Fail => true
       | _ => false
       end.
Proof.
  unfold MessageQueues.hung. rewrite existsb_app. cbn. now rewrite orb_false_r.
Qed.

Lemma queue_fulfilled_snoc turns t :
  MessageQueues.fulfilled (turns ++ [t])
  = MessageQueues.fulfilled turns
    && match t with
       | MessageQueues.Settle _ (Thrown _) => false
       | _ => true
       end.
Proof.
  unfold MessageQueues.fulfilled. rewrite forallb_app. cbn. now rewrite andb_true_r.
Qed.

Lemma queue_accepted_snoc turns t :
  MessageQueues.accepted (turns ++ [t])
  = if MessageQueues.hung turns then MessageQueues.accepted turns
    else MessageQueues.accepted turns
         ++ match t with MessageQueues.Message d => [d] | _ => [] end.
Proof.
  induction turns as [|x rest IH].
  - cbn. destruct t; reflexivity.
  - destruct x as [d|n o| |]; cbn [app MessageQueues.accepted].
    + rewrite IH. change (MessageQueues.hung (MessageQueues.Message d :: rest))
        with (MessageQueues.hung rest).
      now destruct (MessageQueues.hung rest).
    + rewrite IH. change (MessageQueues.hung (MessageQueues.Settle n o :: rest))
        with (MessageQueues.hung rest).
      reflexivity.
    + reflexivity.
    + reflexivity.
Qed.

Lemma queue_begun_app l1 l2 :
  MessageQueues.begun (l1 ++ l2) = MessageQueues.begun l1 ++ MessageQueues.begun l2.
Proof. apply flat_map_app. Qed.

Lemma queue_settled_app l1 l2 :
  MessageQueues.settled (l1 ++ l2)
  = MessageQueues.settled l1 ++ MessageQueues.settled l2.
Proof. apply flat_map_app. Qed.

Lemma queue_pending_app l1 : forall busy l2,
  MessageQueues.pending busy (l1 ++ l2)
  = match MessageQueues.pending busy l1 with
    | Some busy' => MessageQueues.pending busy' l2
    | None => None
    end.
Proof.
  induction l1 as [|m rest IH]; intros busy l2; [reflexivity|].
  destruct m as [i d|d o]; cbn [app MessageQueues.pending].
  - destruct busy; [reflexivity|apply IH].
  - destruct busy; [apply IH|reflexivity].
Qed.

Lemma in_order_start : in_order [] MessageQueues.handleConnection.
Proof. unfold in_order. cbn. repeat split; auto. Qed.

Ltac queue_fields :=
  cbn [MessageQueues.queueInfo MessageQueues.listed MessageQueues.started
       MessageQueues.drains MessageQueues.marks MessageQueues.queue
       MessageQueues.processing app List.length Nat.eqb negb hd_error nth_error
       map fst snd WebSocketServer.remove_nth].

Ltac queue_marks Hpend :=
  rewrite ?queue_begun_app, ?queue_settled_app, ?queue_pending_app, ?Hpend;
  cbn [MessageQueues.begun MessageQueues.settled MessageQueues.pending
       flat_map app hd_error map snd];
  rewrite ?app_nil_r.

Lemma in_order_turn turns c t :
  in_order turns c -> in_order (turns ++ [t]) (MessageQueues.turn c t).
Proof.
  destruct c as [[q p] li st dr mk].
  unfold in_order. queue_fields.
  intros (Hli & Hlen & Hp & Hid & Hacc & Hset & Hpend & Hq).
  rewrite queue_hung_snoc, queue_accepted_snoc, queue_fulfilled_snoc.
  assert (Hsame : (if MessageQueues.hung turns
                   then MessageQueues.accepted turns
                   else MessageQueues.accepted turns ++ [])
                  = MessageQueues.accepted turns)
    by (destruct (MessageQueues.hung turns); [reflexivity|apply app_nil_r]).
  destruct t as [d|n o| |]; cbn [MessageQueues.turn].
  - (* a payload arrives *)
    unfold MessageQueues.enqueueMessage, MessageQueues.processMessageQueue.
    queue_fields. rewrite orb_false_r, andb_true_r.
    destruct li; queue_fields.
    + assert (Hh : MessageQueues.hung turns = false)
        by (destruct (MessageQueues.hung turns); [discriminate Hli|reflexivity]).
      rewrite Hh. destruct p; queue_fields.
      * repeat split; try assumption; try discriminate.
        rewrite <- Hacc. now rewrite app_assoc.
      * destruct dr as [|x dr']; [|discriminate Hp].
        cbn [map app] in Hset. rewrite app_nil_r in Hset.
        unfold MessageQueues.continue. queue_fields.
        destruct q as [|x rest]; queue_fields; queue_marks Hpend.
        -- rewrite app_nil_r in Hacc. rewrite <- Hacc, Hset.
           repeat split; auto; discriminate.
        -- rewrite <- Hacc, Hset.
           repeat split; auto; try discriminate.
           now rewrite <- !app_assoc.
    + assert (Hh : MessageQueues.hung turns = true)
        by (destruct (MessageQueues.hung turns); [reflexivity|discriminate Hli]).
      rewrite Hh. repeat split; assumption.
  - (* an awaited promise settles *)
    unfold MessageQueues.settle. queue_fields. rewrite orb_false_r, Hsame.
    destruct dr as [|[i d0] [|d1 dr']]; [| |cbn in Hlen; lia].
    + destruct n; queue_fields; repeat split; try assumption.
      all: intros Hf; apply andb_true_iff in Hf; now apply Hq.
    + destruct n as [|n].
      2:{ destruct n; queue_fields; repeat split; try assumption.
          all: intros Hf; apply andb_true_iff in Hf; now apply Hq. }
      destruct p; [|discriminate Hp].
      queue_fields. cbn [map app] in Hset.
      destruct o as [[]|e].
      * unfold MessageQueues.continue. queue_fields. rewrite andb_true_r.
        inversion Hid as [|? ? Hi _]; cbn [fst] in Hi; subst.
        destruct q as [|x rest]; queue_fields; queue_marks Hpend.
        -- rewrite app_nil_r in Hacc.
           repeat split; auto; try discriminate; now rewrite <- Hset.
        -- repeat split; auto; try discriminate;
             [rewrite <- Hacc; now rewrite <- !app_assoc|now rewrite <- Hset].
      * queue_fields. queue_marks Hpend. rewrite andb_false_r.
        repeat split; auto; try discriminate; now rewrite <- Hset.
  - (* the socket closes *)
    unfold MessageQueues.cleanupConnection. queue_fields.
    rewrite orb_true_r, andb_true_r, Hsame. repeat split; assumption.
  - (* the socket fails *)
    unfold MessageQueues.cleanupConnection. queue_fields.
    rewrite orb_true_r, andb_true_r, Hsame. repeat split; assumption.
Qed.

Lemma play_in_order turns :
  in_order turns (MessageQueues.play turns MessageQueues.handleConnection).
Proof.
  induction turns as [|t turns IH] using rev_ind.
  - apply in_order_start.
  - rewrite queue_play_snoc. now apply in_order_turn.
Qed.

(** A fulfilled settlement, when one call is suspended: the call shifts the
    next payload and suspends again, or leaves with the flag reset. *)
Lemma settle_fulfilled q p li st i d0 mk :
  MessageQueues.settle 0 (Returned tt)
    {| MessageQueues.queueInfo :=
         {| MessageQueues.queue := q; MessageQueues.processing := p |};
       MessageQueues.listed := li; MessageQueues.started := st;
       MessageQueues.drains := [(i, d0)]; MessageQueues.marks := mk |}
  = match q with
    | d1 :: rest =>
        {| MessageQueues.queueInfo :=
             {| MessageQueues.queue := rest; MessageQueues.processing := p |};
           MessageQueues.listed := li; MessageQueues.started := st;
           MessageQueues.drains := [(i, d1)];
           MessageQueues.marks :=
             mk ++ [MessageQueues.Ended d0 (Returned tt); MessageQueues.Began i d1] |}
    | [] =>
        {| MessageQueues.queueInfo :=
             {| MessageQueues.queue := []; MessageQueues.processing := false |};
           MessageQueues.listed := li; MessageQueues.started := st;
           MessageQueues.drains := [];
           MessageQueues.marks := mk ++ [MessageQueues.Ended d0 (Returned tt)] |}
    end.
Proof.
  destruct q as [|d1 rest]; [reflexivity|].
  unfold MessageQueues.settle, MessageQueues.continue. queue_fields.
  now rewrite <- app_assoc.
Qed.


(** It handles what is queued to the end, in order, and leaves. *)
Lemma drain_run li st i : forall q d0 mk,
  MessageQueues.play (MessageQueues.settlements (S (List.length q)))
    {| MessageQueues.queueInfo :=
         {| MessageQueues.queue := q; MessageQueues.processing := true |};
       MessageQueues.listed := li; MessageQueues.started := st;
       MessageQueues.drains := [(i, d0)]; MessageQueues.marks := mk |}
  = {| MessageQueues.queueInfo :=
         {| MessageQueues.queue := []; MessageQueues.processing := false |};
       MessageQueues.listed := li; MessageQueues.started := st;
       MessageQueues.drains := [];
       MessageQueues.marks :=
         mk ++ MessageQueues.Ended d0 (Returned tt) :: MessageQueues.handled i q |}.
Proof.
  induction q as [|d1 rest IH]; intros d0 mk.
  - reflexivity.
  - change (MessageQueues.settlements (S (List.length (d1 :: rest))))
      with (MessageQueues.Settle 0 (Returned tt)
              :: MessageQueues.settlements (S (List.length rest))).
    cbn [MessageQueues.play fold_left MessageQueues.turn].
    rewrite settle_fulfilled.
    change (fold_left MessageQueues.turn (MessageQueues.settlements (S (List.length rest))))
      with (MessageQueues.play (MessageQueues.settlements (S (List.length rest)))).
    rewrite IH. f_equal. rewrite <- app_assoc. reflexivity.
Qed.

Lemma begun_handled i l : MessageQueues.begun (MessageQueues.handled i l) = l.
Proof. induction l as [|d rest IH]; [reflexivity|]. cbn. now f_equal. Qed.

Lemma settled_handled i l : MessageQueues.settled (MessageQueues.handled i l) = l.
Proof. induction l as [|d rest IH]; [reflexivity|]. cbn. now f_equal. Qed.

(** A socket whose flag is set has exactly one suspended call, the last
    one that set the flag. *)
Lemma busy_shape turns c :
  in_order turns c ->
  MessageQueues.processing (MessageQueues.queueInfo c) = true ->
  exists under,
    c = {| MessageQueues.queueInfo :=
             {| MessageQueues.queue := MessageQueues.queue (MessageQueues.queueInfo c);
                MessageQueues.processing := true |};
           MessageQueues.listed := MessageQueues.listed c;
           MessageQueues.started := MessageQueues.started c;
           MessageQueues.drains := [(MessageQueues.started c, under)];
           MessageQueues.marks := MessageQueues.marks c |}.
Proof.
  destruct c as [[q p] li st dr mk]. unfold in_order. queue_fields.
  intros (_ & Hlen & Hp & Hid & _) ->.
  destruct dr as [|[i d0] [|x dr']]; [discriminate Hp| |cbn in Hlen; lia].
  inversion Hid as [|? ? Hi _]. cbn [fst] in Hi. subst i. now exists d0.
Qed.



(** * Further properties of the code *)

(** ** The file-backed store: pages *)

(** The index [findIndex] answers for an id is that of the first message
    carrying it. *)
Lemma findIndex_at (l : list Message) : forall k m i,
  nth_error l k = Some m ->
  id m = JStr i ->
  (forall j x, (j < k)%nat -> nth_error l j = Some x -> id x <> JStr i) ->
  findIndex (has_id (Some (JStr i))) l = Z.of_nat k.
Proof.
  induction l as [|x rest IH]; intros k m i Hk Hid Hfirst.
  - destruct k; discriminate Hk.
  - cbn [findIndex]. destruct k as [|k]; cbn [nth_error] in Hk.
    + injection Hk as ->. apply has_id_string in Hid. now rewrite Hid.
    + destruct (has_id (Some (JStr i)) x) eqn:E.
      * exfalso. apply has_id_string in E.
        apply (Hfirst 0%nat x); [lia|reflexivity|exact E].
      * rewrite (IH k m i Hk Hid).
        -- destruct (Z.of_nat k <? 0) eqn:L; [apply Z.ltb_lt in L; lia|lia].
        -- intros j y Hj Hy. apply (Hfirst (S j) y); [lia|exact Hy].
Qed.

(** The lazy load happens once: what a call does on a store is what it does
    on the loaded store. *)
Lemma ensure_initialized_twice env s :
  StorageService.ensure_initialized env (StorageService.ensure_initialized env s)
  = StorageService.ensure_initialized env s.
Proof. apply ensure_initialized_idle, ensure_initialized_done. Qed.

Lemma getMessagesBefore_loaded env messageId limit s :
  StorageService.getMessagesBefore env messageId limit s
  = StorageService.getMessagesBefore env messageId limit
      (StorageService.ensure_initialized env s).
Proof.
  unfold StorageService.getMessagesBefore. cbv zeta.
  now rewrite ensure_initialized_twice.
Qed.

Lemma getMessagesBefore_at env messageId limit s (k : nat) :
  StorageService.initialized s = true ->
  findIndex (has_id messageId) (StorageService.messages s) = Z.of_nat k ->
  0 <= limit ->
  StorageService.getMessagesBefore env messageId (Some limit) s
  = (s, Returned (firstn (Nat.min k (Z.to_nat limit))
                    (skipn (k - Nat.min k (Z.to_nat limit))
                       (StorageService.messages s)))).
Proof.
  intros Hs Hk Hl.
  pose proof (findIndex_bounds (has_id messageId) (StorageService.messages s)) as B.
  unfold StorageService.getMessagesBefore. cbv zeta.
  rewrite ensure_initialized_idle by assumption. rewrite Hk.
  destruct (Z.of_nat k =? -1) eqn:E; [apply Z.eqb_eq in E; lia|].
  rewrite slice_window by lia.
  replace (Z.to_nat (Z.min (Z.of_nat k) limit)) with (Nat.min k (Z.to_nat limit)) by lia.
  replace (Z.to_nat (Z.max 0 (Z.of_nat k - limit)))
    with (k - Nat.min k (Z.to_nat limit))%nat by lia.
  reflexivity.
Qed.

Lemma nth_error_window {A : Type} (l : list A) (k count j : nat) :
  (count <= k)%nat -> (j < count)%nat ->
  nth_error (firstn count (skipn (k - count) l)) j = nth_error l (k - count + j).
Proof.
  intros Hc Hj. rewrite nth_error_firstn.
  destruct (Nat.ltb_spec j count); [|lia].
  now rewrite nth_error_skipn.
Qed.

(** X1. History before a message. Asked for the messages before an id
    whose first bearer is the message at index [k], with a limit that is
    not negative, the file-backed store (loading its file first when it has
    not yet) answers the [min k limit] messages stored immediately before
    index [k], oldest first: never the message itself, never a later one,
    never more than [limit]. Nothing is thrown. *)
Theorem history_page_before env s k m i limit :
  let loaded := StorageService.ensure_initialized env s in
  let count := Nat.min k (Z.to_nat limit) in
  nth_error (StorageService.messages loaded) k = Some m ->
  id m = JStr i ->
  (forall j x, (j < k)%nat ->
     nth_error (StorageService.messages loaded) j = Some x -> id x <> JStr i) ->
  0 <= limit ->
  exists page,
    StorageService.getMessagesBefore env (Some (JStr i)) (Some limit) s
    = (loaded, Returned page) /\
    page = firstn count (skipn (k - count) (StorageService.messages loaded)) /\
    List.length page = count /\
    forall j, (j < count)%nat ->
      nth_error page j = nth_error (StorageService.messages loaded) (k - count + j).
Proof.
  intros loaded count Hk Hid Hfirst Hl.
  assert (Hlen : (k < List.length (StorageService.messages loaded))%nat).
  { apply nth_error_Some. rewrite Hk. discriminate. }
  eexists. split; [|split; [reflexivity|split]].
  - rewrite getMessagesBefore_loaded. fold loaded.
    apply getMessagesBefore_at; [apply ensure_initialized_done| |assumption].
    now apply findIndex_at with m.
  - rewrite length_firstn, length_skipn. subst count. lia.
  - intros j Hj. apply nth_error_window; [subst count; lia|assumption].
Qed.

Lemma history_page_before_witness :
  (nth_error (StorageService.messages
                (StorageService.ensure_initialized calm (holding [m1; m2; m3]))) 2
   = Some m3 /\ id m3 = JStr "m3" /\ 0 <= 1) /\
  StorageService.getMessagesBefore calm (Some (JStr "m3")) (Some 1)
    (holding [m1; m2; m3])
  = (holding [m1; m2; m3], Returned [m2]).
Proof.
  split; [split; [reflexivity|split; [reflexivity|lia]]|].
  destruct (history_page_before calm (holding [m1; m2; m3]) 2 m3 "m3" 1)
    as (page & Hrun & Hpage & _).
  - reflexivity.
  - reflexivity.
  - intros [|[|j]] x Hj Hx; [| |lia]; injection Hx as <-; discriminate.
  - lia.
  - rewrite Hrun, Hpage. reflexivity.
Defined.

(** X2. The most recent page. Asked with an id that no stored message
    carries, and a limit of at least one, the file-backed store answers
    its last [limit] messages (all of them when it holds fewer), oldest
    first; an absent id is such an id whatever the store holds. *)
Theorem history_page_recent env s limit :
  let loaded := StorageService.ensure_initialized env s in
  let recent := skipn (List.length (StorageService.messages loaded) - Z.to_nat limit)
                  (StorageService.messages loaded) in
  0 < limit ->
  (forall messageId,
      (forall x, In x (StorageService.messages loaded) -> has_id messageId x = false) ->
      StorageService.getMessagesBefore env messageId (Some limit) s
      = (loaded, Returned recent)) /\
  StorageService.getMessagesBefore env None (Some limit) s = (loaded, Returned recent) /\
  List.length recent
  = Nat.min (List.length (StorageService.messages loaded)) (Z.to_nat limit) /\
  exists older, StorageService.messages loaded = older ++ recent.
Proof.
  intros loaded recent Hl.
  assert (Hany : forall messageId,
             (forall x, In x (StorageService.messages loaded) -> has_id messageId x = false) ->
             StorageService.getMessagesBefore env messageId (Some limit) s
             = (loaded, Returned recent)).
  { intros messageId Hnone. rewrite getMessagesBefore_loaded. fold loaded.
    apply getMessagesBefore_recent;
      [apply ensure_initialized_done|now apply findIndex_none|assumption]. }
  split; [exact Hany|]. split; [|split].
  - apply Hany. intros x _. unfold has_id, strict_equals. now destruct (id x).
  - subst recent. rewrite length_skipn. lia.
  - exists (firstn (List.length (StorageService.messages loaded) - Z.to_nat limit)
              (StorageService.messages loaded)).
    subst recent. now rewrite firstn_skipn.
Qed.

Lemma history_page_recent_witness :
  0 < 2 /\
  StorageService.getMessagesBefore calm None (Some 2) (holding [m1; m2; m3])
  = (holding [m1; m2; m3], Returned [m2; m3]).
Proof.
  split; [lia|].
  exact (proj1 (proj2 (history_page_recent calm (holding [m1; m2; m3]) 2
                         ltac:(lia)))).
Defined.

Lemma firstn_window {A : Type} (l : list A) (a b : nat) :
  firstn a l ++ firstn b (skipn a l) = firstn (a + b) l.
Proof.
  revert l. induction a as [|a IH]; intros l; [reflexivity|].
  destruct l as [|x l]; cbn [firstn skipn Nat.add app].
  - now rewrite firstn_nil.
  - now rewrite IH.
Qed.

(** X3. Paging back reaches everything, once. With ids that are strings
    and unique, and a limit of at least one, a client that holds the
    message at index [k] and keeps asking for the page before the oldest
    message it has been sent, for as long as the pages come back full, ends
    up with exactly the [k] messages stored before it, in stored order: no
    gap, no repeat, in at most [k / limit + 1] requests. *)
Theorem load_history_tiles env s limit rounds : forall k m i,
  StorageService.initialized s = true ->
  NoDup (map id (StorageService.messages s)) ->
  Forall (fun x => exists j, id x = JStr j) (StorageService.messages s) ->
  nth_error (StorageService.messages s) k = Some m ->
  id m = JStr i ->
  0 < limit ->
  Z.of_nat k < Z.of_nat rounds * limit ->
  load_history rounds env limit (Some (JStr i)) s
  = firstn k (StorageService.messages s).
Proof.
  induction rounds as [|rounds IH]; intros k m i Hs Hnd Hstr Hk Hid Hl Hr; [lia|].
  assert (Hlen : (k < List.length (StorageService.messages s))%nat).
  { apply nth_error_Some. rewrite Hk. discriminate. }
  cbn [load_history].
  rewrite (getMessagesBefore_at env _ limit s k Hs
             (findIndex_unique _ _ _ _ Hnd Hk Hid)) by lia.
  cbn [snd].
  set (count := Nat.min k (Z.to_nat limit)).
  set (page := firstn count (skipn (k - count) (StorageService.messages s))).
  assert (Hpl : List.length page = count).
  { subst page. rewrite length_firstn, length_skipn. subst count. lia. }
  rewrite Hpl.
  destruct (Z.of_nat count =? limit) eqn:Hfull.
  - apply Z.eqb_eq in Hfull.
    assert (Hc : count = Z.to_nat limit) by lia.
    assert (Hhead : nth_error page 0 = nth_error (StorageService.messages s) (k - count)).
    { subst page. rewrite nth_error_window by lia. f_equal. lia. }
    destruct page as [|oldest rest] eqn:Hpage; [cbn in Hpl; lia|].
    cbn [nth_error] in Hhead. symmetry in Hhead.
    rewrite Forall_forall in Hstr.
    destruct (Hstr oldest (nth_error_In _ _ Hhead)) as (i' & Hi').
    rewrite Hi'.
    rewrite (IH (k - count)%nat oldest i' Hs Hnd
               (proj2 (Forall_forall _ _) Hstr) Hhead Hi' Hl) by lia.
    rewrite <- Hpage. subst page. rewrite firstn_window. f_equal. lia.
  - apply Z.eqb_neq in Hfull.
    assert (Hc : count = k) by lia.
    subst page. rewrite Hc, Nat.sub_diag. reflexivity.
Qed.

Lemma load_history_tiles_witness :
  (StorageService.initialized (holding [m1; m2; m3]) = true /\
   nth_error (StorageService.messages (holding [m1; m2; m3])) 2 = Some m3 /\
   id m3 = JStr "m3" /\ 0 < 1 /\ Z.of_nat 2 < Z.of_nat 3 * 1) /\
  load_history 3 calm 1 (Some (JStr "m3")) (holding [m1; m2; m3]) = [m1; m2].
Proof.
  split; [repeat split; lia|].
  apply (load_history_tiles calm (holding [m1; m2; m3]) 1 3 2 m3 "m3").
  - reflexivity.
  - cbn. repeat constructor; cbn; intuition discriminate.
  - repeat constructor; eexists; reflexivity.
  - reflexivity.
  - reflexivity.
  - lia.
  - lia.
Defined.
(** ** The file-backed store: the file and the memory *)


Lemma ensure_initialized_path env s :
  StorageService.storagePath (StorageService.ensure_initialized env s)
  = StorageService.storagePath s.
Proof.
  unfold StorageService.ensure_initialized, StorageService.initialize.
  destruct (StorageService.initialized s); [reflexivity|].
  destruct (mkdir_fails env); [reflexivity|].
  destruct (StorageService.readFile env s); reflexivity.
Qed.





Lemma filter_keeps_all {A : Type} (p : A -> bool) (l : list A) :
  (forall x, In x l -> p x = true) -> filter p l = l.
Proof.
  induction l as [|x l IH]; intros H; [reflexivity|].
  cbn [filter]. rewrite (H x (or_introl eq_refl)). f_equal.
  apply IH. intros y Hy. apply H. now right.
Qed.


(** X6. Saving and then deleting a message. When the id of a message is a
    string that no stored message carries yet, saving the message and then
    deleting by that id leaves the memory with the list it had (loaded from
    the file when the store had not yet done so), whether or not the two
    file writes succeed; when the second write succeeds the file holds
    that list again. *)
Theorem save_then_delete env env' message i s :
  id message = JStr i ->
  (forall x, In x (StorageService.messages (StorageService.ensure_initialized env s)) ->
             id x <> JStr i) ->
  let s1 := fst (StorageService.saveMessage env message s) in
  let s2 := fst (StorageService.deleteMessage env' (Some (JStr i)) s1) in
  StorageService.messages s2
  = StorageService.messages (StorageService.ensure_initialized env s) /\
  (writeFile_fails env' = false ->
   StorageService.file s2
   = Some (StorageService.messages (StorageService.ensure_initialized env s))).
Proof.
  intros Hid Hfresh s1 s2.
  assert (Hm : StorageService.messages s2
               = StorageService.messages (StorageService.ensure_initialized env s)).
  { subst s2. unfold StorageService.deleteMessage. cbv zeta.
    assert (Hk : filter (fun msg => negb (has_id (Some (JStr i)) msg))
                   (StorageService.messages
                      (StorageService.ensure_initialized env' s1))
                 = StorageService.messages (StorageService.ensure_initialized env s)).
    { rewrite ensure_initialized_idle by apply saveMessage_initialized.
      subst s1. rewrite saveMessage_messages, filter_app. cbn [filter].
      rewrite (proj2 (has_id_string message i) Hid). cbn [negb].
      rewrite app_nil_r. apply filter_keeps_all.
      intros x Hx. destruct (has_id (Some (JStr i)) x) eqn:E; [|reflexivity].
      apply has_id_string in E. now destruct (Hfresh x Hx). }
    destruct (writeFile_fails env'); cbn [fst StorageService.messages]; exact Hk. }
  split; [exact Hm|].
  intros Hw. rewrite <- Hm. subst s2.
  unfold StorageService.deleteMessage. cbv zeta. rewrite Hw. reflexivity.
Qed.

Lemma save_then_delete_witness :
  id m2 = JStr "m2" /\
  StorageService.messages
    (fst (StorageService.deleteMessage readonly (Some (JStr "m2"))
            (fst (StorageService.saveMessage calm m2 (holding [m1])))))
  = [m1].
Proof.
  split; [reflexivity|].
  refine (proj1 (save_then_delete calm readonly m2 "m2" (holding [m1]) eq_refl _)).
  intros x [<-|[]]. discriminate.
Defined.



(** ** The registry: lookups *)

Lemma set_absent key session m :
  SessionManager.getSession key m = None ->
  SessionManager.set key session m = m ++ [(key, session)].
Proof.
  unfold SessionManager.getSession.
  induction m as [|[k x] rest IH]; cbn [SessionManager.set assoc app]; [reflexivity|].
  destruct (String.eqb key k); [discriminate|]. intros H. now rewrite IH.
Qed.

Lemma removeSession_set key session m :
  SessionManager.removeSession key (SessionManager.set key session m)
  = SessionManager.removeSession key m.
Proof.
  unfold SessionManager.removeSession.
  induction m as [|[k x] rest IH]; cbn [SessionManager.set filter fst].
  - now rewrite String.eqb_refl.
  - destruct (String.eqb key k) eqn:E; cbn [filter fst].
    + rewrite String.eqb_refl. reflexivity.
    + rewrite ?E. cbn [negb]. now rewrite IH.
Qed.

Lemma removeSession_absent key m :
  SessionManager.getSession key m = None ->
  SessionManager.removeSession key m = m.
Proof.
  unfold SessionManager.getSession, SessionManager.removeSession.
  induction m as [|[k x] rest IH]; cbn [assoc filter fst]; [reflexivity|].
  destruct (String.eqb key k); [discriminate|]. intros H. cbn [negb]. now rewrite IH.
Qed.

Lemma getSession_removed key m :
  SessionManager.getSession key (SessionManager.removeSession key m) = None.
Proof.
  unfold SessionManager.getSession, SessionManager.removeSession.
  induction m as [|[k x] rest IH]; cbn [filter fst]; [reflexivity|].
  destruct (String.eqb key k) eqn:E; cbn [negb]; [exact IH|].
  cbn [assoc]. now rewrite E.
Qed.

Lemma getSession_remove_other key other m :
  other <> key ->
  SessionManager.getSession other (SessionManager.removeSession key m)
  = SessionManager.getSession other m.
Proof.
  intros Hne. unfold SessionManager.getSession, SessionManager.removeSession.
  induction m as [|[k x] rest IH]; cbn [filter fst]; [reflexivity|].
  destruct (String.eqb_spec key k) as [<-|Hk]; cbn [negb assoc].
  - destruct (String.eqb_spec other key); [contradiction|exact IH].
  - now rewrite IH.
Qed.

(** X8. Removing a session. After [removeSession(userId)] that user has no
    session and every other user has the session it had; removing a user
    that has none changes nothing; and removing a user right after
    creating its session, when it had none before, gives back the registry
    as it was, entries and order. Creating a session for a user that
    already has one and then removing it removes the user altogether. *)
Theorem removeSession_lookup userId m :
  SessionManager.getSession userId (SessionManager.removeSession userId m) = None /\
  (forall other, other <> userId ->
     SessionManager.getSession other (SessionManager.removeSession userId m)
     = SessionManager.getSession other m) /\
  (SessionManager.getSession userId m = None ->
   SessionManager.removeSession userId m = m) /\
  (forall env ws,
     SessionManager.removeSession userId (SessionManager.createSession env userId ws m)
     = SessionManager.removeSession userId m) /\
  (forall env ws,
     SessionManager.getSession userId m = None ->
     SessionManager.removeSession userId (SessionManager.createSession env userId ws m)
     = m).
Proof.
  split; [apply getSession_removed|].
  split; [intros other Hne; now apply getSession_remove_other|].
  split; [apply removeSession_absent|].
  split.
  - intros env ws. apply removeSession_set.
  - intros env ws H. unfold SessionManager.createSession.
    rewrite removeSession_set. now apply removeSession_absent.
Qed.

Lemma removeSession_lookup_witness :
  SessionManager.getSession "carol" (sessions (lobby [])) = None /\
  SessionManager.removeSession "carol"
    (SessionManager.createSession calm "carol" 3%nat (sessions (lobby [])))
  = sessions (lobby []).
Proof.
  split; [reflexivity|].
  exact (proj2 (proj2 (proj2 (proj2 (removeSession_lookup "carol" (sessions (lobby [])))))) 
           calm 3%nat eq_refl).
Defined.

(** ** The registry: who a socket speaks for *)

Lemma findUserIdByWs_none socket m :
  SessionManager.findUserIdByWs socket m = None <->
  forall entry, In entry m -> SessionManager.ws (snd entry) <> socket.
Proof.
  induction m as [|[k x] rest IH]; cbn [SessionManager.findUserIdByWs].
  - split; [intros _ entry []|reflexivity].
  - destruct (Nat.eqb_spec (SessionManager.ws x) socket) as [E|E].
    + split; [discriminate|]. intros H. now destruct (H (k, x) (or_introl eq_refl)).
    + rewrite IH. split.
      * intros H entry [<-|Hin]; [exact E|now apply H].
      * intros H entry Hin. apply H. now right.
Qed.

Lemma findUserIdByWs_app socket m1 m2 :
  SessionManager.findUserIdByWs socket (m1 ++ m2)
  = match SessionManager.findUserIdByWs socket m1 with
    | Some userId => Some userId
    | None => SessionManager.findUserIdByWs socket m2
    end.
Proof.
  induction m1 as [|[k x] rest IH]; cbn [app SessionManager.findUserIdByWs]; [reflexivity|].
  destruct (Nat.eqb (SessionManager.ws x) socket); [reflexivity|exact IH].
Qed.

Lemma set_In key session m : In (key, session) (SessionManager.set key session m).
Proof.
  induction m as [|[k x] rest IH]; cbn [SessionManager.set]; [now left|].
  destruct (String.eqb key k); [now left|now right].
Qed.

(** A socket that was not bound speaks for the user it logs in as. *)
Lemma findUserIdByWs_created env userId socket m :
  SessionManager.findUserIdByWs socket m = None ->
  SessionManager.findUserIdByWs socket (SessionManager.createSession env userId socket m)
  = Some userId.
Proof.
  unfold SessionManager.createSession.
  induction m as [|[k x] rest IH];
    cbn [SessionManager.set SessionManager.findUserIdByWs SessionManager.ws].
  - now rewrite Nat.eqb_refl.
  - destruct (Nat.eqb (SessionManager.ws x) socket) eqn:E; [discriminate|].
    intros H. destruct (String.eqb userId k);
      cbn [SessionManager.findUserIdByWs SessionManager.ws].
    + now rewrite Nat.eqb_refl.
    + rewrite E. now apply IH.
Qed.

Lemma keyed_once (m : SessionManager.t) key a b :
  NoDup (map fst m) -> In (key, a) m -> In (key, b) m -> a = b.
Proof.
  induction m as [|[k x] rest IH]; intros Hnd Ha Hb; [destruct Ha|].
  cbn [map fst] in Hnd. inversion Hnd as [|? ? Hk Hrest]; subst.
  destruct Ha as [Ha|Ha], Hb as [Hb|Hb].
  - congruence.
  - injection Ha as -> ->. destruct Hk. now apply (in_map fst) in Hb.
  - injection Hb as -> ->. destruct Hk. now apply (in_map fst) in Ha.
  - now apply IH.
Qed.

(** After [createSession(userId, socket)] the socket speaks for somebody. *)
Lemma findUserIdByWs_bound env userId socket m :
  SessionManager.findUserIdByWs socket (SessionManager.createSession env userId socket m)
  <> None.
Proof.
  intros H. rewrite findUserIdByWs_none in H.
  apply (H _ (set_In userId _ m)). reflexivity.
Qed.

(** X9. Which user a socket speaks for after a login. After
    [createSession(userId, socket)] the socket is bound: [findUserIdByWs]
    answers some user for it. It answers [userId] when the socket was not
    bound before. When the socket was already bound to an earlier user and
    [userId] had no session yet, it still answers the earlier user: the
    first binding in insertion order wins, so what the socket sends keeps
    being attributed to the user it logged in as first. *)
Theorem createSession_binds env userId socket m :
  SessionManager.findUserIdByWs socket (SessionManager.createSession env userId socket m)
  <> None /\
  (SessionManager.findUserIdByWs socket m = None ->
   SessionManager.findUserIdByWs socket (SessionManager.createSession env userId socket m)
   = Some userId) /\
  (forall earlier,
     SessionManager.findUserIdByWs socket m = Some earlier ->
     SessionManager.getSession userId m = None ->
     SessionManager.findUserIdByWs socket (SessionManager.createSession env userId socket m)
     = Some earlier).
Proof.
  split; [|split].
  - apply findUserIdByWs_bound.
  - apply findUserIdByWs_created.
  - intros earlier He Hu. unfold SessionManager.createSession.
    rewrite (set_absent _ _ _ Hu), findUserIdByWs_app. now rewrite He.
Qed.

Lemma createSession_binds_witness :
  (SessionManager.findUserIdByWs 1%nat (sessions (lobby [])) = Some "alice" /\
   SessionManager.getSession "carol" (sessions (lobby [])) = None) /\
  SessionManager.findUserIdByWs 1%nat
    (SessionManager.createSession calm "carol" 1%nat (sessions (lobby [])))
  = Some "alice".
Proof.
  split; [split; reflexivity|].
  exact (proj2 (proj2 (createSession_binds calm "carol" 1%nat (sessions (lobby []))))
           "alice" eq_refl eq_refl).
Defined.

(** In a registry keyed by user, once [createSession(userId, new)] has run
    a different socket no longer speaks for [userId], and speaks for nobody
    when [userId] was the only user bound to it. *)
Lemma createSession_unbinds env userId old new m :
  well_keyed m ->
  old <> new ->
  SessionManager.findUserIdByWs old (SessionManager.createSession env userId new m)
  <> Some userId /\
  ((forall entry, In entry m -> SessionManager.ws (snd entry) = old -> fst entry = userId) ->
   SessionManager.findUserIdByWs old (SessionManager.createSession env userId new m)
   = None).
Proof.
  intros Hwk Hne.
  pose proof (well_keyed_createSession env userId new m Hwk) as [Hnd _].
  assert (Hnot : SessionManager.findUserIdByWs old
                   (SessionManager.createSession env userId new m) <> Some userId).
  { intros H. apply findUserIdByWs_session in H. destruct H as (session & Hin & Hws).
    unfold SessionManager.createSession in Hin, Hnd.
    pose proof (keyed_once _ _ _ _ Hnd Hin (set_In userId _ m)) as ->.
    cbn [SessionManager.ws] in Hws. congruence. }
  split; [exact Hnot|].
  intros Honly.
  destruct (SessionManager.findUserIdByWs old
              (SessionManager.createSession env userId new m)) as [v|] eqn:E;
    [|reflexivity].
  exfalso. apply Hnot. f_equal.
  apply findUserIdByWs_session in E. destruct E as (session & Hin & Hws).
  unfold SessionManager.createSession in Hin.
  destruct (set_entries _ _ _ _ Hin) as [H|H].
  - now injection H.
  - exact (Honly _ H Hws).
Qed.
(** ** The heartbeat *)

Lemma bindings_updateActivity env key m :
  bindings (SessionManager.updateActivity env key m) = bindings m.
Proof.
  unfold bindings. induction m as [|[k x] rest IH]; [reflexivity|].
  cbn [SessionManager.updateActivity]. destruct (String.eqb key k); cbn [map fst snd].
  - reflexivity.
  - now rewrite IH.
Qed.

Lemma getSession_updateActivity env key m :
  SessionManager.getSession key (SessionManager.updateActivity env key m)
  = option_map (fun session =>
                  {| SessionManager.userId := SessionManager.userId session;
                     SessionManager.ws := SessionManager.ws session;
                     SessionManager.connectedAt := SessionManager.connectedAt session;
                     SessionManager.lastActivity := now env |})
      (SessionManager.getSession key m).
Proof.
  unfold SessionManager.getSession.
  induction m as [|[k x] rest IH]; [reflexivity|].
  cbn [SessionManager.updateActivity assoc].
  destruct (String.eqb key k) eqn:E; cbn [assoc]; rewrite E; [reflexivity|exact IH].
Qed.

Lemma getSession_updateActivity_other env key other m :
  other <> key ->
  SessionManager.getSession other (SessionManager.updateActivity env key m)
  = SessionManager.getSession other m.
Proof.
  intros Hne. unfold SessionManager.getSession.
  induction m as [|[k x] rest IH]; [reflexivity|].
  cbn [SessionManager.updateActivity assoc].
  destruct (String.eqb_spec key k) as [<-|Hk]; cbn [assoc].
  - destruct (String.eqb_spec other key); [contradiction|reflexivity].
  - now rewrite IH.
Qed.

Lemma updateActivity_run env userId s :
  updateActivity env userId s
  = {| after := touched env userId s; effects := []; result := Returned tt |}.
Proof. reflexivity. Qed.

(** X10. The heartbeat. A [pong] on a socket sends nothing, never throws
    and touches neither the store nor any socket's state. It leaves every
    user on the socket it was on, with the time it connected, so every
    socket speaks for the user it spoke for; when the socket speaks for a
    user, that user's session gets the current time as its last activity
    and no other session changes; when it speaks for nobody, nothing
    changes at all. *)
Theorem pong_refreshes_activity env ws s :
  let run := WebSocketServer.pong env ws s in
  result run = Returned tt /\
  effects run = [] /\
  storageService (after run) = storageService s /\
  readyState (after run) = readyState s /\
  bindings (sessions (after run)) = bindings (sessions s) /\
  (forall socket,
     SessionManager.findUserIdByWs socket (sessions (after run))
     = SessionManager.findUserIdByWs socket (sessions s)) /\
  match MessageHandler.bound (SessionManager.findUserIdByWs ws (sessions s)) with
  | Some userId =>
      SessionManager.getSession userId (sessions (after run))
      = option_map (fun session =>
                      {| SessionManager.userId := SessionManager.userId session;
                         SessionManager.ws := SessionManager.ws session;
                         SessionManager.connectedAt := SessionManager.connectedAt session;
                         SessionManager.lastActivity := now env |})
          (SessionManager.getSession userId (sessions s)) /\
      forall other, other <> userId ->
        SessionManager.getSession other (sessions (after run))
        = SessionManager.getSession other (sessions s)
  | None => after run = s
  end.
Proof.
  intros run. subst run. unfold WebSocketServer.pong.
  rewrite (bind_pure _ _ s _ (findUserIdByWs_run ws s)).
  destruct (MessageHandler.bound (SessionManager.findUserIdByWs ws (sessions s)))
    as [userId|].
  - rewrite updateActivity_run. cbn [after effects result touched sessions
                                     storageService readyState].
    repeat split.
    + apply bindings_updateActivity.
    + intros socket. apply updateActivity_find.
    + apply getSession_updateActivity.
    + intros other Hne. now apply getSession_updateActivity_other.
  - cbn. repeat split.
Qed.

(** ** Chat frames that are turned down *)

Lemma handler_failure_run env ws failure first s :
  try_catch
    (try_catch (send env ws first) (fun _ => send env ws (ERROR failure None)))
    (fun _ => WebSocketServer.sendErrorResponse env ws "Failed to process message") s =
  {| after := s;
     effects := Send ws first
                :: (if send_throws env ws
                    then Send ws (ERROR failure None)
                         :: (if readyState s ws =? 1
                             then [Send ws (ERROR "Failed to process message"
                                              (Some (now env)))]
                             else [])
                    else []);
     result := Returned tt |}.
Proof.
  unfold try_catch. rewrite !send_run. cbn [after effects result].
  destruct (send_throws env ws); cbn [after effects result app]; [|reflexivity].
  now rewrite sendErrorResponse_run.
Qed.

Lemma blank_chat_run env ws props kind emptyError failure excludeWs userId body s :
  MessageHandler.bound (SessionManager.findUserIdByWs ws (sessions s)) = Some userId ->
  prop "content" (JObj props) = Some (JStr body) ->
  body <> "" ->
  blank body = true ->
  try_catch
    (MessageHandler.deliver WebSocketServer.broadcast env ws (JObj props)
       kind emptyError failure excludeWs)
    (fun _ => WebSocketServer.sendErrorResponse env ws "Failed to process message") s =
  {| after := s;
     effects := Send ws (ERROR emptyError None)
                :: (if send_throws env ws
                    then Send ws (ERROR failure None)
                         :: (if readyState s ws =? 1
                             then [Send ws (ERROR "Failed to process message"
                                              (Some (now env)))]
                             else [])
                    else []);
     result := Returned tt |}.
Proof.
  intros Hb Hc Hne Hblank.
  rewrite <- (handler_failure_run env ws failure (ERROR emptyError None) s).
  unfold MessageHandler.deliver, try_catch at 1 3.
  assert (Hbody :
    forall handler,
      try_catch
        (found <- findUserIdByWs ws;;
         match MessageHandler.bound found with
         | Some userId0 =>
             text <- member "content" (JObj props);;
             empty <- missing_or_blank text;;
             (if empty
              then send env ws (ERROR emptyError None)
              else
               match text with
               | Some (JStr c) =>
                   updateActivity env userId0;;
                   MessageHandler.persist env
                     (MessageHandler.compose env kind userId0 (JObj props) c);;
                   WebSocketServer.broadcast env
                     (MessageHandler.compose env kind userId0 (JObj props) c) excludeWs
               | _ => ret tt
               end)
         | None => send env ws (ERROR "Not authenticated" None)
         end) handler s
      = try_catch (send env ws (ERROR emptyError None)) handler s).
  { intros handler. unfold try_catch.
    rewrite (bind_pure _ _ s _ (findUserIdByWs_run ws s)). rewrite Hb.
    rewrite (bind_pure _ _ s (prop "content" (JObj props))) by reflexivity.
    rewrite Hc.
    rewrite (bind_pure _ _ s _ (missing_or_blank_string body s Hne)). rewrite Hblank.
    reflexivity. }
  now rewrite Hbody.
Qed.

Lemma chat_type_cases t :
  MessageHandler.is_chat_type t = true ->
  t = "TEXT" \/ (String.eqb t "TEXT" = false /\ MessageHandler.is_media_type t = true).
Proof.
  unfold MessageHandler.is_chat_type.
  destruct (String.eqb_spec t "TEXT") as [->|_]; [now left|].
  cbn [orb]. intros H. right. now split.
Qed.

(** X11. Blank content. A TEXT, IMAGE, VIDEO or AUDIO frame from a bound
    socket whose content is only white space is turned down: the socket is
    handed the error for an empty message (of the text or the media kind),
    and that is all when its send works; nothing is saved, nobody else is
    sent anything, the sender's activity stamp is not refreshed, and the
    server is exactly as before. *)
Theorem blank_content_rejected env ws data userId body s :
  MessageHandler.validateMessage data = None ->
  MessageHandler.is_chat_type (MessageHandler.type_name data) = true ->
  MessageHandler.bound (SessionManager.findUserIdByWs ws (sessions s)) = Some userId ->
  prop "content" data = Some (JStr body) ->
  blank body = true ->
  let run := WebSocketServer.handleMessage env ws (Some data) s in
  after run = s /\
  result run = Returned tt /\
  Forall (error_to ws) (effects run) /\
  exists more,
    effects run
    = Send ws (ERROR (if String.eqb (MessageHandler.type_name data) "TEXT"
                      then "Empty message not allowed"
                      else "Empty media content not allowed") None) :: more /\
    (send_throws env ws = false -> more = []).
Proof.
  intros Hv Hk Hb Hc Hblank run. subst run.
  destruct (validated_chat data Hv Hk) as (body' & Hc' & Hne).
  rewrite Hc in Hc'. injection Hc' as <-.
  destruct (validated_type data Hv) as (props & t & -> & _ & Ht & _).
  rewrite (handleMessage_routed _ _ _ _ Hv).
  assert (Herr : forall first rest,
             Forall (error_to ws)
               (Send ws (ERROR first None)
                :: (if send_throws env ws
                    then Send ws (ERROR rest None)
                         :: (if readyState s ws =? 1
                             then [Send ws (ERROR "Failed to process message"
                                              (Some (now env)))]
                             else [])
                    else []))).
  { intros first rest. constructor; [now exists first, None|].
    destruct (send_throws env ws); [|constructor].
    constructor; [now exists rest, None|].
    destruct (readyState s ws =? 1); repeat constructor.
    now exists "Failed to process message", (Some (now env)). }
  destruct (chat_type_cases _ Hk) as [Htext|[Hnot Hmedia]].
  - rewrite (route_text _ _ _ Htext). unfold MessageHandler.handleTextMessage.
    rewrite (blank_chat_run env ws props _ _ _ _ userId body s Hb Hc Hne Hblank).
    cbn [after effects result]. rewrite Htext. cbn [String.eqb Ascii.eqb Bool.eqb].
    split; [reflexivity|]. split; [reflexivity|]. split; [apply Herr|].
    eexists. split; [reflexivity|]. now intros ->.
  - rewrite (route_media _ _ _ Hmedia). unfold MessageHandler.handleMediaMessage.
    rewrite (blank_chat_run env ws props _ _ _ _ userId body s Hb Hc Hne Hblank).
    cbn [after effects result]. rewrite Hnot.
    split; [reflexivity|]. split; [reflexivity|]. split; [apply Herr|].
    eexists. split; [reflexivity|]. now intros ->.
Qed.

Lemma blank_content_rejected_witness :
  (MessageHandler.validateMessage
     (JObj [("type", JStr "TEXT"); ("content", JStr "   ")]) = None /\
   MessageHandler.bound (SessionManager.findUserIdByWs 1%nat (sessions (lobby [])))
   = Some "alice" /\
   blank "   " = true) /\
  after (WebSocketServer.handleMessage calm 1%nat
           (Some (JObj [("type", JStr "TEXT"); ("content", JStr "   ")])) (lobby []))
  = lobby [].
Proof.
  split; [repeat split|].
  exact (proj1 (blank_content_rejected calm 1%nat
                  (JObj [("type", JStr "TEXT"); ("content", JStr "   ")])
                  "alice" "   " (lobby []) eq_refl eq_refl eq_refl eq_refl eq_refl)).
Defined.

(** X12. Types outside the protocol. A frame whose type is a string other
    than LOGIN, TEXT, IMAGE, VIDEO, AUDIO and GET_HISTORY changes nothing
    on the server, whoever sends it and whatever else it carries. While
    the socket is open it is answered with one ERROR: the validator's
    "SYSTEM messages cannot be sent by clients" for SYSTEM (the
    dispatcher's own SYSTEM branch is never reached), and "Unknown message
    type: " followed by the type for every other one. *)
Theorem foreign_type_rejected env ws props t s :
  prop "type" (JObj props) = Some (JStr t) ->
  t <> "" ->
  String.eqb t "LOGIN" = false ->
  MessageHandler.is_chat_type t = false ->
  String.eqb t "GET_HISTORY" = false ->
  WebSocketServer.handleMessage env ws (Some (JObj props)) s =
  {| after := s;
     effects :=
       if readyState s ws =? 1
       then [Send ws (ERROR (if String.eqb t "SYSTEM"
                             then "SYSTEM messages cannot be sent by clients"
                             else ("Unknown message type: " ++ t)%string)
                        (Some (now env)))]
       else [];
     result := Returned tt |}.
Proof.
  intros Ht Hne Hl Hc Hg.
  assert (Hname : MessageHandler.type_name (JObj props) = t)
    by (unfold MessageHandler.type_name; now rewrite Ht).
  assert (Hv : MessageHandler.validateMessage (JObj props)
               = if String.eqb t "SYSTEM"
                 then Some "SYSTEM messages cannot be sent by clients" else None).
  { unfold MessageHandler.validateMessage. cbv zeta. rewrite Hname, Ht.
    unfold MessageHandler.is_string. cbn [truthy typeof negb orb String.eqb Ascii.eqb
                                          Bool.eqb].
    destruct (String.eqb_spec t "") as [E|_]; [contradiction|]. cbn [negb orb].
    now rewrite Hl, Hc, Hg. }
  destruct (String.eqb t "SYSTEM") eqn:Hs.
  - now apply handleMessage_malformed.
  - rewrite (handleMessage_routed _ _ _ _ Hv). apply try_returned.
    unfold WebSocketServer.route. cbv zeta. rewrite Hname, Hl, Hg, Hs.
    unfold MessageHandler.is_chat_type in Hc.
    destruct (String.eqb t "TEXT"); [discriminate Hc|]. cbn [orb] in Hc. rewrite Hc.
    apply sendErrorResponse_run.
Qed.

Lemma foreign_type_rejected_witness :
  (prop "type" (JObj [("type", JStr "SYSTEM"); ("content", JStr "bob left the chat")])
   = Some (JStr "SYSTEM") /\ "SYSTEM" <> "") /\
  effects (WebSocketServer.handleMessage calm 1%nat
             (Some (JObj [("type", JStr "SYSTEM"); ("content", JStr "bob left the chat")]))
             (lobby []))
  = [Send 1%nat (ERROR "SYSTEM messages cannot be sent by clients" (Some (now calm)))].
Proof.
  split; [split; [reflexivity|discriminate]|].
  now rewrite (foreign_type_rejected calm 1%nat
                 [("type", JStr "SYSTEM"); ("content", JStr "bob left the chat")]
                 "SYSTEM" (lobby []) eq_refl ltac:(discriminate) eq_refl eq_refl eq_refl).
Defined.
(** ** What a chat frame causes, exactly *)

Lemma sends_app l1 l2 : sends (l1 ++ l2) = sends l1 ++ sends l2.
Proof. apply flat_map_app. Qed.

Lemma saved_app l1 l2 : saved (l1 ++ l2) = saved l1 ++ saved l2.
Proof. apply flat_map_app. Qed.

Lemma sends_fanout message excludeWs s :
  sends (fanout message excludeWs s)
  = map (fun socket => (socket, Chat message)) (recipients excludeWs s).
Proof.
  unfold fanout. induction (recipients excludeWs s) as [|x l IH]; [reflexivity|].
  cbn [map sends flat_map app]. f_equal. exact IH.
Qed.

Lemma saved_fanout message excludeWs s : saved (fanout message excludeWs s) = [].
Proof.
  unfold fanout. induction (recipients excludeWs s) as [|x l IH]; [reflexivity|].
  exact IH.
Qed.

Lemma sends_persisting env message s : sends (persisting env message s) = [].
Proof. unfold persisting. now destruct (storageService s). Qed.

Lemma saved_persisting env message s :
  saved (persisting env message s)
  = match storageService s with
    | Some _ => [message]
    | None => []
    end.
Proof. unfold persisting. now destruct (storageService s). Qed.

(** X13. Delivery, exactly. A valid TEXT, IMAGE, VIDEO or AUDIO frame with
    content that is not blank, from a socket bound to [userId], makes the
    dispatcher return normally, whatever the store and the sockets do.
    The frames it hands out are exactly one copy of the composed message
    per registered session whose socket is open (for TEXT: and is not the
    sender's), in the order of registration, and nothing else; they do not
    depend on the store or on whether the save worked. The message carries
    the userId the registry holds for the socket, not anything the frame
    says about its sender, the frame's own type and its content as sent.
    The store is asked to save that message once when there is a store.
    In the registry only the sender's activity stamp changes. *)
Theorem chat_delivery_exact env ws data userId body s :
  MessageHandler.validateMessage data = None ->
  MessageHandler.is_chat_type (MessageHandler.type_name data) = true ->
  MessageHandler.bound (SessionManager.findUserIdByWs ws (sessions s)) = Some userId ->
  prop "content" data = Some (JStr body) ->
  blank body = false ->
  let run := WebSocketServer.handleMessage env ws (Some data) s in
  let message := MessageHandler.compose env (MessageHandler.type_name data)
                   userId data body in
  let excludeWs := if String.eqb (MessageHandler.type_name data) "TEXT"
                   then Some ws else None in
  result run = Returned tt /\
  sends (effects run)
  = map (fun socket => (socket, Chat message)) (recipients excludeWs s) /\
  saved (effects run) = match storageService s with
                        | Some _ => [message]
                        | None => []
                        end /\
  (senderId message = Some userId /\ type message = MessageHandler.type_name data /\
   content message = body) /\
  sessions (after run) = SessionManager.updateActivity env userId (sessions s) /\
  bindings (sessions (after run)) = bindings (sessions s) /\
  readyState (after run) = readyState s.
Proof.
  intros Hv Hk Hb Hc Hblank run message excludeWs.
  destruct (validated_type data Hv) as (props & t & -> & _ & Ht & _).
  assert (Hrun : run = {| after := persisted env message (touched env userId s);
                          effects := persisting env message (touched env userId s)
                                     ++ fanout message excludeWs s;
                          result := Returned tt |}).
  { subst run message excludeWs. rewrite (handleMessage_routed _ _ _ _ Hv).
    destruct (chat_type_cases _ Hk) as [Htext|[Hnot Hmedia]].
    - rewrite (route_text _ _ _ Htext). unfold MessageHandler.handleTextMessage.
      rewrite Htext. cbn [String.eqb Ascii.eqb Bool.eqb].
      apply try_returned. now apply deliver_run.
    - rewrite (route_media _ _ _ Hmedia). unfold MessageHandler.handleMediaMessage.
      rewrite Hnot. apply try_returned. now apply deliver_run. }
  rewrite Hrun. cbn [after effects result].
  split; [reflexivity|]. split; [|split; [|split; [|split; [|split]]]].
  - now rewrite sends_app, sends_persisting, sends_fanout.
  - rewrite saved_app, saved_persisting, saved_fanout, app_nil_r. reflexivity.
  - repeat split.
  - now rewrite persisted_sessions.
  - rewrite persisted_sessions. apply bindings_updateActivity.
  - now rewrite persisted_readyState.
Qed.

Lemma chat_delivery_exact_witness :
  (MessageHandler.validateMessage photo = None /\
   MessageHandler.bound (SessionManager.findUserIdByWs 1%nat (sessions (lobby [])))
   = Some "alice" /\
   blank "data:image/png;base64,AAAA" = false) /\
  sends (effects (WebSocketServer.handleMessage readonly 1%nat (Some photo) (lobby [])))
  = [(1%nat, Chat (MessageHandler.compose readonly "IMAGE" "alice" photo
                     "data:image/png;base64,AAAA"));
     (2%nat, Chat (MessageHandler.compose readonly "IMAGE" "alice" photo
                     "data:image/png;base64,AAAA"))].
Proof.
  split; [repeat split|].
  exact (proj1 (proj2 (chat_delivery_exact readonly 1%nat photo "alice"
                         "data:image/png;base64,AAAA" (lobby [])
                         eq_refl eq_refl eq_refl eq_refl eq_refl))).
Defined.

(** ** What no frame but a LOGIN does *)

Lemma steady_ret {A : Type} (a : A) : steady (ret a).
Proof. intros s. now split. Qed.

Lemma steady_throw {A : Type} e : steady (@throw A e).
Proof. intros s. now split. Qed.

Lemma steady_bind {A B : Type} (m : M A) (k : A -> M B) :
  steady m -> (forall a, steady (k a)) -> steady (bind m k).
Proof.
  intros Hm Hk s. unfold bind. destruct (Hm s) as [Hb Hr].
  destruct (result (m s)) as [a|e]; cbn [after]; [|now split].
  destruct (Hk a (after (m s))) as [Hb' Hr']. split; congruence.
Qed.

Lemma steady_try {A : Type} (m : M A) handler :
  steady m -> (forall e, steady (handler e)) -> steady (try_catch m handler).
Proof.
  intros Hm Hh s. unfold try_catch. destruct (Hm s) as [Hb Hr].
  destruct (result (m s)) as [a|e]; cbn [after]; [now split|].
  destruct (Hh e (after (m s))) as [Hb' Hr']. split; congruence.
Qed.

Lemma steady_emit e : steady (emit e).
Proof. intros s. now split. Qed.

Lemma steady_send env ws frame : steady (send env ws frame).
Proof. intros s. rewrite send_run. now split. Qed.

Lemma steady_getReadyState ws : steady (getReadyState ws).
Proof. intros s. now split. Qed.

Lemma steady_findUserIdByWs ws : steady (findUserIdByWs ws).
Proof. intros s. now split. Qed.

Lemma steady_hasStorage : steady hasStorage.
Proof. intros s. now split. Qed.

Lemma steady_updateActivity env userId : steady (updateActivity env userId).
Proof.
  intros s. rewrite updateActivity_run. cbn [after touched sessions readyState].
  split; [apply bindings_updateActivity|reflexivity].
Qed.

Lemma steady_saveMessage env message : steady (saveMessage env message).
Proof. intros s. unfold saveMessage. now destruct (storageService s). Qed.

Lemma steady_getMessagesBefore env messageId limit :
  steady (getMessagesBefore env messageId limit).
Proof. intros s. unfold getMessagesBefore. now destruct (storageService s). Qed.

Lemma steady_missing_or_blank x : steady (missing_or_blank x).
Proof.
  unfold missing_or_blank. destruct (negb (truthy x)); [apply steady_ret|].
  destruct x as [[| | |str| |]|]; (apply steady_ret || apply steady_throw).
Qed.

Lemma steady_member name data : steady (member name data).
Proof. destruct data; (apply steady_ret || apply steady_throw). Qed.

Lemma steady_broadcast env message excludeWs :
  steady (WebSocketServer.broadcast env message excludeWs).
Proof. intros s. rewrite broadcast_run. now split. Qed.

Lemma steady_sendErrorResponse env ws text :
  steady (WebSocketServer.sendErrorResponse env ws text).
Proof. intros s. rewrite sendErrorResponse_run. now split. Qed.

Lemma steady_persist env message : steady (MessageHandler.persist env message).
Proof. intros s. rewrite persist_run. cbn [after].
  now rewrite persisted_sessions, persisted_readyState. Qed.

Ltac hold :=
  repeat first
    [ apply steady_ret | apply steady_throw | apply steady_emit | apply steady_send
    | apply steady_getReadyState | apply steady_findUserIdByWs | apply steady_hasStorage
    | apply steady_updateActivity | apply steady_saveMessage
    | apply steady_getMessagesBefore | apply steady_missing_or_blank
    | apply steady_member | apply steady_broadcast | apply steady_persist
    | apply steady_sendErrorResponse
    | apply steady_bind; [|intros ?]
    | apply steady_try; [|intros ?]
    | progress cbv zeta
    | match goal with
      | |- steady (if ?c then _ else _) => destruct c
      | |- steady (match ?x with _ => _ end) => destruct x
      end ].

Lemma steady_deliver env ws data kind emptyError failure excludeWs :
  steady (MessageHandler.deliver WebSocketServer.broadcast env ws data
            kind emptyError failure excludeWs).
Proof. unfold MessageHandler.deliver. hold. Qed.

Lemma steady_handleGetHistory env ws data :
  steady (MessageHandler.handleGetHistory env ws data).
Proof. unfold MessageHandler.handleGetHistory. hold. Qed.

(** X14. Only a LOGIN registers. Whatever arrives on a socket that is not
    a frame of type LOGIN (text that is not JSON, a frame the validator
    turns down, a chat message, a history request, a type the server does
    not know), from a bound socket or not, with sends and saves that work
    or throw: afterwards the same users are registered, each on the socket
    and with the connection time it had, in the same order, and no
    socket's state has changed. So such a frame changes whom no socket
    speaks for and who receives the next broadcast. *)
Theorem only_login_registers env ws data s :
  is_login data = false ->
  let s' := after (WebSocketServer.handleMessage env ws data s) in
  bindings (sessions s') = bindings (sessions s) /\
  readyState s' = readyState s /\
  (forall socket,
     SessionManager.findUserIdByWs socket (sessions s')
     = SessionManager.findUserIdByWs socket (sessions s)) /\
  (forall excludeWs, recipients excludeWs s' = recipients excludeWs s).
Proof.
  intros Hl s'.
  assert (H : steady (WebSocketServer.handleMessage env ws data)).
  { unfold WebSocketServer.handleMessage.
    apply steady_try; [|intros _; apply steady_sendErrorResponse].
    destruct data as [message|]; [|apply steady_sendErrorResponse].
    destruct (MessageHandler.validateMessage message);
      [apply steady_sendErrorResponse|].
    cbn [is_login] in Hl. unfold WebSocketServer.route. cbv zeta. rewrite Hl.
    unfold MessageHandler.handleTextMessage, MessageHandler.handleMediaMessage.
    repeat match goal with
           | |- steady (if ?c then _ else _) => destruct c
           end;
      first [ apply steady_deliver | apply steady_handleGetHistory
            | apply steady_sendErrorResponse ]. }
  destruct (H s) as [Hb Hr]. fold s' in Hb, Hr.
  assert (Hws : map SessionManager.ws (SessionManager.getAllSessions (sessions s'))
                = map SessionManager.ws (SessionManager.getAllSessions (sessions s))).
  { unfold SessionManager.getAllSessions. rewrite !map_map.
    apply (f_equal (map (fun b => snd (fst (snd b))))) in Hb.
    unfold bindings in Hb. now rewrite !map_map in Hb. }
  split; [exact Hb|]. split; [exact Hr|]. split.
  - intros socket. clear - Hb. revert Hb. generalize (sessions s'), (sessions s).
    intros m1. induction m1 as [|[k1 x1] m1 IH]; intros [|[k2 x2] m2] Hb;
      try discriminate Hb; [reflexivity|].
    cbn [bindings map fst snd] in Hb. injection Hb as Hk _ Hw _ Hrest.
    cbn [SessionManager.findUserIdByWs]. rewrite Hk, Hw.
    destruct (Nat.eqb (SessionManager.ws x2) socket); [reflexivity|].
    now apply IH.
  - intros excludeWs. now apply recipients_sockets.
Qed.

Lemma only_login_registers_witness :
  is_login (Some hello) = false /\
  bindings (sessions (after (WebSocketServer.handleMessage readonly 1%nat (Some hello)
                               (lobby []))))
  = bindings (sessions (lobby [])).
Proof.
  split; [reflexivity|].
  exact (proj1 (only_login_registers readonly 1%nat (Some hello) (lobby []) eq_refl)).
Defined.
(** ** The stored history only grows *)

Lemma records_ret {A : Type} (a : A) : records (ret a).
Proof.
  intros s fs Hst Hi. exists fs. cbn. now rewrite app_nil_r.
Qed.

Lemma records_throw {A : Type} e : records (@throw A e).
Proof.
  intros s fs Hst Hi. exists fs. cbn. now rewrite app_nil_r.
Qed.

Lemma records_quiet {A : Type} (m : M A) :
  (forall s, storageService (after (m s)) = storageService s /\ saved (effects (m s)) = []) ->
  records m.
Proof.
  intros H s fs Hst Hi. destruct (H s) as [Hs He]. exists fs.
  rewrite Hs, He, app_nil_r. now repeat split.
Qed.

Lemma records_bind {A B : Type} (m : M A) (k : A -> M B) :
  records m -> (forall a, records (k a)) -> records (bind m k).
Proof.
  intros Hm Hk s fs Hst Hi. unfold bind.
  destruct (Hm s fs Hst Hi) as (fs1 & Hst1 & Hi1 & Hm1).
  destruct (result (m s)) as [a|e]; cbn [after effects].
  - destruct (Hk a (after (m s)) fs1 Hst1 Hi1) as (fs2 & Hst2 & Hi2 & Hm2).
    exists fs2. repeat split; [assumption|assumption|].
    now rewrite Hm2, Hm1, saved_app, app_assoc.
  - exists fs1. now repeat split.
Qed.

Lemma records_try {A : Type} (m : M A) handler :
  records m -> (forall e, records (handler e)) -> records (try_catch m handler).
Proof.
  intros Hm Hh s fs Hst Hi. unfold try_catch.
  destruct (Hm s fs Hst Hi) as (fs1 & Hst1 & Hi1 & Hm1).
  destruct (result (m s)) as [a|e]; cbn [after effects].
  - exists fs1. now repeat split.
  - destruct (Hh e (after (m s)) fs1 Hst1 Hi1) as (fs2 & Hst2 & Hi2 & Hm2).
    exists fs2. repeat split; [assumption|assumption|].
    now rewrite Hm2, Hm1, saved_app, app_assoc.
Qed.

Lemma records_send env ws frame : records (send env ws frame).
Proof. apply records_quiet. intros s. rewrite send_run. now split. Qed.

Lemma records_getReadyState ws : records (getReadyState ws).
Proof. apply records_quiet. intros s. now split. Qed.

Lemma records_findUserIdByWs ws : records (findUserIdByWs ws).
Proof. apply records_quiet. intros s. now split. Qed.

Lemma records_hasStorage : records hasStorage.
Proof. apply records_quiet. intros s. now split. Qed.

Lemma records_createSession env userId ws : records (createSession env userId ws).
Proof. apply records_quiet. intros s. now split. Qed.

Lemma records_updateActivity env userId : records (updateActivity env userId).
Proof. apply records_quiet. intros s. now split. Qed.

Lemma records_removeSession userId : records (removeSession userId).
Proof. apply records_quiet. intros s. now split. Qed.

Lemma records_broadcast env message excludeWs :
  records (WebSocketServer.broadcast env message excludeWs).
Proof.
  apply records_quiet. intros s. rewrite broadcast_run. cbn [after effects].
  split; [reflexivity|apply saved_fanout].
Qed.

Lemma records_sendErrorResponse env ws text :
  records (WebSocketServer.sendErrorResponse env ws text).
Proof.
  apply records_quiet. intros s. rewrite sendErrorResponse_run. cbn [after effects].
  split; [reflexivity|]. now destruct (readyState s ws =? 1).
Qed.

Lemma records_saveMessage env message : records (saveMessage env message).
Proof.
  intros s fs Hst Hi. unfold saveMessage. rewrite Hst.
  cbn [after effects storageService storage_saveMessage].
  destruct (StorageService.saveMessage env message fs) as [fs' r] eqn:E.
  cbn [fst snd]. exists fs'. split; [reflexivity|].
  replace fs' with (fst (StorageService.saveMessage env message fs)) by now rewrite E.
  split; [apply saveMessage_initialized|].
  rewrite saveMessage_messages, ensure_initialized_idle by assumption. reflexivity.
Qed.

Lemma records_getMessagesBefore env messageId limit :
  records (getMessagesBefore env messageId limit).
Proof.
  intros s fs Hst Hi. unfold getMessagesBefore. rewrite Hst.
  cbn [after effects storageService storage_getMessagesBefore].
  destruct (StorageService.getMessagesBefore env messageId (Some limit) fs)
    as [fs' r] eqn:E.
  cbn [fst snd saved flat_map app]. exists fs'. split; [reflexivity|].
  assert (fs' = fs) as ->.
  { unfold StorageService.getMessagesBefore in E. cbv zeta in E.
    rewrite ensure_initialized_idle in E by assumption.
    destruct (findIndex (has_id messageId) (StorageService.messages fs) =? -1);
      now injection E. }
  split; [assumption|now rewrite app_nil_r].
Qed.

Lemma records_missing_or_blank x : records (missing_or_blank x).
Proof.
  unfold missing_or_blank. destruct (negb (truthy x)); [apply records_ret|].
  destruct x as [[| | |str| |]|]; (apply records_ret || apply records_throw).
Qed.

Lemma records_member name data : records (member name data).
Proof. destruct data; (apply records_ret || apply records_throw). Qed.

Ltac grow :=
  repeat first
    [ apply records_ret | apply records_throw | apply records_send
    | apply records_getReadyState | apply records_findUserIdByWs
    | apply records_hasStorage | apply records_createSession
    | apply records_updateActivity | apply records_removeSession
    | apply records_saveMessage | apply records_getMessagesBefore
    | apply records_missing_or_blank | apply records_member
    | apply records_broadcast | apply records_sendErrorResponse
    | apply records_bind; [|intros ?]
    | apply records_try; [|intros ?]
    | progress cbv zeta
    | match goal with
      | |- records (if ?c then _ else _) => destruct c
      | |- records (match ?x with _ => _ end) => destruct x
      end ].

Lemma records_handleLogin env ws data :
  records (MessageHandler.handleLogin WebSocketServer.broadcast env ws data).
Proof.
  unfold MessageHandler.handleLogin, MessageHandler.login,
    MessageHandler.recent_history, MessageHandler.persist. grow.
Qed.

Lemma records_deliver env ws data kind emptyError failure excludeWs :
  records (MessageHandler.deliver WebSocketServer.broadcast env ws data
             kind emptyError failure excludeWs).
Proof. unfold MessageHandler.deliver, MessageHandler.persist. grow. Qed.

Lemma records_handleGetHistory env ws data :
  records (MessageHandler.handleGetHistory env ws data).
Proof. unfold MessageHandler.handleGetHistory. grow. Qed.

Lemma records_handleMessage env ws data :
  records (WebSocketServer.handleMessage env ws data).
Proof.
  unfold WebSocketServer.handleMessage, WebSocketServer.route,
    MessageHandler.handleTextMessage, MessageHandler.handleMediaMessage.
  apply records_try; [|intros _; apply records_sendErrorResponse].
  destruct data as [message|]; [|apply records_sendErrorResponse].
  destruct (MessageHandler.validateMessage message);
    [apply records_sendErrorResponse|].
  cbv zeta.
  repeat match goal with
         | |- records (if ?c then _ else _) => destruct c
         end;
    first [ apply records_handleLogin | apply records_deliver
          | apply records_handleGetHistory | apply records_sendErrorResponse ].
Qed.

Lemma records_handleClose env ws : records (WebSocketServer.handleClose env ws).
Proof.
  unfold WebSocketServer.handleClose, MessageHandler.persist. grow.
Qed.

Lemma records_react e : records (WebSocketServer.react e).
Proof.
  destruct e as [env ws data|env ws]; cbn [WebSocketServer.react].
  - apply records_handleMessage.
  - intros s fs Hst Hi.
    exact (records_handleClose env ws (WebSocketServer.closed ws s) fs Hst Hi).
Qed.

(** X15. The stored history only grows. On a server whose file-backed
    store has loaded its file, after any sequence of incoming payloads and
    disconnects the store holds in memory the messages it held at the
    start, in their order, followed by exactly the messages the handlers
    asked it to save, in the order they asked, whether or not the file
    writes succeeded: nothing stored is ever dropped, replaced or moved. *)
Theorem history_append_only events : forall s fs,
  storageService s = Some (FileBacked fs) ->
  StorageService.initialized fs = true ->
  exists fs',
    storageService (WebSocketServer.run events s) = Some (FileBacked fs') /\
    StorageService.initialized fs' = true /\
    StorageService.messages fs'
    = StorageService.messages fs ++ saved (transcript events s).
Proof.
  induction events as [|e rest IH]; intros s fs Hst Hi.
  - exists fs. cbn. now rewrite app_nil_r.
  - destruct (records_react e s fs Hst Hi) as (fs1 & Hst1 & Hi1 & Hm1).
    destruct (IH (WebSocketServer.step s e) fs1 Hst1 Hi1) as (fs2 & Hst2 & Hi2 & Hm2).
    exists fs2. cbn [WebSocketServer.run fold_left transcript].
    split; [exact Hst2|]. split; [exact Hi2|].
    now rewrite Hm2, Hm1, saved_app, app_assoc.
Qed.

Lemma history_append_only_witness :
  (storageService (lobby [m1]) = Some (FileBacked (holding [m1])) /\
   StorageService.initialized (holding [m1]) = true) /\
  match storageService
          (WebSocketServer.run
             [WebSocketServer.Incoming readonly 1%nat (Some hello);
              WebSocketServer.Close calm 2%nat] (lobby [m1])) with
  | Some (FileBacked fs') =>
      StorageService.messages fs'
      = [m1; MessageHandler.compose readonly "TEXT" "alice" hello "hello";
         WebSocketServer.left calm "bob"]
  | _ => False
  end.
Proof.
  split; [split; reflexivity|].
  destruct (history_append_only
              [WebSocketServer.Incoming readonly 1%nat (Some hello);
               WebSocketServer.Close calm 2%nat]
              (lobby [m1]) (holding [m1]) eq_refl eq_refl)
    as (fs' & Hst & _ & Hm).
  rewrite Hst, Hm. reflexivity.
Defined.
(** ** Disconnects *)

Lemma removeSession_run userId s :
  removeSession userId s
  = {| after := departed userId s; effects := []; result := Returned tt |}.
Proof. reflexivity. Qed.

Lemma handleClose_run env ws s :
  WebSocketServer.handleClose env ws s =
  match MessageHandler.bound (SessionManager.findUserIdByWs ws (sessions s)) with
  | None => {| after := s; effects := []; result := Returned tt |}
  | Some userId =>
      {| after := persisted env (WebSocketServer.left env userId) (departed userId s);
         effects := persisting env (WebSocketServer.left env userId) (departed userId s)
                    ++ fanout (WebSocketServer.left env userId) None (departed userId s);
         result := Returned tt |}
  end.
Proof.
  unfold WebSocketServer.handleClose.
  rewrite (bind_pure _ _ s _ (findUserIdByWs_run ws s)).
  destruct (MessageHandler.bound (SessionManager.findUserIdByWs ws (sessions s)))
    as [userId|]; [|reflexivity].
  rewrite (bind_returned _ _ s _ _ tt (removeSession_run userId s)).
  rewrite (bind_returned _ _ _ _ _ tt (persist_run env _ _)).
  rewrite broadcast_run. cbn [after effects result app].
  assert (F : fanout (WebSocketServer.left env userId) None
                (persisted env (WebSocketServer.left env userId) (departed userId s))
              = fanout (WebSocketServer.left env userId) None (departed userId s)).
  { unfold fanout. f_equal. apply recipients_sockets.
    - apply persisted_readyState.
    - now rewrite persisted_sessions. }
  now rewrite F.
Qed.

(** A socket that is not open is handed nothing by a broadcast. *)
Lemma frames_to_not_open ws message excludeWs s :
  readyState s ws <> 1 ->
  frames_to ws (fanout message excludeWs s) = [].
Proof.
  intros Hc. unfold fanout, recipients.
  induction (SessionManager.getAllSessions (sessions s)) as [|x l IH]; [reflexivity|].
  cbn [filter]. destruct (reached excludeWs s x) eqn:R; [|exact IH].
  cbn [map frames_to flat_map].
  destruct (Nat.eqb_spec (SessionManager.ws x) ws) as [E|_]; [|exact IH].
  exfalso. unfold reached in R. apply andb_true_iff in R. destruct R as [_ R].
  apply Z.eqb_eq in R. rewrite E in R. contradiction.
Qed.

(** X16. A disconnect. When a socket closes, [handleClose] never throws.
    If the socket spoke for nobody, nothing happens. If it spoke for
    [userId], that user's session is removed and no other; the store, when
    there is one, is asked once to save the notice that the user left; and
    exactly one copy of that notice is handed to every session that is
    still registered on an open socket, in the order of registration, and
    nothing else is sent. The closed socket itself is handed nothing. *)
Theorem close_notifies_others env ws s :
  let run := WebSocketServer.react (WebSocketServer.Close env ws) s in
  result run = Returned tt /\
  readyState (after run) = readyState (WebSocketServer.closed ws s) /\
  readyState (after run) ws = 3 /\
  frames_to ws (effects run) = [] /\
  match MessageHandler.bound (SessionManager.findUserIdByWs ws (sessions s)) with
  | None => after run = WebSocketServer.closed ws s /\ effects run = []
  | Some userId =>
      sessions (after run) = SessionManager.removeSession userId (sessions s) /\
      sends (effects run)
      = map (fun socket => (socket, Chat (WebSocketServer.left env userId)))
          (recipients None (departed userId (WebSocketServer.closed ws s))) /\
      saved (effects run) = match storageService s with
                            | Some _ => [WebSocketServer.left env userId]
                            | None => []
                            end
  end.
Proof.
  intros run. subst run. cbn [WebSocketServer.react].
  rewrite handleClose_run. cbn [WebSocketServer.closed sessions].
  assert (Hclosed : readyState (WebSocketServer.closed ws s) ws = 3)
    by (cbn; now rewrite Nat.eqb_refl).
  destruct (MessageHandler.bound (SessionManager.findUserIdByWs ws (sessions s)))
    as [userId|]; cbn [after effects result].
  - rewrite persisted_readyState. cbn [departed readyState].
    split; [reflexivity|]. split; [reflexivity|]. split; [exact Hclosed|]. split.
    + rewrite frames_to_app, frames_to_persisting.
      apply frames_to_not_open. cbn [departed readyState]. rewrite Hclosed. discriminate.
    + split; [now rewrite persisted_sessions|]. split.
      * now rewrite sends_app, sends_persisting, sends_fanout.
      * rewrite saved_app, saved_persisting, saved_fanout, app_nil_r. reflexivity.
  - split; [reflexivity|]. split; [reflexivity|]. split; [exact Hclosed|].
    split; [reflexivity|]. now split.
Qed.

Lemma close_notifies_others_witness :
  MessageHandler.bound (SessionManager.findUserIdByWs 2%nat (sessions (lobby [])))
  = Some "bob" /\
  sends (effects (WebSocketServer.react (WebSocketServer.Close calm 2%nat) (lobby [])))
  = [(1%nat, Chat (WebSocketServer.left calm "bob"))].
Proof.
  split; [reflexivity|].
  destruct (close_notifies_others calm 2%nat (lobby [])) as (_ & _ & _ & _ & H).
  exact (proj1 (proj2 H)).
Defined.

(** ** Logging in and out *)

(** A LOGIN whose userId is not blank registers the session, whether or
    not the socket's send works. *)
Lemma login_registers env ws props u s :
  prop "type" (JObj props) = Some (JStr "LOGIN") ->
  prop "userId" (JObj props) = Some (JStr u) ->
  blank u = false ->
  sessions (after (WebSocketServer.handleMessage env ws (Some (JObj props)) s))
  = SessionManager.createSession env u ws (sessions s) /\
  readyState (after (WebSocketServer.handleMessage env ws (Some (JObj props)) s))
  = readyState s.
Proof.
  intros Ht Hu Hblank. destruct (send_throws env ws) eqn:Hsend.
  - rewrite (handleMessage_login_throwing env ws props u s Ht Hu Hblank Hsend).
    now split.
  - rewrite (handleMessage_login env ws props u s Ht Hu Hblank Hsend).
    rewrite (login_run env ws u s Hsend). cbn [after].
    now rewrite persisted_sessions, greeted_sessions, persisted_readyState,
      greeted_readyState.
Qed.

Lemma findUserIdByWs_removed socket key m :
  SessionManager.findUserIdByWs socket m = None ->
  SessionManager.findUserIdByWs socket (SessionManager.removeSession key m) = None.
Proof.
  rewrite !findUserIdByWs_none. intros H entry Hin.
  apply filter_In in Hin. now apply H.
Qed.

Lemma bound_named u : u <> "" -> MessageHandler.bound (Some u) = Some u.
Proof.
  intros H. cbn. destruct (String.eqb_spec u ""); [contradiction|reflexivity].
Qed.

(** X17. Logging in and leaving. On a socket that speaks for nobody, a
    LOGIN whose userId is not blank followed by the close of the socket
    leaves the registry without that user and without any session on that
    socket, and every other user where it was. When the user had no
    session before, the registry is back as it was before the login,
    entries and order; when the user was logged in on another socket, that
    earlier session is gone as well. *)
Theorem login_then_close env env' ws props u s :
  prop "type" (JObj props) = Some (JStr "LOGIN") ->
  prop "userId" (JObj props) = Some (JStr u) ->
  blank u = false ->
  SessionManager.findUserIdByWs ws (sessions s) = None ->
  let s' := WebSocketServer.run
              [WebSocketServer.Incoming env ws (Some (JObj props));
               WebSocketServer.Close env' ws] s in
  sessions s' = SessionManager.removeSession u (sessions s) /\
  SessionManager.getSession u (sessions s') = None /\
  SessionManager.findUserIdByWs ws (sessions s') = None /\
  (forall other, other <> u ->
     SessionManager.getSession other (sessions s')
     = SessionManager.getSession other (sessions s)) /\
  (SessionManager.getSession u (sessions s) = None -> sessions s' = sessions s).
Proof.
  intros Ht Hu Hblank Hfree s'.
  assert (Hne : u <> "") by (intros ->; discriminate Hblank).
  assert (Hs : sessions s' = SessionManager.removeSession u (sessions s)).
  { subst s'. cbn [WebSocketServer.run fold_left].
    unfold WebSocketServer.step. cbn [WebSocketServer.react].
    destruct (login_registers env ws props u s Ht Hu Hblank) as [Hin _].
    set (s1 := after (WebSocketServer.handleMessage env ws (Some (JObj props)) s)) in *.
    rewrite handleClose_run.
    change (sessions (WebSocketServer.closed ws s1)) with (sessions s1).
    rewrite Hin, (findUserIdByWs_created env u ws _ Hfree), (bound_named u Hne).
    cbn [after]. rewrite persisted_sessions.
    change (sessions (departed u (WebSocketServer.closed ws s1)))
      with (SessionManager.removeSession u (sessions s1)).
    rewrite Hin. unfold SessionManager.createSession. apply removeSession_set. }
  rewrite Hs.
  split; [reflexivity|]. split; [apply getSession_removed|].
  split; [now apply findUserIdByWs_removed|].
  split; [intros other Hother; now apply getSession_remove_other|].
  apply removeSession_absent.
Qed.

Lemma login_then_close_witness :
  (prop "type" (login_as "carol") = Some (JStr "LOGIN") /\
   prop "userId" (login_as "carol") = Some (JStr "carol") /\
   blank "carol" = false /\
   SessionManager.findUserIdByWs 3%nat (sessions (lobby [])) = None) /\
  sessions (WebSocketServer.run
              [WebSocketServer.Incoming calm 3%nat (Some (login_as "carol"));
               WebSocketServer.Close calm 3%nat] (lobby []))
  = sessions (lobby []).
Proof.
  split; [repeat split|].
  exact (proj2 (proj2 (proj2 (proj2
           (login_then_close calm calm 3%nat
              [("type", JStr "LOGIN"); ("userId", JStr "carol")] "carol" (lobby [])
              eq_refl eq_refl eq_refl eq_refl)))) eq_refl).
Defined.
Lemma bound_none found :
  found = None -> MessageHandler.bound found = None.
Proof. now intros ->. Qed.

(** X18. A login elsewhere takes the user over. On a server whose registry
    is keyed by user, let a socket [old] speak for [u] and for no other
    user, and let a LOGIN for [u] with a userId that is not blank arrive on
    another socket. The old socket is not closed, but it now speaks for
    nobody: every chat message and history request it sends from then on
    is answered with "Not authenticated" (and with nothing else when its
    send works) and changes nothing on the server. *)
Theorem relogin_elsewhere_unbinds env old new props u s :
  well_keyed (sessions s) ->
  old <> new ->
  prop "type" (JObj props) = Some (JStr "LOGIN") ->
  prop "userId" (JObj props) = Some (JStr u) ->
  blank u = false ->
  (forall entry, In entry (sessions s) ->
     SessionManager.ws (snd entry) = old -> fst entry = u) ->
  let s1 := WebSocketServer.step s
              (WebSocketServer.Incoming env new (Some (JObj props))) in
  readyState s1 old = readyState s old /\
  SessionManager.findUserIdByWs old (sessions s1) = None /\
  forall env' data,
    MessageHandler.validateMessage data = None ->
    MessageHandler.is_chat_type (MessageHandler.type_name data) = true
    \/ MessageHandler.type_name data = "GET_HISTORY" ->
    let run := WebSocketServer.handleMessage env' old (Some data) s1 in
    after run = s1 /\
    result run = Returned tt /\
    exists more,
      effects run = Send old (ERROR "Not authenticated" None) :: more /\
      (send_throws env' old = false -> more = []).
Proof.
  intros Hwk Hne Ht Hu Hblank Honly s1.
  destruct (login_registers env new props u s Ht Hu Hblank) as [Hs Hr].
  change (after (WebSocketServer.handleMessage env new (Some (JObj props)) s))
    with s1 in Hs, Hr.
  assert (Hfree : SessionManager.findUserIdByWs old (sessions s1) = None).
  { rewrite Hs. now apply (createSession_unbinds env u old new (sessions s) Hwk Hne). }
  split; [now rewrite Hr|]. split; [exact Hfree|].
  intros env' data Hv Hkind run. subst run.
  pose proof (bound_none _ Hfree) as Hb.
  rewrite (handleMessage_routed _ _ _ _ Hv).
  destruct Hkind as [Hk|Hh].
  - destruct (chat_type_cases _ Hk) as [Htext|[_ Hmedia]].
    + rewrite (route_text _ _ _ Htext). unfold MessageHandler.handleTextMessage.
      rewrite (unbound_chat_run _ _ _ _ _ _ _ _ Hb). cbn [after effects result].
      split; [reflexivity|]. split; [reflexivity|].
      eexists. split; [reflexivity|]. now intros ->.
    + rewrite (route_media _ _ _ Hmedia). unfold MessageHandler.handleMediaMessage.
      rewrite (unbound_chat_run _ _ _ _ _ _ _ _ Hb). cbn [after effects result].
      split; [reflexivity|]. split; [reflexivity|].
      eexists. split; [reflexivity|]. now intros ->.
  - rewrite (route_history _ _ _ Hh).
    rewrite (unbound_history_run _ _ _ _ Hb). cbn [after effects result].
    split; [reflexivity|]. split; [reflexivity|].
    eexists. split; [reflexivity|]. now intros ->.
Qed.

Lemma relogin_elsewhere_unbinds_witness :
  (well_keyed (sessions (lobby [])) /\ 1%nat <> 3%nat /\
   prop "type" (login_as "alice") = Some (JStr "LOGIN") /\
   prop "userId" (login_as "alice") = Some (JStr "alice") /\
   blank "alice" = false /\
   MessageHandler.validateMessage hello = None) /\
  SessionManager.findUserIdByWs 1%nat (sessions (lobby [])) = Some "alice" /\
  effects (WebSocketServer.handleMessage calm 1%nat (Some hello)
             (WebSocketServer.step (lobby [])
                (WebSocketServer.Incoming calm 3%nat (Some (login_as "alice")))))
  = [Send 1%nat (ERROR "Not authenticated" None)].
Proof.
  assert (Hwk : well_keyed (sessions (lobby []))).
  { split.
    - cbn. repeat constructor; cbn; intuition discriminate.
    - repeat constructor. }
  split; [repeat split; [exact (proj1 Hwk)|exact (proj2 Hwk)|discriminate]|].
  split; [reflexivity|].
  destruct (relogin_elsewhere_unbinds calm 1%nat 3%nat
              [("type", JStr "LOGIN"); ("userId", JStr "alice")] "alice" (lobby [])
              Hwk ltac:(discriminate) eq_refl eq_refl eq_refl) as (_ & _ & H).
  - intros entry [<-|[<-|[]]]; cbn; [reflexivity|discriminate].
  - destruct (H calm hello eq_refl (or_introl eq_refl)) as (_ & _ & more & He & Hm).
    change (WebSocketServer.handleMessage calm 1%nat (Some hello)
              (WebSocketServer.step (lobby [])
                 (WebSocketServer.Incoming calm 3%nat (Some (login_as "alice")))))
      with (WebSocketServer.handleMessage calm 1%nat (Some hello)
              (WebSocketServer.step (lobby [])
                 (WebSocketServer.Incoming calm 3%nat
                    (Some (JObj [("type", JStr "LOGIN"); ("userId", JStr "alice")]))))).
    rewrite He, (Hm eq_refl). reflexivity.
Defined.
(** ** The queue drains *)

(** X19. On one socket, after any arrivals, fulfilled settlements, close
    and failure: once as many awaited handlings are fulfilled as there
    are payloads under way and queued, the suspended call of
    [processMessageQueue] has left with the flag reset and nothing queued,
    no further call having set the flag. It has ended the handling that
    was under way and begun and ended, in order, each payload that was
    queued, those still queued when the socket was dropped from
    [messageQueues] included; so every accepted payload has been handled
    once, in the order of acceptance. A payload that arrives after the
    socket was dropped changes nothing. *)
Theorem drain_completes turns :
  MessageQueues.fulfilled turns = true ->
  let c := MessageQueues.play turns MessageQueues.handleConnection in
  let c' := MessageQueues.play
              (MessageQueues.settlements
                 (List.length (MessageQueues.drains c)
                  + List.length (MessageQueues.queue (MessageQueues.queueInfo c))))
              c in
  MessageQueues.queueInfo c'
  = {| MessageQueues.queue := []; MessageQueues.processing := false |} /\
  MessageQueues.drains c' = [] /\
  MessageQueues.started c' = MessageQueues.started c /\
  MessageQueues.listed c' = MessageQueues.listed c /\
  MessageQueues.marks c'
  = MessageQueues.marks c
    ++ match MessageQueues.drains c with
       | (drain, under) :: _ =>
           MessageQueues.Ended under (Returned tt)
           :: MessageQueues.handled drain (MessageQueues.queue (MessageQueues.queueInfo c))
       | [] => []
       end /\
  MessageQueues.begun (MessageQueues.marks c') = MessageQueues.accepted turns /\
  MessageQueues.settled (MessageQueues.marks c') = MessageQueues.accepted turns /\
  (MessageQueues.hung turns = true ->
   forall data, MessageQueues.turn c' (MessageQueues.Message data) = c').
Proof.
  intros Hf c.
  pose proof (play_in_order turns) as Hinv. fold c in Hinv.
  destruct (MessageQueues.processing (MessageQueues.queueInfo c)) eqn:Hon.
  - destruct (busy_shape turns c Hinv Hon) as (under & Hc).
    destruct Hinv as (Hli & _ & _ & _ & Hacc & Hset & _ & _).
    revert Hli Hacc Hset. rewrite Hc. queue_fields. intros Hli Hacc Hset.
    rewrite drain_run. queue_fields.
    rewrite queue_begun_app, queue_settled_app.
    cbn [MessageQueues.begun MessageQueues.settled flat_map app].
    fold (MessageQueues.begun (MessageQueues.handled (MessageQueues.started c)
                                 (MessageQueues.queue (MessageQueues.queueInfo c)))).
    fold (MessageQueues.settled (MessageQueues.handled (MessageQueues.started c)
                                   (MessageQueues.queue (MessageQueues.queueInfo c)))).
    rewrite begun_handled, settled_handled.
    repeat split; try assumption.
    + rewrite <- Hacc, <- Hset. now rewrite <- app_assoc.
    + intros Hh data. cbn [MessageQueues.turn]. unfold MessageQueues.enqueueMessage.
      queue_fields. rewrite Hli, Hh. reflexivity.
  - destruct Hinv as (Hli & _ & Hp & _ & Hacc & Hset & _ & Hq).
    specialize (Hq Hf Hon). rewrite Hon in Hp.
    destruct (MessageQueues.drains c) as [|d rest] eqn:Hd; [|discriminate Hp].
    rewrite Hq. cbn [List.length Nat.add MessageQueues.settlements repeat
                     MessageQueues.play fold_left].
    cbn [map] in Hset. rewrite Hq, !app_nil_r in *.
    assert (Hinfo : MessageQueues.queueInfo c
                    = {| MessageQueues.queue := []; MessageQueues.processing := false |}).
    { destruct (MessageQueues.queueInfo c) as [q p]. cbn in Hq, Hon. now subst. }
    repeat split; try assumption.
    + now rewrite Hset.
    + intros Hh data. cbn [MessageQueues.turn]. unfold MessageQueues.enqueueMessage.
      rewrite Hli, Hh. reflexivity.
Qed.

Lemma drain_completes_witness :
  MessageQueues.fulfilled
    [MessageQueues.Message (Some hello); MessageQueues.Message None;
     MessageQueues.Close; MessageQueues.Message (Some photo)] = true /\
  MessageQueues.settled
    (MessageQueues.marks
       (MessageQueues.play
          ([MessageQueues.Message (Some hello); MessageQueues.Message None;
            MessageQueues.Close; MessageQueues.Message (Some photo)]
           ++ MessageQueues.settlements 2)
          MessageQueues.handleConnection))
  = [Some hello; None].
Proof.
  split; [reflexivity|].
  exact (proj1 (proj2 (proj2 (proj2 (proj2 (proj2 (proj2
           (drain_completes
              [MessageQueues.Message (Some hello); MessageQueues.Message None;
               MessageQueues.Close; MessageQueues.Message (Some photo)]
              eq_refl)))))))).
Defined.

(** ** Choosing and starting the store *)

Lemma falsy_has_no_field (v : value) name :
  truthy v = false ->
  match v with
  | Some c => prop name c
  | None => None
  end = None.
Proof. destruct v as [[|b|n|x|items|props]|]; cbn; intros H; congruence. Qed.

(** What [createStorageService] builds or throws. *)
Lemma createStorageService_run createClient disk configured config :
  let chosen := match config with
                | None => configured
                | Some _ => config
                end in
  let field := fun name => match chosen with
                           | Some c => prop name c
                           | None => None
                           end in
  let path := match configured with
              | Some (JStr p) => p
              | _ => "./data/messages.json"
              end in
  WebSocketServer.createStorageService createClient disk configured config
  = if strict_equals (field "mode") (Some (JStr "supabase"))
    then if truthy (field "supabaseUrl") && truthy (field "supabaseKey")
         then match createClient (field "supabaseUrl") (field "supabaseKey") with
              | Some error => Thrown error
              | None => Returned (Supabase SupabaseStorageService.create)
              end
         else Returned (FileBacked (StorageService.create "./data/messages.json"
                                      (disk "./data/messages.json")))
    else Returned (FileBacked (StorageService.create path (disk path))).
Proof.
  intros chosen field path.
  unfold WebSocketServer.createStorageService. cbv zeta. fold chosen.
  assert (Hf : forall name,
             match (if truthy chosen then chosen else Some (JObj [])) with
             | Some c => prop name c
             | None => None
             end = field name).
  { intros name. subst field. cbv beta.
    destruct (truthy chosen) eqn:E; [reflexivity|].
    now rewrite (falsy_has_no_field chosen name E). }
  rewrite !Hf. fold path.
  destruct (strict_equals (field "mode") (Some (JStr "supabase"))); [|reflexivity].
  unfold SupabaseStorageService.construct.
  destruct (truthy (field "supabaseUrl")), (truthy (field "supabaseKey"));
    cbn [negb orb andb]; try reflexivity.
  now destruct (createClient (field "supabaseUrl") (field "supabaseKey")).
Qed.

(** X20. Choosing the store. Whatever [createStorageService] is given as
    configuration (an object, a string, null, nothing), it throws only what
    the library's [createClient] throws, and calls it only when the
    configuration's mode is "supabase" and both credentials are truthy: the
    constructor's own check of the credentials never fails here. It builds
    the Supabase store exactly when the mode is "supabase", both
    credentials are truthy and [createClient] takes them. A configuration
    that asks for Supabase but lacks a credential gets the file-backed
    store on the default path instead. In every other case it builds the
    file-backed store, on the path the server was configured with when
    that is a string and on the default path otherwise. *)
Theorem createStorageService_falls_back createClient disk configured config :
  let chosen := match config with
                | None => configured
                | Some _ => config
                end in
  let field := fun name => match chosen with
                           | Some c => prop name c
                           | None => None
                           end in
  let path := match configured with
              | Some (JStr p) => p
              | _ => "./data/messages.json"
              end in
  let built := WebSocketServer.createStorageService createClient disk configured config in
  (forall error,
     built = Thrown error <->
     strict_equals (field "mode") (Some (JStr "supabase")) = true /\
     truthy (field "supabaseUrl") = true /\ truthy (field "supabaseKey") = true /\
     createClient (field "supabaseUrl") (field "supabaseKey") = Some error) /\
  (built = Returned (Supabase SupabaseStorageService.create) <->
   strict_equals (field "mode") (Some (JStr "supabase")) = true /\
   truthy (field "supabaseUrl") = true /\ truthy (field "supabaseKey") = true /\
   createClient (field "supabaseUrl") (field "supabaseKey") = None) /\
  (strict_equals (field "mode") (Some (JStr "supabase")) = true ->
   truthy (field "supabaseUrl") = false \/ truthy (field "supabaseKey") = false ->
   built = Returned (FileBacked (StorageService.create "./data/messages.json"
                                   (disk "./data/messages.json")))) /\
  (strict_equals (field "mode") (Some (JStr "supabase")) = false ->
   built = Returned (FileBacked (StorageService.create path (disk path)))).
Proof.
  intros chosen field path built.
  pose proof (createStorageService_run createClient disk configured config) as Hrun.
  cbv zeta in Hrun. fold chosen in Hrun. fold field in Hrun. fold path in Hrun.
  fold built in Hrun. rewrite Hrun. clear Hrun built.
  destruct (strict_equals (field "mode") (Some (JStr "supabase")));
    destruct (truthy (field "supabaseUrl")); destruct (truthy (field "supabaseKey"));
    cbn [andb];
    try destruct (createClient (field "supabaseUrl") (field "supabaseKey")) as [e|];
    (split; [intros error; split;
               [intros H; try discriminate H; injection H as <-; now repeat split
               |intros (H1 & H2 & H3 & H4); try discriminate; congruence]|]);
    (split; [split; [intros H; try discriminate H; now repeat split
                    |intros (H1 & H2 & H3 & H4); try discriminate; reflexivity]|]);
    (split; [intros Hm [H|H]; try discriminate Hm; try discriminate H; reflexivity
            |intros H; try discriminate H; reflexivity]).
Qed.

Lemma createStorageService_falls_back_witness :
  WebSocketServer.createStorageService (fun _ _ => Some "Invalid supabaseUrl")
    (fun _ => None)
    (Some (JObj [("mode", JStr "supabase"); ("supabaseUrl", JStr "https://db")]))
    None
  = Returned (FileBacked (StorageService.create "./data/messages.json" None)).
Proof.
  exact (proj1 (proj2 (proj2
           (createStorageService_falls_back (fun _ _ => Some "Invalid supabaseUrl")
              (fun _ => None)
              (Some (JObj [("mode", JStr "supabase"); ("supabaseUrl", JStr "https://db")]))
              None))) eq_refl (or_intror eq_refl)).
Defined.

(** X21. Starting from the environment. The server that server.js builds
    from the environment variables asks for the Supabase store exactly
    when STORAGE_MODE is "supabase" and SUPABASE_URL and SUPABASE_ANON_KEY
    are both set and not empty. Its construction then throws what the
    library's [createClient] throws for them, if anything; otherwise the
    server has an empty registry and the Supabase store, and [start] fails
    when the probe of the table reports an error, with the probe's error,
    and else exactly when the listener cannot be opened. In every other
    case, a missing credential included, the server is constructed with an
    empty registry on the file-backed store at ./data/messages.json;
    [start] then fails only when the listener cannot be opened, and the
    store ends up loaded with what the file held, or empty when the
    directory cannot be made or the file cannot be read. *)
Theorem boot_from_environment createClient disk STORAGE_MODE SUPABASE_URL
    SUPABASE_ANON_KEY env listen :
  let remote := match STORAGE_MODE with
                | Some mode => String.eqb mode "supabase"
                | None => false
                end
                && truthy (option_map JStr SUPABASE_URL)
                && truthy (option_map JStr SUPABASE_ANON_KEY) in
  let built := WebSocketServer.construct createClient disk
                 (Some (storageConfig STORAGE_MODE SUPABASE_URL SUPABASE_ANON_KEY)) in
  let opened := match listen with
                | Some error => Thrown error
                | None => Returned tt
                end in
  if remote then
    match createClient (option_map JStr SUPABASE_URL)
            (option_map JStr SUPABASE_ANON_KEY) with
    | Some error => built = Thrown error
    | None =>
        exists s,
          built = Returned s /\ sessions s = [] /\
          storageService s = Some (Supabase SupabaseStorageService.create) /\
          result (WebSocketServer.start env listen s)
          = match probe_error env with
            | Some code => Thrown (if String.eqb code "42P01"
                                   then "Database table not found" else code)
            | None => opened
            end
    end
  else
    exists s,
      built = Returned s /\ sessions s = [] /\
      storageService s
      = Some (FileBacked (StorageService.create "./data/messages.json"
                            (disk "./data/messages.json"))) /\
      result (WebSocketServer.start env listen s) = opened /\
      exists fs,
        storageService (after (WebSocketServer.start env listen s))
        = Some (FileBacked fs) /\
        StorageService.initialized fs = true /\
        StorageService.messages fs
        = if mkdir_fails env || readFile_fails env then []
          else match disk "./data/messages.json" with
               | Some kept => kept
               | None => []
               end.
Proof.
  intros remote built opened. subst built. unfold WebSocketServer.construct. cbv zeta.
  rewrite createStorageService_run.
  set (config := storageConfig STORAGE_MODE SUPABASE_URL SUPABASE_ANON_KEY).
  assert (Hmode : strict_equals (prop "mode" config) (Some (JStr "supabase"))
                  = match STORAGE_MODE with
                    | Some mode => String.eqb mode "supabase"
                    | None => false
                    end).
  { subst config. unfold storageConfig. cbn [prop assoc String.eqb Ascii.eqb Bool.eqb].
    destruct STORAGE_MODE as [mode|]; cbn [option_map or_else truthy]; [|reflexivity].
    destruct (String.eqb_spec mode "") as [->|_]; reflexivity. }
  assert (Hurl : prop "supabaseUrl" config = option_map JStr SUPABASE_URL).
  { subst config. unfold storageConfig.
    destruct SUPABASE_URL, SUPABASE_ANON_KEY; reflexivity. }
  assert (Hkey : prop "supabaseKey" config = option_map JStr SUPABASE_ANON_KEY).
  { subst config. unfold storageConfig.
    destruct SUPABASE_URL, SUPABASE_ANON_KEY; reflexivity. }
  cbv beta. rewrite Hmode, Hurl, Hkey. subst remote.
  clear Hmode Hurl Hkey. subst config. unfold storageConfig. cbv iota.
  assert (Hfile : forall fs0 : StorageService.t,
            fs0 = StorageService.create "./data/messages.json"
                    (disk "./data/messages.json") ->
            exists s,
              Returned {| sessions := []; storageService := Some (FileBacked fs0);
                          readyState := fun _ => 1 |} = Returned s /\
              sessions s = [] /\ storageService s = Some (FileBacked fs0) /\
              result (WebSocketServer.start env listen s) = opened /\
              exists fs,
                storageService (after (WebSocketServer.start env listen s))
                = Some (FileBacked fs) /\
                StorageService.initialized fs = true /\
                StorageService.messages fs
                = if mkdir_fails env || readFile_fails env then []
                  else match disk "./data/messages.json" with
                       | Some kept => kept
                       | None => []
                       end).
  { intros fs0 ->. eexists. split; [reflexivity|]. split; [reflexivity|].
    split; [reflexivity|]. split; [reflexivity|]. eexists. split; [reflexivity|].
    unfold StorageService.initialize, StorageService.readFile, StorageService.create.
    cbn [StorageService.file].
    destruct (mkdir_fails env); [now split|]. cbn [orb].
    destruct (readFile_fails env); [now split|].
    destruct (disk "./data/messages.json"); now split. }
  destruct (match STORAGE_MODE with
            | Some mode => String.eqb mode "supabase"
            | None => false
            end); cbn [andb].
  - destruct (truthy (option_map JStr SUPABASE_URL) &&
              truthy (option_map JStr SUPABASE_ANON_KEY)).
    + destruct (createClient (option_map JStr SUPABASE_URL)
                  (option_map JStr SUPABASE_ANON_KEY)); [reflexivity|].
      eexists. split; [reflexivity|]. split; [reflexivity|]. split; [reflexivity|].
      unfold WebSocketServer.start. cbn [storageService result snd].
      unfold SupabaseStorageService.initialize. now destruct (probe_error env).
    + now apply Hfile.
  - now apply Hfile.
Qed.

(** ** What the validator lets through *)

Lemma validate_chat props t body :
  prop "type" (JObj props) = Some (JStr t) ->
  MessageHandler.is_chat_type t = true ->
  prop "content" (JObj props) = Some (JStr body) ->
  MessageHandler.validateMessage (JObj props) =
  if String.eqb body "" then Some (t ++ " message must have a valid content field")%string
  else None.
Proof.
  intros Ht Hk Hc.
  assert (Hne : String.eqb t "" = false).
  { destruct (String.eqb_spec t "") as [->|_]; [discriminate Hk|reflexivity]. }
  assert (Hl : String.eqb t "LOGIN" = false).
  { destruct (String.eqb_spec t "LOGIN") as [->|_]; [discriminate Hk|reflexivity]. }
  unfold MessageHandler.validateMessage, MessageHandler.type_name,
    MessageHandler.is_string.
  rewrite Ht, Hc. cbn [truthy typeof negb orb String.eqb Ascii.eqb Bool.eqb].
  rewrite Hne, Hl, Hk. cbn [negb orb]. now destruct (String.eqb body "").
Qed.

Lemma validate_history props :
  prop "type" (JObj props) = Some (JStr "GET_HISTORY") ->
  (prop "lastMessageId" (JObj props) = None
   \/ exists i, prop "lastMessageId" (JObj props) = Some (JStr i)) ->
  (prop "limit" (JObj props) = None
   \/ exists n, prop "limit" (JObj props) = Some (JNum n)) ->
  MessageHandler.validateMessage (JObj props) = None.
Proof.
  intros Ht Hi Hn.
  unfold MessageHandler.validateMessage, MessageHandler.type_name,
    MessageHandler.is_string, MessageHandler.is_number.
  rewrite Ht. cbn [truthy typeof negb orb String.eqb Ascii.eqb Bool.eqb].
  change (MessageHandler.is_chat_type "GET_HISTORY") with false. cbv iota.
  destruct Hi as [->|(i & ->)], Hn as [->|(n & ->)]; reflexivity.
Qed.

(** X22. What the validator lets through. [validateMessage] accepts a
    value exactly when it is an object whose type is a string that is not
    empty and not SYSTEM and, for a LOGIN, whose userId is a string that is
    not empty; for a TEXT, IMAGE, VIDEO or AUDIO, whose content is a string
    that is not empty; for a GET_HISTORY, whose lastMessageId is absent or
    a string and whose limit is absent or a number. A type it does not
    know passes with no further check. *)
Theorem validateMessage_accepts data :
  MessageHandler.validateMessage data = None <->
  exists props t,
    data = JObj props /\ prop "type" data = Some (JStr t) /\ t <> "" /\ t <> "SYSTEM" /\
    (t = "LOGIN" -> exists u, prop "userId" data = Some (JStr u) /\ u <> "") /\
    (MessageHandler.is_chat_type t = true ->
     exists body, prop "content" data = Some (JStr body) /\ body <> "") /\
    (t = "GET_HISTORY" ->
     (prop "lastMessageId" data = None
      \/ exists i, prop "lastMessageId" data = Some (JStr i)) /\
     (prop "limit" data = None \/ exists n, prop "limit" data = Some (JNum n))).
Proof.
  split.
  - intros Hv. destruct (validated_type data Hv) as (props & t & Hd & Hp & Ht & Hne).
    exists props, t. split; [exact Hd|]. split; [exact Hp|]. split; [exact Hne|].
    split; [rewrite <- Ht; now apply validated_not_system|]. split; [|split].
    + intros E. apply (validated_login data Hv). now rewrite Ht.
    + intros E. apply (validated_chat data Hv). now rewrite Ht.
    + intros E. rewrite <- Ht in E. destruct (validated_history data Hv E) as [Hi Hn].
      split; [exact Hi|].
      destruct Hn as [[Hn _]|(n & Hn & _)]; [now left|right; now exists n].
  - intros (props & t & -> & Hp & Hne & Hsys & Hlogin & Hchat & Hhist).
    destruct (String.eqb_spec t "LOGIN") as [El|El].
    { subst t. destruct (Hlogin eq_refl) as (u & Hu & Hu').
      rewrite (validate_login props u Hp Hu).
      destruct (String.eqb_spec u ""); [contradiction|reflexivity]. }
    destruct (MessageHandler.is_chat_type t) eqn:Ek.
    { destruct (Hchat eq_refl) as (body & Hb & Hb').
      rewrite (validate_chat props t body Hp Ek Hb).
      destruct (String.eqb_spec body ""); [contradiction|reflexivity]. }
    destruct (String.eqb_spec t "GET_HISTORY") as [Eh|Eh].
    { subst t. destruct (Hhist eq_refl) as [Hi Hn]. now apply validate_history. }
    unfold MessageHandler.validateMessage, MessageHandler.type_name,
      MessageHandler.is_string.
    rewrite Hp. cbn [truthy typeof negb orb String.eqb Ascii.eqb Bool.eqb].
    destruct (String.eqb_spec t "") as [E|_]; [contradiction|]. cbn [negb orb].
    destruct (String.eqb_spec t "LOGIN") as [E|_]; [contradiction|].
    rewrite Ek.
    destruct (String.eqb_spec t "GET_HISTORY") as [E|_]; [contradiction|].
    destruct (String.eqb_spec t "SYSTEM") as [E|_]; [contradiction|reflexivity].
Qed.

Lemma validateMessage_accepts_witness :
  MessageHandler.validateMessage (JObj [("type", JStr "PING")]) = None.
Proof.
  apply (proj2 (validateMessage_accepts (JObj [("type", JStr "PING")]))).
  exists [("type", JStr "PING")], "PING".
  repeat split; try discriminate.
Defined.

(** ** No handler needs the dispatcher's rescue *)

Lemma safe_ret {A : Type} (a : A) : safe (ret a).
Proof. intros s. reflexivity. Qed.

Lemma safe_bind {A B : Type} (m : M A) (k : A -> M B) :
  safe m -> (forall a, safe (k a)) -> safe (bind m k).
Proof.
  intros Hm Hk s. unfold bind. specialize (Hm s).
  destruct (result (m s)) as [a|e]; [apply Hk|discriminate Hm].
Qed.

(** A [try] whose [catch] returns always returns. *)
Lemma safe_try {A : Type} (m : M A) handler :
  (forall e, safe (handler e)) -> safe (try_catch m handler).
Proof.
  intros Hh s. unfold try_catch.
  destruct (result (m s)) as [a|e] eqn:E; [now rewrite E|apply Hh].
Qed.

Lemma safe_send env ws frame : send_throws env ws = false -> safe (send env ws frame).
Proof. intros H s. rewrite send_run, H. reflexivity. Qed.

Lemma safe_persist env message : safe (MessageHandler.persist env message).
Proof. intros s. now rewrite persist_run. Qed.

Lemma safe_broadcast env message excludeWs :
  safe (WebSocketServer.broadcast env message excludeWs).
Proof. intros s. now rewrite broadcast_run. Qed.

Lemma safe_recent_history env ws : safe (MessageHandler.recent_history env ws).
Proof. intros s. now rewrite recent_history_run. Qed.

Lemma safe_sendErrorResponse env ws text :
  safe (WebSocketServer.sendErrorResponse env ws text).
Proof. intros s. now rewrite sendErrorResponse_run. Qed.

Lemma safe_deliver env ws data kind emptyError failure excludeWs :
  send_throws env ws = false ->
  safe (MessageHandler.deliver WebSocketServer.broadcast env ws data
          kind emptyError failure excludeWs).
Proof.
  intros H. unfold MessageHandler.deliver. apply safe_try. intros _. now apply safe_send.
Qed.

Lemma safe_handleGetHistory env ws data :
  send_throws env ws = false ->
  safe (MessageHandler.handleGetHistory env ws data).
Proof.
  intros H. unfold MessageHandler.handleGetHistory.
  apply safe_bind; [intros ?; reflexivity|]. intros found.
  destruct (MessageHandler.bound found); [|now apply safe_send].
  apply safe_bind; [intros ?; reflexivity|]. intros stored.
  destruct (negb stored); [now apply safe_send|].
  apply safe_try. intros _. now apply safe_send.
Qed.

Lemma safe_handleLogin env ws props u :
  prop "userId" (JObj props) = Some (JStr u) ->
  send_throws env ws = false ->
  safe (MessageHandler.handleLogin WebSocketServer.broadcast env ws (JObj props)).
Proof.
  intros Hu H s. unfold MessageHandler.handleLogin.
  rewrite (bind_pure _ _ s (prop "userId" (JObj props))) by reflexivity.
  rewrite Hu.
  assert (Hm : missing_or_blank (Some (JStr u)) s
               = {| after := s; effects := [];
                    result := Returned (if String.eqb u "" then true else blank u) |}).
  { unfold missing_or_blank. cbn [truthy]. now destruct (String.eqb u ""). }
  rewrite (bind_pure _ _ s _ Hm).
  destruct (if String.eqb u "" then true else blank u); [now apply safe_send|].
  apply safe_try. intros _. now apply safe_send.
Qed.

(** X23. No handler needs the dispatcher's rescue. For a frame the
    validator lets through, on a socket whose send works, the handler the
    dispatcher routes to returns normally from every state, whatever the
    store does and whatever the other sockets' sends do: validation has
    ruled out the values on which a handler would throw a TypeError, and
    the handlers catch their own store and broadcast failures. So the
    [catch] around the dispatch never runs, and [handleMessage] does
    exactly what the routed handler does. *)
Theorem handlers_need_no_rescue env ws data s :
  MessageHandler.validateMessage data = None ->
  send_throws env ws = false ->
  result (WebSocketServer.route env ws data s) = Returned tt /\
  WebSocketServer.handleMessage env ws (Some data) s = WebSocketServer.route env ws data s.
Proof.
  intros Hv Hsend.
  assert (Hsafe : safe (WebSocketServer.route env ws data)).
  { destruct (validated_type data Hv) as (props & t & -> & _ & Ht & _).
    unfold WebSocketServer.route. cbv zeta.
    destruct (String.eqb_spec (MessageHandler.type_name (JObj props)) "LOGIN") as [E|_].
    { destruct (validated_login _ Hv E) as (u & Hu & _).
      now apply (safe_handleLogin env ws props u). }
    unfold MessageHandler.handleTextMessage, MessageHandler.handleMediaMessage.
    repeat match goal with
           | |- safe (if ?c then _ else _) => destruct c
           end;
      first [ now apply safe_deliver | now apply safe_handleGetHistory
            | apply safe_sendErrorResponse ]. }
  specialize (Hsafe s).
  destruct (result (WebSocketServer.route env ws data s)) as [[]|e] eqn:E;
    [|discriminate Hsafe].
  split; [reflexivity|].
  rewrite (handleMessage_routed _ _ _ _ Hv). unfold try_catch. now rewrite E.
Qed.

Lemma handlers_need_no_rescue_witness :
  (MessageHandler.validateMessage (history_request "m3" 2) = None /\
   send_throws unreadable 7%nat = false) /\
  WebSocketServer.handleMessage unreadable 7%nat (Some (history_request "m3" 2))
    (fresh [m1; m2; m3])
  = WebSocketServer.route unreadable 7%nat (history_request "m3" 2) (fresh [m1; m2; m3]).
Proof.
  split; [split; reflexivity|].
  exact (proj2 (handlers_need_no_rescue unreadable 7%nat (history_request "m3" 2)
                  (fresh [m1; m2; m3]) eq_refl eq_refl)).
Defined.

(** ** A login that cannot be acknowledged *)

(** X24. A login is not rolled back. When a LOGIN whose userId is not
    blank arrives on a socket whose send throws, the session is registered
    all the same and stays registered: the socket speaks for a user from
    then on. The socket is handed LOGIN_SUCCESS, then "Login failed", then
    (while it is open) "Failed to process message", each of which throws;
    no history is loaded, no joined notice is saved, and nobody else is
    told that the user joined. The dispatcher returns normally. *)
Theorem login_not_rolled_back env ws props u s :
  prop "type" (JObj props) = Some (JStr "LOGIN") ->
  prop "userId" (JObj props) = Some (JStr u) ->
  blank u = false ->
  send_throws env ws = true ->
  let run := WebSocketServer.handleMessage env ws (Some (JObj props)) s in
  result run = Returned tt /\
  after run = registered env u ws s /\
  effects run
  = [Register u ws; Send ws (LOGIN_SUCCESS u); Send ws (ERROR "Login failed" None)]
    ++ (if readyState s ws =? 1
        then [Send ws (ERROR "Failed to process message" (Some (now env)))]
        else []) /\
  SessionManager.getSession u (sessions (after run))
  = Some {| SessionManager.userId := u; SessionManager.ws := ws;
            SessionManager.connectedAt := now env;
            SessionManager.lastActivity := now env |} /\
  SessionManager.findUserIdByWs ws (sessions (after run)) <> None.
Proof.
  intros Ht Hu Hblank Hsend run.
  assert (Hne : u <> "") by (intros ->; discriminate Hblank).
  assert (Hv : MessageHandler.validateMessage (JObj props) = None).
  { rewrite (validate_login props u Ht Hu).
    destruct (String.eqb_spec u ""); [contradiction|reflexivity]. }
  assert (Hl : MessageHandler.handleLogin WebSocketServer.broadcast env ws (JObj props) s
               = {| after := registered env u ws s;
                    effects := [Register u ws; Send ws (LOGIN_SUCCESS u)]
                               ++ [Send ws (ERROR "Login failed" None)];
                    result := Thrown "send" |}).
  { unfold MessageHandler.handleLogin.
    rewrite (bind_pure _ _ s (prop "userId" (JObj props))) by reflexivity.
    rewrite Hu. rewrite (bind_pure _ _ s _ (missing_or_blank_string u s Hne)).
    rewrite Hblank.
    rewrite (try_thrown _ _ _ _ _ _ (login_throwing env ws u s Hsend)).
    rewrite send_run, Hsend. reflexivity. }
  assert (Hrun : run = {| after := registered env u ws s;
                          effects := ([Register u ws; Send ws (LOGIN_SUCCESS u)]
                                      ++ [Send ws (ERROR "Login failed" None)])
                                     ++ (if readyState s ws =? 1
                                         then [Send ws (ERROR "Failed to process message"
                                                          (Some (now env)))]
                                         else []);
                          result := Returned tt |}).
  { subst run. rewrite (handleMessage_routed _ _ _ _ Hv).
    rewrite (route_login _ _ _ (type_name_login props Ht)).
    rewrite (try_thrown _ _ _ _ _ _ Hl). now rewrite sendErrorResponse_run. }
  rewrite Hrun. cbn [after effects result registered sessions].
  split; [reflexivity|]. split; [reflexivity|]. split; [reflexivity|]. split.
  - unfold SessionManager.createSession. apply getSession_set_same.
  - apply findUserIdByWs_bound.
Qed.
Lemma login_not_rolled_back_witness :
  (prop "type" (login_as "carol") = Some (JStr "LOGIN") /\
   prop "userId" (login_as "carol") = Some (JStr "carol") /\
   blank "carol" = false /\ send_throws unsendable 3%nat = true) /\
  SessionManager.findUserIdByWs 3%nat
    (sessions (after (WebSocketServer.handleMessage unsendable 3%nat
                        (Some (login_as "carol")) (lobby []))))
  <> None.
Proof.
  split; [repeat split|].
  exact (proj2 (proj2 (proj2 (proj2
           (login_not_rolled_back unsendable 3%nat
              [("type", JStr "LOGIN"); ("userId", JStr "carol")] "carol" (lobby [])
              eq_refl eq_refl eq_refl eq_refl))))).
Defined.

(** ** Data URLs *)

Lemma startsWith_app prefix s :
  SupabaseStorageService.startsWith prefix (prefix ++ s) = Some s.
Proof.
  induction prefix as [|a prefix IH]; cbn; [now destruct s|].
  now rewrite Ascii.eqb_refl.
Qed.

Lemma startsWith_inv prefix : forall s rest,
  SupabaseStorageService.startsWith prefix s = Some rest -> s = (prefix ++ rest)%string.
Proof.
  induction prefix as [|a prefix IH]; intros s rest; cbn.
  - destruct s; now intros [= ->].
  - destruct s as [|b s]; [discriminate|].
    destruct (Ascii.eqb_spec a b) as [->|_]; [|discriminate].
    intros H. now rewrite (IH _ _ H).
Qed.

Lemma upToSemicolon_app taken rest :
  SupabaseStorageService.some_char SupabaseStorageService.isSemicolon taken = false ->
  SupabaseStorageService.upToSemicolon (taken ++ String ";" rest)
  = (taken, String ";" rest).
Proof.
  induction taken as [|c taken IH]; cbn [append SupabaseStorageService.upToSemicolon
                                         SupabaseStorageService.some_char].
  - reflexivity.
  - intros H. apply orb_false_iff in H. destruct H as [Hc Ht].
    rewrite Hc, (IH Ht). reflexivity.
Qed.

Lemma upToSemicolon_inv s : forall taken left,
  SupabaseStorageService.upToSemicolon s = (taken, left) ->
  s = (taken ++ left)%string /\
  SupabaseStorageService.some_char SupabaseStorageService.isSemicolon taken = false.
Proof.
  induction s as [|c s IH]; intros taken left; cbn [SupabaseStorageService.upToSemicolon].
  - intros [= <- <-]. now split.
  - destruct (SupabaseStorageService.isSemicolon c) eqn:E.
    + intros [= <- <-]. now split.
    + destruct (SupabaseStorageService.upToSemicolon s) as [t l].
      intros [= <- <-]. destruct (IH t l eq_refl) as [-> Ht].
      cbn [append SupabaseStorageService.some_char]. rewrite E, Ht. now split.
Qed.

(** X25. Data URLs. The text that [uploadMedia] accepts is exactly
    "data:" followed by a content type that is not empty and holds no
    semicolon, then ";base64,", then a payload that is not empty and holds
    no line terminator; the content type and the payload it reads back are
    those very parts. On any other text it throws "Invalid base64 data
    format" and requests no upload. On an accepted text it requests one
    upload, of that payload with that content type, under the file name
    prefixed with the current time and into the bucket named, or
    chat-media when none is; it returns the object's public address when
    the upload is accepted and throws when it is not. *)
Theorem uploadMedia_reads_data_url env upload_error publicUrl base64Data fileName bucket :
  (forall contentType base64Content,
     SupabaseStorageService.match_data_url base64Data = Some (contentType, base64Content)
     <->
     base64Data = ("data:" ++ contentType ++ ";base64," ++ base64Content)%string /\
     contentType <> "" /\
     SupabaseStorageService.some_char SupabaseStorageService.isSemicolon contentType
     = false /\
     base64Content <> "" /\
     SupabaseStorageService.some_char SupabaseStorageService.isLineTerminator base64Content
     = false) /\
  (SupabaseStorageService.match_data_url base64Data = None ->
   SupabaseStorageService.uploadMedia env upload_error publicUrl base64Data fileName bucket
   = ([], Thrown "Invalid base64 data format")) /\
  (forall contentType base64Content,
     SupabaseStorageService.match_data_url base64Data = Some (contentType, base64Content) ->
     let request :=
       {| SupabaseStorageService.bucket := match bucket with
                                           | Some b => b
                                           | None => "chat-media"
                                           end;
          SupabaseStorageService.uniqueFileName :=
            (string_of_Z (now env) ++ "-" ++ fileName)%string;
          SupabaseStorageService.base64Content := base64Content;
          SupabaseStorageService.contentType := contentType |} in
     SupabaseStorageService.uploadMedia env upload_error publicUrl base64Data fileName bucket
     = ([request],
        if upload_error request then Thrown "upload"
        else Returned (publicUrl (SupabaseStorageService.bucket request)
                         (SupabaseStorageService.uniqueFileName request)))).
Proof.
  split; [|split].
  - intros contentType base64Content. unfold SupabaseStorageService.match_data_url. split.
    + destruct (SupabaseStorageService.startsWith "data:" base64Data) as [rest|] eqn:Hp;
        [|discriminate].
      apply startsWith_inv in Hp.
      destruct (SupabaseStorageService.upToSemicolon rest) as [taken tail] eqn:Hs.
      apply upToSemicolon_inv in Hs. destruct Hs as [Hrest Hsemi].
      destruct (String.eqb_spec taken "") as [|Hne]; [discriminate|].
      destruct (SupabaseStorageService.startsWith ";base64," tail) as [payload|] eqn:Ht;
        [|discriminate].
      apply startsWith_inv in Ht.
      destruct (String.eqb_spec payload "") as [|Hpe]; [discriminate|]. cbn [orb].
      destruct (SupabaseStorageService.some_char SupabaseStorageService.isLineTerminator
                  payload) eqn:Hl; [discriminate|].
      intros [= <- <-]. subst base64Data rest tail. repeat split; assumption.
    + intros (-> & Hne & Hsemi & Hpe & Hl).
      rewrite startsWith_app.
      change (";base64," ++ base64Content)%string
        with (String ";" ("base64," ++ base64Content))%string.
      rewrite (upToSemicolon_app _ _ Hsemi).
      destruct (String.eqb_spec contentType "") as [E|_]; [contradiction|].
      change (String ";" ("base64," ++ base64Content))%string
        with (";base64," ++ base64Content)%string.
      rewrite startsWith_app.
      destruct (String.eqb_spec base64Content "") as [E|_]; [contradiction|].
      cbn [orb]. now rewrite Hl.
  - intros H. unfold SupabaseStorageService.uploadMedia. now rewrite H.
  - intros contentType base64Content H request.
    unfold SupabaseStorageService.uploadMedia. rewrite H. cbv zeta. fold request.
    now destruct (upload_error request).
Qed.

Lemma uploadMedia_reads_data_url_witness :
  SupabaseStorageService.match_data_url "data:image/png;base64,iVBORw0KGgo="
  = Some ("image/png", "iVBORw0KGgo=") /\
  SupabaseStorageService.uploadMedia calm (fun _ => false)
    (fun b n => ("https://cdn/" ++ b ++ "/" ++ n)%string)
    "data:image/png;base64,iVBORw0KGgo=" "cat.png" None
  = ([{| SupabaseStorageService.bucket := "chat-media";
         SupabaseStorageService.uniqueFileName := "1700000000999-cat.png";
         SupabaseStorageService.base64Content := "iVBORw0KGgo=";
         SupabaseStorageService.contentType := "image/png" |}],
     Returned "https://cdn/chat-media/1700000000999-cat.png").
Proof.
  pose proof (uploadMedia_reads_data_url calm (fun _ => false)
                (fun b n => ("https://cdn/" ++ b ++ "/" ++ n)%string)
                "data:image/png;base64,iVBORw0KGgo=" "cat.png" None) as (Hiff & _ & Hup).
  assert (Hm : SupabaseStorageService.match_data_url "data:image/png;base64,iVBORw0KGgo="
               = Some ("image/png", "iVBORw0KGgo=")).
  { apply Hiff. repeat split; discriminate. }
  split; [exact Hm|]. exact (Hup _ _ Hm).
Defined.

(** ** A remote table that cannot be reached *)

Lemma same_storage s st :
  storageService s = Some st ->
  {| sessions := sessions s; storageService := Some st; readyState := readyState s |} = s.
Proof. destruct s. cbn. now intros ->. Qed.

(** X26. A remote table that cannot be reached. While the Supabase store
    has not been initialized and the probe of the table reports an error,
    [initialize] and [getMessagesBefore] both throw (with "Database table
    not found" for the code 42P01) and leave the store uninitialized, so
    the next call probes again; a read whose probe succeeds leaves the
    store initialized and returns its page. A history request from a bound
    socket is answered, while the probe fails, with the ERROR "Failed to
    retrieve message history", not with an empty page, and the server is
    left as it was. *)
Theorem supabase_probe_failure env sb code :
  SupabaseStorageService.initialized sb = false ->
  probe_error env = Some code ->
  let error := if String.eqb code "42P01" then "Database table not found" else code in
  SupabaseStorageService.initialize env sb = (sb, Thrown error) /\
  (forall messageId limit,
     SupabaseStorageService.getMessagesBefore env messageId limit sb = (sb, Thrown error)) /\
  (forall env' messageId limit,
     probe_error env' = None ->
     exists messages,
       SupabaseStorageService.getMessagesBefore env' messageId limit sb
       = ({| SupabaseStorageService.initialized := true |}, Returned messages)) /\
  (forall ws data userId s,
     storageService s = Some (Supabase sb) ->
     MessageHandler.validateMessage data = None ->
     MessageHandler.type_name data = "GET_HISTORY" ->
     MessageHandler.bound (SessionManager.findUserIdByWs ws (sessions s)) = Some userId ->
     send_throws env ws = false ->
     exists limit,
       WebSocketServer.handleMessage env ws (Some data) s
       = {| after := s;
            effects := [Query (prop "lastMessageId" data) limit;
                        Send ws (ERROR "Failed to retrieve message history" None)];
            result := Returned tt |}).
Proof.
  intros Hi Hp error.
  assert (Hget : forall messageId limit,
             SupabaseStorageService.getMessagesBefore env messageId limit sb
             = (sb, Thrown error)).
  { intros messageId limit. unfold SupabaseStorageService.getMessagesBefore.
    cbv zeta. rewrite Hi. unfold SupabaseStorageService.initialize. now rewrite Hp. }
  split; [|split; [exact Hget|split]].
  - unfold SupabaseStorageService.initialize. now rewrite Hp.
  - intros env' messageId limit Hok. unfold SupabaseStorageService.getMessagesBefore.
    cbv zeta. rewrite Hi. unfold SupabaseStorageService.initialize. rewrite Hok.
    destruct (truthy messageId); [destruct (target_reply env' messageId)|];
      eexists; reflexivity.
  - intros ws data userId s Hst Hv Ht Hb Hsend.
    destruct (history_dispatch env ws data userId (Supabase sb) s Hv Ht Hb Hst Hsend)
      as (limit & _ & Hrun).
    exists limit. rewrite Hrun.
    unfold asked, answer. cbn [storage_getMessagesBefore].
    rewrite Hget. cbn [fst snd]. now rewrite (same_storage s _ Hst).
Qed.

Lemma supabase_probe_failure_witness :
  (SupabaseStorageService.initialized SupabaseStorageService.create = false /\
   probe_error tableless = Some "42P01") /\
  SupabaseStorageService.getMessagesBefore tableless None (Some 20)
    SupabaseStorageService.create
  = (SupabaseStorageService.create, Thrown "Database table not found").
Proof.
  split; [split; reflexivity|].
  exact (proj1 (proj2 (supabase_probe_failure tableless SupabaseStorageService.create
                         "42P01" eq_refl eq_refl)) None (Some 20)).
Defined.
